(** * LANCast stream lifecycle orchestrator

  A shallow embedding of the server core of LANCast:
  - [State]      : src/server/state.js      (class AppState)
  - [Rtmp]       : src/server/rtmp.js       (the prePublish handler)
  - [Transcoder] : src/server/transcoder.js (start / stop / exit handling)
  - [Websocket]  : src/server/websocket.js  (connection handling, heartbeat)
  - [StateMore], [TranscoderMore] : cleanup, and the states the modules reach
  - [Publish]    : src/server/rtmp.js and index.js (postPublish, donePublish,
                   extractMetadata, the wiring to the transcoder)
  - [Encoder]    : src/server/transcoder.js (detectHardwareEncoder, getEncoderArgs)
  - [Config]     : src/server/config.js     (validateConfig, applyEnvOverrides)
  - [Hub]        : src/server/websocket.js  (handleConnection, status messages)
  - [Segments]   : src/server/transcoder.js (validateAllSegments)

  JavaScript objects are records, the [Map] of viewer sessions is a [gmap]
  keyed by session id, and the effects of the code (mutation of the
  application state, calls of the registered listeners, signals, timers,
  file cleanup) are threaded through small state monads that log them. *)

From Stdlib Require Import ZArith List Bool Ascii Lia.
From stdpp Require Import gmap strings list fin_maps pretty.

(* ===================================================================== *)
(** ** JavaScript values used by the server *)
(* ===================================================================== *)

Module Js.

(** Truthiness of an optional string: [undefined] and [''] are falsy. *)
Definition truthy_str (o : option string) : bool :=
  match o with
  | Some s => negb (String.eqb s EmptyString)
  | None => false
  end.

(** Truthiness of an optional integer: [undefined] and [0] are falsy. *)
Definition truthy_num (o : option Z) : bool :=
  match o with
  | Some n => negb (n =? 0)%Z
  | None => false
  end.

(** [o || d] on strings. *)
Definition or_str (o : option string) (d : string) : string :=
  match o with
  | Some s => if String.eqb s EmptyString then d else s
  | None => d
  end.

(** [o || d] on integers. *)
Definition or_num (o : option Z) (d : Z) : Z :=
  match o with
  | Some n => if (n =? 0)%Z then d else n
  | None => d
  end.

(** Result of a call that may throw. *)
Inductive Res (E A : Type) : Type :=
| Ok (a : A)
| Throw (e : E).
Arguments Ok {E A} a.
Arguments Throw {E A} e.

(** State monad with exceptions: a call runs on a store [S], returns or
    throws, and leaves a store behind in both cases. *)
Definition Eff (S E A : Type) : Type := S -> Res E A * S.

Definition ret {S E A} (a : A) : Eff S E A := fun s => (Ok a, s).

Definition bind {S E A B} (m : Eff S E A) (k : A -> Eff S E B) : Eff S E B :=
  fun s =>
    match m s with
    | (Ok a, s') => k a s'
    | (Throw e, s') => (Throw e, s')
    end.

Definition throw {S E A} (e : E) : Eff S E A := fun s => (Throw e, s).
Definition gets {S E A} (f : S -> A) : Eff S E A := fun s => (Ok (f s), s).
Definition update {S E} (f : S -> S) : Eff S E unit := fun s => (Ok tt, f s).

(** Runs a call on a component [T] of the store [S]. *)
Definition zoom {S T E A} (get : S -> T) (set : T -> S -> S) (m : Eff T E A)
  : Eff S E A :=
  fun s => let (r, t') := m (get s) in (r, set t' s).

(** [for (const x of l) body(x)] *)
Fixpoint for_each {S E A} (l : list A) (body : A -> Eff S E unit) : Eff S E unit :=
  match l with
  | [] => ret tt
  | x :: l' => bind (body x) (fun _ => for_each l' body)
  end.

Declare Scope js_scope.
Delimit Scope js_scope with js.
Notation "x <- m ;; k" := (bind m (fun x => k))
  (at level 100, m at next level, right associativity) : js_scope.
Notation "m ;;; k" := (bind m (fun _ => k))
  (at level 100, right associativity) : js_scope.

End Js.

(* ===================================================================== *)
(** ** state.js : class AppState *)
(* ===================================================================== *)

Module State.
Import Js.

(** The fields a live stream object carries besides [id] and [status]. *)
Record LiveStream : Type := mkLive {
  publisherIP : option string;   (* metadata.publisherIP, may be undefined *)
  resolution : string;
  bitrate : Z;
  startTime : Z                  (* new Date(), in milliseconds *)
}.

(** [this.stream] is only ever assigned one of two object literals:
    [{ id: 'live', status: 'offline' }] and
    [{ id: 'live', status: 'live', publisherIP, resolution, bitrate, startTime }]. *)
Inductive Stream : Type :=
| Offline
| Live (d : LiveStream).

Inductive Status : Type := offline | live.

Definition status (s : Stream) : Status :=
  match s with Offline => offline | Live _ => live end.

Definition is_live (s : Stream) : bool :=
  match s with Offline => false | Live _ => true end.

(** Argument of [startStream] and [updateStreamMetadata]. *)
Record Metadata : Type := mkMetadata {
  md_publisherIP : option string;
  md_resolution : option string;
  md_bitrate : option Z
}.

(** A WebSocket connection is referred to by a handle. *)
Definition WsRef : Type := nat.

Record ViewerSession : Type := mkSession {
  id : string;
  connectedAt : Z;
  lastPing : Z;
  quality : string;
  websocket : WsRef
}.

(** Registered listeners are referred to by a handle. *)
Definition Callback : Type := nat.

Record Listeners : Type := mkListeners {
  on_streamChange : list Callback;
  on_viewerChange : list Callback
}.

Record AppState : Type := mkAppState {
  maxViewers : Z;                         (* this.config.limits.maxViewers *)
  stream : Stream;
  viewers : gmap string ViewerSession;
  _listeners : Listeners
}.

(** What [getStreamInfo] returns. *)
Record StreamDetails : Type := mkDetails {
  si_resolution : string;
  si_bitrate : Z;
  si_startTime : Z;
  si_duration : Z
}.

Record StreamInfo : Type := mkInfo {
  info_live : bool;
  viewerCount : nat;
  streamInfo : option StreamDetails
}.

Inductive EventName : Type := streamChange | viewerChange.

Inductive Payload : Type :=
| InfoPayload (i : StreamInfo)
| CountPayload (n : nat).

(** One call of [_emit]: the event, its data, and the listeners called. *)
Record Emission : Type := mkEmission {
  ev : EventName;
  data : Payload;
  receivers : list Callback
}.

(** The object together with the wall clock it reads and the log of its
    [_emit] calls. The registered listeners (the broadcast of
    websocket.js) only read the state; a listener that throws is caught
    inside [_emit]. *)
Record Sys : Type := mkSys {
  app : AppState;
  clock : Z;
  emitted : list Emission
}.

Inductive Error : Type := StreamAlreadyActive.

Definition M (A : Type) : Type := Eff Sys Error A.

Definition this : M AppState := gets app.
Definition now : M Z := gets clock.
Definition modify (f : AppState -> AppState) : M unit :=
  update (fun s => mkSys (f (app s)) (clock s) (emitted s)).
Definition log (e : Emission) : M unit :=
  update (fun s => mkSys (app s) (clock s) (emitted s ++ [e])).

Local Open Scope js_scope.

Definition set_stream (st : Stream) (a : AppState) : AppState :=
  mkAppState (maxViewers a) st (viewers a) (_listeners a).

Definition set_viewers (v : gmap string ViewerSession) (a : AppState) : AppState :=
  mkAppState (maxViewers a) (stream a) v (_listeners a).

Definition set_listeners (l : Listeners) (a : AppState) : AppState :=
  mkAppState (maxViewers a) (stream a) (viewers a) l.

(** constructor(config) *)
Definition new_AppState (config_maxViewers : Z) : AppState :=
  mkAppState config_maxViewers Offline ∅ (mkListeners [] []).

Definition fresh (config_maxViewers : Z) (t0 : Z) : Sys :=
  mkSys (new_AppState config_maxViewers) t0 [].

(** *** Event system *)

Definition listeners_of (e : EventName) (a : AppState) : list Callback :=
  match e with
  | streamChange => on_streamChange (_listeners a)
  | viewerChange => on_viewerChange (_listeners a)
  end.

Definition on (e : EventName) (cb : Callback) : M unit :=
  modify (fun a =>
    match e with
    | streamChange =>
        set_listeners (mkListeners (on_streamChange (_listeners a) ++ [cb])
                                   (on_viewerChange (_listeners a))) a
    | viewerChange =>
        set_listeners (mkListeners (on_streamChange (_listeners a))
                                   (on_viewerChange (_listeners a) ++ [cb])) a
    end).

Definition off (e : EventName) (cb : Callback) : M unit :=
  let keep := filter (fun c => c ≠ cb) in
  modify (fun a =>
    match e with
    | streamChange =>
        set_listeners (mkListeners (keep (on_streamChange (_listeners a)))
                                   (on_viewerChange (_listeners a))) a
    | viewerChange =>
        set_listeners (mkListeners (on_streamChange (_listeners a))
                                   (keep (on_viewerChange (_listeners a)))) a
    end).

Definition _emit (e : EventName) (d : Payload) : M unit :=
  a <- this ;;
  log (mkEmission e d (listeners_of e a)).

(** *** Stream operations *)

Definition getViewerCount : M nat :=
  a <- this ;; ret (size (viewers a)).

Definition getStreamInfo : M StreamInfo :=
  a <- this ;;
  match stream a with
  | Offline => ret (mkInfo false (size (viewers a)) None)
  | Live d =>
      t <- now ;;
      ret (mkInfo true (size (viewers a))
             (Some (mkDetails (resolution d) (bitrate d) (startTime d)
                              ((t - startTime d) / 1000)%Z)))
  end.

Definition startStream (metadata : Metadata) : M unit :=
  a <- this ;;
  if is_live (stream a) then throw StreamAlreadyActive
  else
    t <- now ;;
    modify (set_stream (Live (mkLive (md_publisherIP metadata)
                                     (or_str (md_resolution metadata) "unknown")
                                     (or_num (md_bitrate metadata) 0)
                                     t))) ;;;
    i <- getStreamInfo ;;
    _emit streamChange (InfoPayload i).

Definition stopStream : M unit :=
  modify (set_stream Offline) ;;;
  i <- getStreamInfo ;;
  _emit streamChange (InfoPayload i).

Definition set_resolution (r : string) (a : AppState) : AppState :=
  match stream a with
  | Live d => set_stream (Live (mkLive (publisherIP d) r (bitrate d) (startTime d))) a
  | Offline => a
  end.

Definition set_bitrate (b : Z) (a : AppState) : AppState :=
  match stream a with
  | Live d => set_stream (Live (mkLive (publisherIP d) (resolution d) b (startTime d))) a
  | Offline => a
  end.

(** [metadata.resolution && metadata.resolution !== 'unknown'] *)
Definition writes_resolution (metadata : Metadata) : bool :=
  truthy_str (md_resolution metadata)
  && negb (String.eqb (or_str (md_resolution metadata) EmptyString) "unknown").

(** [metadata.bitrate && metadata.bitrate > 0] *)
Definition writes_bitrate (metadata : Metadata) : bool :=
  truthy_num (md_bitrate metadata) && (0 <? or_num (md_bitrate metadata) 0)%Z.

Definition updateStreamMetadata (metadata : Metadata) : M unit :=
  a <- this ;;
  if negb (is_live (stream a)) then ret tt
  else
    updated1 <-
      (if writes_resolution metadata
       then modify (set_resolution (or_str (md_resolution metadata) EmptyString)) ;;; ret true
       else ret false) ;;
    updated2 <-
      (if writes_bitrate metadata
       then modify (set_bitrate (or_num (md_bitrate metadata) 0)) ;;; ret true
       else ret updated1) ;;
    if updated2
    then i <- getStreamInfo ;; _emit streamChange (InfoPayload i)
    else ret tt.

(** The fields of a live stream once the assignments of
    [updateStreamMetadata] are done. *)
Definition refreshed (metadata : Metadata) (d : LiveStream) : LiveStream :=
  mkLive (publisherIP d)
         (if writes_resolution metadata
          then or_str (md_resolution metadata) EmptyString else resolution d)
         (if writes_bitrate metadata
          then or_num (md_bitrate metadata) 0 else bitrate d)
         (startTime d).

Definition canStream : M bool :=
  a <- this ;; ret (negb (is_live (stream a))).

(** *** Viewer operations *)

(** [uuid] is the value [crypto.randomUUID()] returns in this call. *)
Definition addViewer (uuid : string) (ws : WsRef) : M (option ViewerSession) :=
  a <- this ;;
  if (Z.of_nat (size (viewers a)) >=? maxViewers a)%Z then ret None
  else
    t <- now ;;
    let session := mkSession uuid t t "1080p" ws in
    modify (fun a => set_viewers (<[id session := session]> (viewers a)) a) ;;;
    n <- getViewerCount ;;
    _emit viewerChange (CountPayload n) ;;;
    ret (Some session).

Definition removeViewer (i : string) : M unit :=
  a <- this ;;
  match viewers a !! i with
  | Some _ =>
      modify (fun a => set_viewers (delete i (viewers a)) a) ;;;
      n <- getViewerCount ;;
      _emit viewerChange (CountPayload n)
  | None => ret tt
  end.

Definition with_quality (q : string) (v : ViewerSession) : ViewerSession :=
  mkSession (id v) (connectedAt v) (lastPing v) q (websocket v).

Definition with_lastPing (t : Z) (v : ViewerSession) : ViewerSession :=
  mkSession (id v) (connectedAt v) t (quality v) (websocket v).

Definition updateViewerQuality (i : string) (q : string) : M unit :=
  a <- this ;;
  match viewers a !! i with
  | Some _ => modify (fun a => set_viewers (alter (with_quality q) i (viewers a)) a)
  | None => ret tt
  end.

Definition updateViewerPing (i : string) : M unit :=
  a <- this ;;
  match viewers a !! i with
  | Some _ =>
      t <- now ;;
      modify (fun a => set_viewers (alter (with_lastPing t) i (viewers a)) a)
  | None => ret tt
  end.

Definition isRoomFull : M bool :=
  a <- this ;; ret (Z.of_nat (size (viewers a)) >=? maxViewers a)%Z.

(** *** Sequences of calls *)

Inductive Op : Type :=
| OpStartStream (metadata : Metadata)
| OpStopStream
| OpUpdateStreamMetadata (metadata : Metadata)
| OpAddViewer (uuid : string) (ws : WsRef)
| OpRemoveViewer (i : string)
| OpUpdateViewerQuality (i : string) (q : string)
| OpUpdateViewerPing (i : string)
| OpOn (e : EventName) (cb : Callback)
| OpOff (e : EventName) (cb : Callback)
| OpWait (dt : nat).               (* time passes between two calls *)

Definition step (o : Op) (s : Sys) : Sys :=
  match o with
  | OpStartStream md => snd (startStream md s)
  | OpStopStream => snd (stopStream s)
  | OpUpdateStreamMetadata md => snd (updateStreamMetadata md s)
  | OpAddViewer uuid ws => snd (addViewer uuid ws s)
  | OpRemoveViewer i => snd (removeViewer i s)
  | OpUpdateViewerQuality i q => snd (updateViewerQuality i q s)
  | OpUpdateViewerPing i => snd (updateViewerPing i s)
  | OpOn e cb => snd (on e cb s)
  | OpOff e cb => snd (off e cb s)
  | OpWait dt => mkSys (app s) (clock s + Z.of_nat dt)%Z (emitted s)
  end.

Definition run (ops : list Op) (s : Sys) : Sys := fold_left (fun s o => step o s) ops s.

(** The stream-change notifications among a list of emissions. *)
Definition is_streamChange (e : Emission) : bool :=
  match ev e with streamChange => true | viewerChange => false end.

Definition count_streamChange (l : list Emission) : nat :=
  length (List.filter is_streamChange l).

End State.

(* ===================================================================== *)
(** ** rtmp.js : admission of a publisher *)
(* ===================================================================== *)

Module Rtmp.
Import Js State.
Local Open Scope js_scope.

(** [s.split('/')]: the pieces of [s] between the slashes; never empty. *)
Fixpoint split_slash (s : string) : list string :=
  match s with
  | EmptyString => [EmptyString]
  | String c rest =>
      if Ascii.eqb c "/"%char then EmptyString :: split_slash rest
      else
        match split_slash rest with
        | part :: parts => String c part :: parts
        | [] => [String c EmptyString]
        end
  end.

(** [parts.join('/')] *)
Fixpoint join_slash (parts : list string) : string :=
  match parts with
  | [] => EmptyString
  | [p] => p
  | p :: rest => p +:+ String "/"%char (join_slash rest)
  end.

(** [s.includes('/')] *)
Fixpoint has_slash (s : string) : bool :=
  match s with
  | EmptyString => false
  | String c rest => Ascii.eqb c "/"%char || has_slash rest
  end.

(** A session of the media server; [reject()] marks it. *)
Record NmsSession : Type := mkNmsSession { rejected : bool }.

Record Nms : Type := mkNms {
  _appState : Sys;                        (* nms._appState *)
  sessions : gmap string NmsSession       (* what nms.getSession looks up *)
}.

Definition M (A : Type) : Type := Eff Nms Error A.

(** Calls a method of [nms._appState]. *)
Definition appState {A} (m : State.M A) : M A :=
  zoom _appState (fun a n => mkNms a (sessions n)) m.

(** [const session = nms.getSession(id); if (session) session.reject();] *)
Definition reject_session (i : string) : M unit :=
  update (fun n => mkNms (_appState n)
                         (alter (fun _ => mkNmsSession true) i (sessions n))).

(** [x !== 'live'] for an array element that may be undefined *)
Definition differs_from (x : option string) (lit : string) : bool :=
  match x with
  | Some p => negb (String.eqb p lit)
  | None => true
  end.

(** The test of the first [if] of the handler. *)
Definition invalid_path (streamPath : string) : bool :=
  let pathParts := split_slash streamPath in
  (length pathParts <? 3)%nat
  || differs_from (pathParts !! 1%nat) "live"
  || negb (truthy_str (pathParts !! 2%nat)).

(** The branch the handler ends in. *)
Inductive Verdict : Type :=
| RejectInvalidPath
| RejectAlreadyActive
| StreamAllowed.

(** nms.on('prePublish', (id, streamPath, args) => ...) *)
Definition prePublish (i : string) (streamPath : string) : M Verdict :=
  if invalid_path streamPath then
    reject_session i ;;; ret RejectInvalidPath
  else
    ok <- appState canStream ;;
    if negb ok then
      reject_session i ;;; ret RejectAlreadyActive
    else ret StreamAllowed.

(** The shape of a publish path in the words of the specification: a
    non-empty application segment followed by a non-empty stream-key
    segment. *)
Definition required_shape_spec (streamPath : string) : bool :=
  match split_slash streamPath with
  | _ :: application :: key :: _ =>
      negb (String.eqb application EmptyString) && negb (String.eqb key EmptyString)
  | _ => false
  end.

(** The paths the handler lets through, read off the string itself: what
    precedes the first slash is arbitrary, the segment after it is
    "live", the next segment is a non-empty key, and whatever follows the
    key begins with a slash. *)
Definition live_key_path (streamPath : string) : Prop :=
  exists before key after,
    streamPath = before +:+ "/live/" +:+ key +:+ after
    /\ has_slash before = false
    /\ key <> EmptyString /\ has_slash key = false
    /\ (after = EmptyString \/ exists more, after = String "/"%char more).

End Rtmp.

(* ===================================================================== *)
(** ** transcoder.js : the FFmpeg child process *)
(* ===================================================================== *)

Module Transcoder.
Import Js.
Local Open Scope js_scope.

Inductive Signal : Type := SIGTERM | SIGKILL.

(** The listeners of the 'close' event of a child process. *)
Inductive CloseListener : Type :=
| OnClose                              (* ffmpegProcess.on('close', ...)   in startTranscoder *)
| OnceCloseStop (killTimeout : nat).   (* ffmpegProcess.once('close', ...) in stopTranscoder *)

Definition is_once (l : CloseListener) : bool :=
  match l with OnClose => false | OnceCloseStop _ => true end.

(** A ChildProcess object. *)
Record ChildProcess : Type := mkProc {
  closeListeners : list CloseListener;   (* in order of registration *)
  exited : bool
}.

(** What the module does to the world outside of its variables. *)
Inductive Effect : Type :=
| Spawn (pid : nat)
| Kill (pid : nat) (sig : Signal)
| SetTimeout (t : nat)
| ClearTimeout (t : nat)
| CleanupHlsFiles
| CrashCallback (cb : State.Callback) (code : option Z).

(** The object [setAppState] received. *)
Inductive AppStateRef : Type := TheAppState.

Inductive Error : Type :=
| OutputDirError
| AppStateError (e : State.Error).

Record World : Type := mkWorld {
  (* the variables of the module *)
  ffmpegProcess : option nat;            (* null, or the child process *)
  isStoppingTranscoder : bool;
  appStateRef : option AppStateRef;
  onCrashCallback : option State.Callback;
  (* the objects they refer to *)
  appState : State.Sys;                  (* the AppState object *)
  procs : gmap nat ChildProcess;         (* the child processes spawned so far *)
  timers : list nat;                     (* pending timeouts *)
  nextId : nat;                          (* next unused process / timer handle *)
  hlsFiles : list string;                (* the files below HLS_OUTPUT_DIR *)
  effects : list Effect
}.

Definition M (A : Type) : Type := Eff World Error A.

Definition set_ffmpegProcess (p : option nat) : M unit :=
  update (fun w => mkWorld p (isStoppingTranscoder w) (appStateRef w) (onCrashCallback w)
                           (appState w) (procs w) (timers w) (nextId w) (hlsFiles w) (effects w)).

Definition set_isStoppingTranscoder (b : bool) : M unit :=
  update (fun w => mkWorld (ffmpegProcess w) b (appStateRef w) (onCrashCallback w)
                           (appState w) (procs w) (timers w) (nextId w) (hlsFiles w) (effects w)).

Definition set_appState (a : State.Sys) (w : World) : World :=
  mkWorld (ffmpegProcess w) (isStoppingTranscoder w) (appStateRef w) (onCrashCallback w)
          a (procs w) (timers w) (nextId w) (hlsFiles w) (effects w).

Definition set_procs (f : gmap nat ChildProcess -> gmap nat ChildProcess) : M unit :=
  update (fun w => mkWorld (ffmpegProcess w) (isStoppingTranscoder w) (appStateRef w)
                           (onCrashCallback w) (appState w) (f (procs w)) (timers w)
                           (nextId w) (hlsFiles w) (effects w)).

Definition set_timers (f : list nat -> list nat) : M unit :=
  update (fun w => mkWorld (ffmpegProcess w) (isStoppingTranscoder w) (appStateRef w)
                           (onCrashCallback w) (appState w) (procs w) (f (timers w))
                           (nextId w) (hlsFiles w) (effects w)).

Definition set_hlsFiles (l : list string) : M unit :=
  update (fun w => mkWorld (ffmpegProcess w) (isStoppingTranscoder w) (appStateRef w)
                           (onCrashCallback w) (appState w) (procs w) (timers w)
                           (nextId w) l (effects w)).

Definition effect (e : Effect) : M unit :=
  update (fun w => mkWorld (ffmpegProcess w) (isStoppingTranscoder w) (appStateRef w)
                           (onCrashCallback w) (appState w) (procs w) (timers w)
                           (nextId w) (hlsFiles w) (effects w ++ [e])).

(** Hands out an unused handle. *)
Definition new_handle : M nat :=
  fun w => (Ok (nextId w),
            mkWorld (ffmpegProcess w) (isStoppingTranscoder w) (appStateRef w)
                    (onCrashCallback w) (appState w) (procs w) (timers w)
                    (S (nextId w)) (hlsFiles w) (effects w)).

(** Calls a method of the AppState object. *)
Definition callAppState {A} (m : State.M A) : M A :=
  fun w =>
    match m (appState w) with
    | (Ok a, s') => (Ok a, set_appState s' w)
    | (Throw e, s') => (Throw (AppStateError e), set_appState s' w)
    end.

(** setAppState(appState, onCrash) *)
Definition setAppState (onCrash : option State.Callback) : M unit :=
  update (fun w => mkWorld (ffmpegProcess w) (isStoppingTranscoder w) (Some TheAppState)
                           onCrash (appState w) (procs w) (timers w)
                           (nextId w) (hlsFiles w) (effects w)).

(** cleanupHlsFiles(): unlinks every file below HLS_OUTPUT_DIR. The file
    system calls are taken to succeed (a failure is caught and logged by
    the function). *)
Definition cleanupHlsFiles : M unit :=
  set_hlsFiles [] ;;; effect CleanupHlsFiles.

(** [code !== 0]; the exit code is null when a signal ended the process. *)
Definition code_ne_0 (code : option Z) : bool :=
  match code with
  | Some c => negb (c =? 0)%Z
  | None => true
  end.

(** [appStateRef && appStateRef.stream && appStateRef.stream.status === 'live'] *)
Definition appState_is_live (w : World) : bool :=
  match appStateRef w with
  | Some TheAppState => State.is_live (State.stream (State.app (appState w)))
  | None => false
  end.

(** ffmpegProcess.on('close', (code) => ...) *)
Definition onClose (code : option Z) : M unit :=
  wasExpectedStop <- gets isStoppingTranscoder ;;
  set_ffmpegProcess None ;;;
  if negb wasExpectedStop && code_ne_0 code then
    isLive <- gets appState_is_live ;;
    (if isLive then callAppState State.stopStream else ret tt) ;;;
    cleanupHlsFiles ;;;
    cb <- gets onCrashCallback ;;
    match cb with
    | Some f => effect (CrashCallback f code)
    | None => ret tt
    end
  else ret tt.

(** ffmpegProcess.on('error', (err) => ...) *)
Definition onError : M unit :=
  wasExpectedStop <- gets isStoppingTranscoder ;;
  set_ffmpegProcess None ;;;
  if negb wasExpectedStop then
    isLive <- gets appState_is_live ;;
    (if isLive then callAppState State.stopStream else ret tt) ;;;
    cleanupHlsFiles ;;;
    cb <- gets onCrashCallback ;;
    match cb with
    | Some f => effect (CrashCallback f (Some (-1)%Z))
    | None => ret tt
    end
  else ret tt.

(** startTranscoder(config, streamPath). [dirs_ok] tells whether
    ensureOutputDirs(config) succeeds; the argument list built from the
    configuration does not bear on the state of the module. *)
Definition startTranscoder (dirs_ok : bool) : M (option nat) :=
  running <- gets ffmpegProcess ;;
  match running with
  | Some _ => ret None
  | None =>
      cleanupHlsFiles ;;;
      (if dirs_ok then ret tt else throw OutputDirError) ;;;
      pid <- new_handle ;;
      effect (Spawn pid) ;;;
      set_procs (insert pid (mkProc [OnClose] false)) ;;;
      set_ffmpegProcess (Some pid) ;;;
      ret (Some pid)
  end.

(** The callback of the kill timeout of stopTranscoder. *)
Definition killTimeoutFired : M unit :=
  running <- gets ffmpegProcess ;;
  match running with
  | Some pid => effect (Kill pid SIGKILL)
  | None => ret tt
  end.

(** The once('close') listener of stopTranscoder. *)
Definition onceCloseStop (killTimeout : nat) : M unit :=
  set_timers (List.filter (fun t => negb (Nat.eqb t killTimeout))) ;;;
  effect (ClearTimeout killTimeout) ;;;
  set_ffmpegProcess None ;;;
  set_isStoppingTranscoder false ;;;
  cleanupHlsFiles.

Definition add_closeListener (l : CloseListener) (p : ChildProcess) : ChildProcess :=
  mkProc (closeListeners p ++ [l]) (exited p).

(** stopTranscoder() *)
Definition stopTranscoder : M unit :=
  running <- gets ffmpegProcess ;;
  stopping <- gets isStoppingTranscoder ;;
  match running, stopping with
  | Some pid, false =>
      set_isStoppingTranscoder true ;;;
      effect (Kill pid SIGTERM) ;;;
      killTimeout <- new_handle ;;
      set_timers (fun ts => (ts ++ [killTimeout])%list) ;;;
      effect (SetTimeout killTimeout) ;;;
      set_procs (alter (add_closeListener (OnceCloseStop killTimeout)) pid)
  | _, _ =>
      if negb stopping then cleanupHlsFiles else ret tt
  end.

(** isTranscoderRunning() *)
Definition isTranscoderRunning (w : World) : bool :=
  match ffmpegProcess w with Some _ => true | None => false end.

(** *** Events delivered by the runtime *)

Definition run_listener (code : option Z) (l : CloseListener) : M unit :=
  match l with
  | OnClose => onClose code
  | OnceCloseStop t => onceCloseStop t
  end.

(** The child process [pid] emits 'close' with [code]: its listeners run
    in order of registration, the once-listeners being removed. A
    process emits 'close' once. *)
Definition emitClose (pid : nat) (code : option Z) : M unit :=
  ps <- gets procs ;;
  match ps !! pid with
  | Some p =>
      if exited p then ret tt
      else
        set_procs (insert pid (mkProc (List.filter (fun l => negb (is_once l))
                                                   (closeListeners p)) true)) ;;;
        for_each (closeListeners p) (run_listener code)
  | None => ret tt
  end.

(** The timeout [t] expires: its callback runs if it is still pending. *)
Definition fireTimeout (t : nat) : M unit :=
  ts <- gets timers ;;
  if existsb (Nat.eqb t) ts then
    set_timers (List.filter (fun t' => negb (Nat.eqb t' t))) ;;;
    killTimeoutFired
  else ret tt.

(** The module as loaded, next to a given AppState object. *)
Definition loaded (a : State.Sys) : World :=
  mkWorld None false None None a ∅ [] 0 [] [].

(** *** Sequences of calls and events *)

Inductive Action : Type :=
| CallStart (dirs_ok : bool)
| CallStop
| TimeoutExpires (t : nat)
| ProcessCloses (pid : nat) (code : option Z).

Definition act (w : World) (a : Action) : World :=
  match a with
  | CallStart dirs_ok => snd (startTranscoder dirs_ok w)
  | CallStop => snd (stopTranscoder w)
  | TimeoutExpires t => snd (fireTimeout t w)
  | ProcessCloses pid code => snd (emitClose pid code w)
  end.

Definition acts (l : list Action) (w : World) : World := fold_left act l w.

Definition is_close (a : Action) : bool :=
  match a with ProcessCloses _ _ => true | _ => false end.

(** What the handling of process exits leaves in a log of effects: the
    cleanups of the output files and the calls of the crash observer. *)
Definition is_exit_handling (e : Effect) : bool :=
  match e with
  | CleanupHlsFiles | CrashCallback _ _ => true
  | _ => false
  end.

Definition exit_handling (l : list Effect) : list Effect :=
  List.filter is_exit_handling l.

(** The module while the child process [pid] runs, as startTranscoder
    leaves it. *)
Definition running (pid : nat) (w : World) : Prop :=
  ffmpegProcess w = Some pid
  /\ isStoppingTranscoder w = false
  /\ procs w !! pid = Some (mkProc [OnClose] false).

(** The module between the call of stopTranscoder that set the kill
    timeout [t] and the exit of the child process [pid]. *)
Definition stopping (pid t : nat) (w : World) : Prop :=
  ffmpegProcess w = Some pid
  /\ isStoppingTranscoder w = true
  /\ procs w !! pid = Some (mkProc [OnClose; OnceCloseStop t] false).

End Transcoder.

(* ===================================================================== *)
(** ** websocket.js : viewer connections and heartbeat *)
(* ===================================================================== *)

Module Websocket.
Import Js.
Local Open Scope js_scope.

Inductive ReadyState : Type := OPEN | CLOSING | CLOSED.

(** A WebSocket object of the server. *)
Record WebSocket : Type := mkWs {
  readyState : ReadyState;
  isAlive : option bool;       (* undefined until handleConnection sets it *)
  session : option string;     (* the session.id the 'pong' handler holds *)
  terminated : bool;           (* ws.terminate() was called *)
  pings : nat                  (* ping frames sent so far *)
}.

Record Wss : Type := mkWss {
  appState : State.Sys;
  clients : gmap nat WebSocket           (* wss.clients *)
}.

Definition M (A : Type) : Type := Eff Wss State.Error A.

Definition callAppState {A} (m : State.M A) : M A :=
  zoom appState (fun a w => mkWss a (clients w)) m.

Definition on_client (ws : nat) (f : WebSocket -> WebSocket) : M unit :=
  update (fun w => mkWss (appState w) (alter f ws (clients w))).

(** ws.ping(): a frame leaves only on an open connection. *)
Definition ping (c : WebSocket) : WebSocket :=
  match readyState c with
  | OPEN => mkWs OPEN (isAlive c) (session c) (terminated c) (S (pings c))
  | _ => c
  end.

(** ws.terminate() *)
Definition terminate (c : WebSocket) : WebSocket :=
  mkWs CLOSING (isAlive c) (session c) true (pings c).

Definition set_isAlive (b : bool) (c : WebSocket) : WebSocket :=
  mkWs (readyState c) (Some b) (session c) (terminated c) (pings c).

(** The channel of an accepted viewer: handleConnection sets
    [ws.isAlive = true] and registers the 'pong' handler for its session. *)
Definition accepted_viewer (i : string) : WebSocket :=
  mkWs OPEN (Some true) (Some i) false 0.

(** ws.on('pong', () => { ws.isAlive = true; appState.updateViewerPing(session.id) }) *)
Definition onPong (ws : nat) : M unit :=
  cs <- gets clients ;;
  match cs !! ws with
  | Some c =>
      on_client ws (set_isAlive true) ;;;
      match session c with
      | Some i => callAppState (State.updateViewerPing i)
      | None => ret tt
      end
  | None => ret tt
  end.

(** The body of the forEach of startHeartbeat. *)
Definition heartbeat_client (c : WebSocket) : WebSocket :=
  match isAlive c with
  | Some false => terminate c
  | _ => ping (set_isAlive false c)
  end.

(** One run of the interval callback of startHeartbeat. *)
Definition heartbeat : M unit :=
  update (fun w => mkWss (appState w) (heartbeat_client <$> clients w)).

(** *** The life of one channel *)

Inductive ChannelEvent : Type :=
| Tick          (* the heartbeat interval fires *)
| Pong.         (* the peer answers a ping *)

Definition channel_event (ws : nat) (e : ChannelEvent) : M unit :=
  match e with
  | Tick => heartbeat
  | Pong => onPong ws
  end.

(** The events of the list happen in order. *)
Definition channel_run (ws : nat) (h : list ChannelEvent) : M unit :=
  for_each h (channel_event ws).

(** The two-strike rule in the words of the specification. A tick finds
    a channel presumed dead when it has not answered since the tick
    before; [strikes] counts the ticks in a row, up to the latest one,
    that found it so. The rule closes a channel at two strikes. *)
Record Strikes : Type := mkStrikes {
  answered : bool;      (* a pong came in since the latest tick *)
  strikes : nat
}.

Definition strikes_step (s : Strikes) (e : ChannelEvent) : Strikes :=
  match e with
  | Pong => mkStrikes true (strikes s)
  | Tick => if answered s then mkStrikes false 0 else mkStrikes false (S (strikes s))
  end.

Definition strikes_spec (h : list ChannelEvent) : nat :=
  strikes (fold_left strikes_step h (mkStrikes true 0)).

(** Whether two ticks in a row, with no pong between them, occur in the
    list. *)
Fixpoint has_two_ticks_in_a_row (h : list ChannelEvent) : bool :=
  match h with
  | Tick :: Tick :: _ => true
  | _ :: h' => has_two_ticks_in_a_row h'
  | [] => false
  end.

(** What the events do to the one channel they concern. *)
Definition channel_step (c : WebSocket) (e : ChannelEvent) : WebSocket :=
  match e with
  | Tick => heartbeat_client c
  | Pong => set_isAlive true c
  end.

(** Whether the events terminate a channel whose [isAlive] is [alive]
    when they begin. *)
Fixpoint closes (alive : bool) (h : list ChannelEvent) : bool :=
  match h with
  | [] => false
  | Pong :: h' => closes true h'
  | Tick :: h' => if alive then closes false h' else true
  end.

End Websocket.

(* ===================================================================== *)
(** ** state.js : cleanup and what the listeners have been told *)
(* ===================================================================== *)

Module StateMore.
Import Js State.
Local Open Scope js_scope.

(** cleanup(): closes the websocket of every session with code 1001 (an
    exception of [close] is swallowed), clears the map and resets the
    stream. The connections closed are returned; the Map is walked in
    insertion order, the list here holds the same connections in the order
    of the keys. *)
Definition cleanup : M (list WsRef) :=
  a <- this ;;
  modify (set_viewers ∅) ;;;
  modify (set_stream Offline) ;;;
  ret ((fun kv => websocket (snd kv)) <$> map_to_list (viewers a)).

(** The [live] flag of the latest stream-change notification of a log;
    false when there is none. *)
Definition told_live (l : list Emission) : bool :=
  fold_left (fun acc e =>
               match ev e, data e with
               | streamChange, InfoPayload i => info_live i
               | _, _ => acc
               end) l false.



(** A live stream did not start in the future. *)
Definition started_in_the_past (s : Sys) : Prop :=
  match stream (app s) with
  | Live d => (startTime d <= clock s)%Z
  | Offline => True
  end.

End StateMore.

(* ===================================================================== *)
(** ** transcoder.js : the states the module can be in *)
(* ===================================================================== *)

Module TranscoderMore.
Import Js Transcoder.
Local Open Scope js_scope.


(** The module after [setAppState], before any start. *)
Definition wired (a : State.Sys) (onCrash : option State.Callback) : World :=
  snd (setAppState onCrash (loaded a)).

End TranscoderMore.

(* ===================================================================== *)
(** ** rtmp.js and index.js : a publisher comes and goes *)
(* ===================================================================== *)

Module Publish.
Import Js.
Local Open Scope js_scope.

(** What extractMetadata reads of a session of the media server. *)
Record Session : Type := mkSessionInfo {
  remoteAddress : option string;   (* session.socket && session.socket.remoteAddress *)
  videoWidth : option Z;
  videoHeight : option Z;
  audioBitrate : option Z;
  videoBitrate : option Z
}.

(** [s.startsWith(p)] *)
Fixpoint startsWith (p s : string) : bool :=
  match p, s with
  | EmptyString, _ => true
  | String a p', String b s' => Ascii.eqb a b && startsWith p' s'
  | String _ _, EmptyString => false
  end.

(** [s.substring(n)] *)
Fixpoint substring_from (n : nat) (s : string) : string :=
  match n, s with
  | O, _ => s
  | S n', String _ s' => substring_from n' s'
  | S _, EmptyString => EmptyString
  end.

(** [x ? x : 0] for a number that is added to the bitrate *)
Definition or_zero (o : option Z) : Z := or_num o 0.

(** [`${w}x${h}`] *)
Definition dimensions (w h : Z) : string := pretty w +:+ "x" +:+ pretty h.

(** extractMetadata(session) *)
Definition extractMetadata (session : option Session) : State.Metadata :=
  match session with
  | None => State.mkMetadata (Some "unknown") (Some "unknown") (Some 0%Z)
  | Some s =>
      let publisherIP :=
        if truthy_str (remoteAddress s) then
          let ip := or_str (remoteAddress s) EmptyString in
          if startsWith "::ffff:" ip then substring_from 7 ip else ip
        else "unknown" in
      let resolution :=
        if truthy_num (videoWidth s) && truthy_num (videoHeight s)
        then dimensions (or_zero (videoWidth s)) (or_zero (videoHeight s))
        else "unknown" in
      let bitrate := (0 + or_zero (audioBitrate s) + or_zero (videoBitrate s))%Z in
      State.mkMetadata (Some publisherIP) (Some resolution) (Some bitrate)
  end.

(** The server as index.js wires it: the variables of transcoder.js with
    the AppState object, the sessions of the media server, and the
    timeouts of postPublish that have not fired yet, by session. *)
Record Node : Type := mkNode {
  transcoder : Transcoder.World;
  sessions : gmap string Session;
  refreshes : list string
}.

Definition M (A : Type) : Type := Eff Node Transcoder.Error A.

Definition transcoderCall {A} (m : Transcoder.M A) : M A :=
  zoom transcoder (fun t n => mkNode t (sessions n) (refreshes n)) m.

Definition appStateCall {A} (m : State.M A) : M A :=
  transcoderCall (Transcoder.callAppState m).

Definition appStateOf (n : Node) : State.Sys := Transcoder.appState (transcoder n).

(** [try { m } catch (err) { console.error(...) }] *)
Definition try_catch (m : M unit) : M unit :=
  fun n =>
    match m n with
    | (Ok _, n') => (Ok tt, n')
    | (Throw _, n') => (Ok tt, n')
    end.

(** [x > 0] for a field that may be undefined *)
Definition positive (o : option Z) : bool :=
  match o with
  | Some b => (0 <? b)%Z
  | None => false
  end.

(** nms.on('postPublish', ...). The 'streamStart' event runs the listener
    of index.js, which calls startTranscoder; [dirs_ok] tells whether
    that call can make its output directories. *)
Definition postPublish (dirs_ok : bool) (i : string) : M unit :=
  session <- gets (fun n => sessions n !! i) ;;
  let metadata := extractMetadata session in
  try_catch (appStateCall (State.startStream metadata)) ;;;
  transcoderCall (Transcoder.startTranscoder dirs_ok) ;;;
  update (fun n => mkNode (transcoder n) (sessions n) (refreshes n ++ [i])).

(** The callback of the timeout of postPublish. *)
Definition refreshMetadata (i : string) : M unit :=
  currentSession <- gets (fun n => sessions n !! i) ;;
  live <- gets (fun n => State.is_live (State.stream (State.app (appStateOf n)))) ;;
  match currentSession with
  | Some _ =>
      if live then
        let updatedMetadata := extractMetadata currentSession in
        if Rtmp.differs_from (State.md_resolution updatedMetadata) "unknown"
           || positive (State.md_bitrate updatedMetadata)
        then appStateCall (State.updateStreamMetadata updatedMetadata)
        else ret tt
      else ret tt
  | None => ret tt
  end.

(** nms.on('donePublish', ...). The 'streamStop' event runs the listener
    of index.js, which calls stopTranscoder. *)
Definition donePublish (i : string) : M unit :=
  appStateCall State.stopStream ;;;
  transcoderCall Transcoder.stopTranscoder.

(** The server once index.js has set it up. *)
Definition booted (a : State.Sys) (onCrash : option State.Callback)
           (ss : gmap string Session) : Node :=
  mkNode (TranscoderMore.wired a onCrash) ss [].

(** [s.includes('x')] *)
Fixpoint has_x (s : string) : bool :=
  match s with
  | EmptyString => false
  | String c rest => Ascii.eqb c "x"%char || has_x rest
  end.

End Publish.

(* ===================================================================== *)
(** ** transcoder.js : the choice of the encoder *)
(* ===================================================================== *)

Module Encoder.
Import Js.
Local Open Scope js_scope.

(** os.platform(), as far as detectHardwareEncoder tells platforms apart. *)
Inductive Platform : Type := darwin | win32 | other_platform.

(** The object kept in the module variable [detectedEncoder]. *)
Record Detected : Type := mkDetected {
  codec : string;
  encoder : string
}.

(** The module variable, and the encoders handed to testEncoder so far. *)
Record Env : Type := mkEnv {
  detectedEncoder : option Detected;    (* null until the first detection *)
  tested : list string
}.

Definition M (A : Type) : Type := Eff Env Empty_set A.

(** The module as loaded. *)
Definition loaded : Env := mkEnv None [].

(** testEncoder(encoder): [available] is the answer of the call, true when
    the encoder list printed by ffmpeg includes the name, false when it
    does not or when ffmpeg cannot be run. *)
Definition testEncoder (available : string -> bool) (e : string) : M bool :=
  update (fun env => mkEnv (detectedEncoder env) (tested env ++ [e])) ;;;
  ret (available e).

Definition set_detectedEncoder (d : Detected) : M unit :=
  update (fun env => mkEnv (Some d) (tested env)).

(** The list [encodersToTry] once the pushes are done. *)
Definition encodersToTry (platform : Platform) (codec : string) : list string :=
  if String.eqb codec "hevc" then
    match platform with
    | darwin => ["hevc_videotoolbox"]
    | win32 => ["hevc_nvenc"; "hevc_qsv"; "hevc_amf"]
    | other_platform => ["hevc_vaapi"; "hevc_nvenc"; "hevc_qsv"]
    end ++ ["libx265"]
  else
    match platform with
    | darwin => ["h264_videotoolbox"]
    | win32 => ["h264_nvenc"; "h264_qsv"; "h264_amf"]
    | other_platform => ["h264_vaapi"; "h264_nvenc"; "h264_qsv"]
    end ++ ["libx264"].

(** [for (const encoder of encodersToTry) if (testEncoder(encoder)) { ...; return encoder }] *)
Fixpoint try_encoders (available : string -> bool) (cacheKey : string)
         (l : list string) : M (option string) :=
  match l with
  | [] => ret None
  | e :: l' =>
      ok <- testEncoder available e ;;
      if ok then set_detectedEncoder (mkDetected cacheKey e) ;;; ret (Some e)
      else try_encoders available cacheKey l'
  end.

Definition fallback (codec : string) : string :=
  if String.eqb codec "hevc" then "libx265" else "libx264".

(** detectHardwareEncoder(codec) *)
Definition detectHardwareEncoder (platform : Platform) (available : string -> bool)
           (codec : string) : M string :=
  let cacheKey := codec in
  let detect : M string :=
    found <- try_encoders available cacheKey (encodersToTry platform codec) ;;
    match found with
    | Some e => ret e
    | None =>
        set_detectedEncoder (mkDetected cacheKey (fallback codec)) ;;;
        ret (fallback codec)
    end in
  cached <- gets detectedEncoder ;;
  match cached with
  | Some d => if String.eqb (Encoder.codec d) cacheKey then ret (encoder d) else detect
  | None => detect
  end.

(** [`-c:v:${index}`] *)
Definition c_v (index : nat) : string := "-c:v:" +:+ pretty index.

(** getEncoderArgs(encoder, index) *)
Definition getEncoderArgs (encoder : string) (index : nat) : list string :=
  if String.eqb encoder "h264_videotoolbox" then
    [c_v index; "h264_videotoolbox"; "-realtime"; "true"; "-allow_sw"; "1"]
  else if String.eqb encoder "h264_nvenc" then
    [c_v index; "h264_nvenc"; "-preset"; "p4"; "-tune"; "ll"; "-rc"; "vbr";
     "-rc-lookahead"; "0"]
  else if String.eqb encoder "h264_qsv" then
    [c_v index; "h264_qsv"; "-preset"; "faster"; "-look_ahead"; "0"]
  else if String.eqb encoder "h264_amf" then
    [c_v index; "h264_amf"; "-quality"; "speed"; "-rc"; "vbr_latency"]
  else if String.eqb encoder "h264_vaapi" then
    [c_v index; "h264_vaapi"; "-rc_mode"; "VBR"]
  else if String.eqb encoder "hevc_videotoolbox" then
    [c_v index; "hevc_videotoolbox"; "-realtime"; "true"; "-allow_sw"; "1"]
  else if String.eqb encoder "hevc_nvenc" then
    [c_v index; "hevc_nvenc"; "-preset"; "p4"; "-tune"; "ll"; "-rc"; "vbr";
     "-rc-lookahead"; "0"]
  else if String.eqb encoder "hevc_qsv" then
    [c_v index; "hevc_qsv"; "-preset"; "faster"; "-look_ahead"; "0"]
  else if String.eqb encoder "hevc_amf" then
    [c_v index; "hevc_amf"; "-quality"; "speed"; "-rc"; "vbr_latency"]
  else if String.eqb encoder "hevc_vaapi" then
    [c_v index; "hevc_vaapi"; "-rc_mode"; "VBR"]
  else if String.eqb encoder "libx265" then
    [c_v index; "libx265"; "-preset"; "veryfast"; "-tune"; "zerolatency";
     "-x265-params"; "log-level=error"]
  else
    [c_v index; "libx264"; "-preset"; "veryfast"; "-tune"; "zerolatency"].

(** The cached encoder is one detectHardwareEncoder tries for the cached
    codec on this platform. *)
Definition coherent (platform : Platform) (env : Env) : Prop :=
  match detectedEncoder env with
  | Some d => encoder d ∈ encodersToTry platform (codec d)
  | None => True
  end.

(** The cache cannot answer for [c]. *)
Definition cache_miss (c : string) (env : Env) : bool :=
  match detectedEncoder env with
  | Some d => negb (String.eqb (codec d) c)
  | None => true
  end.

(** The second argument getEncoderArgs produces names an HEVC encoder. *)
Definition names_hevc (args : list string) : bool :=
  match args with
  | _ :: e :: _ => Publish.startsWith "hevc_" e || String.eqb e "libx265"
  | _ => false
  end.

End Encoder.

(* ===================================================================== *)
(** ** config.js : validation and environment overrides *)
(* ===================================================================== *)

Module Config.
Import Js.

Record Quality : Type := mkQuality {
  name : string;
  width : Z;
  height : Z;
  bitrate : string
}.

(** The configuration object, for numeric fields that hold integers. *)
Record Config : Type := mkConfig {
  rtmp_port : Z;                           (* config.rtmp.port *)
  http_port : Z;                           (* config.http.port *)
  codec : option string;                   (* config.transcoding.codec *)
  qualities : option (list Quality);       (* config.transcoding.qualities *)
  segmentDuration : Z;                     (* config.transcoding.segmentDuration *)
  playlistSize : Z;                        (* config.transcoding.playlistSize *)
  maxViewers : Z                           (* config.limits.maxViewers *)
}.

Definition DEFAULT_CONFIG : Config :=
  mkConfig 1935 8080 (Some "hevc")
           (Some [mkQuality "1080p" 1920 1080 "5000k";
                  mkQuality "720p" 1280 720 "2500k";
                  mkQuality "480p" 854 480 "1000k"])
           1 3 10.

(** [if (test) errors.push(msg)] *)
Definition push_if (test : bool) (msg : string) (errors : list string) : list string :=
  if test then (errors ++ [msg])%list else errors.

Definition validCodecs : list string := ["h264"; "hevc"].

(** [validCodecs.includes(c)] *)
Definition includes (l : list string) (c : string) : bool :=
  existsb (String.eqb c) l.

(** [!config.transcoding.qualities || config.transcoding.qualities.length === 0] *)
Definition no_qualities (q : option (list Quality)) : bool :=
  match q with
  | Some (_ :: _) => false
  | _ => true
  end.

(** The array [errors] of validateConfig after the tests. *)
Definition errors_of (config : Config) : list string :=
  let errors := [] in
  let errors := push_if ((rtmp_port config <? 1) || (65535 <? rtmp_port config))%Z
                        "rtmp.port must be between 1 and 65535" errors in
  let errors := push_if ((http_port config <? 1) || (65535 <? http_port config))%Z
                        "http.port must be between 1 and 65535" errors in
  let errors := push_if (rtmp_port config =? http_port config)%Z
                        "rtmp.port and http.port must be different" errors in
  let errors := push_if (truthy_str (codec config)
                         && negb (includes validCodecs (or_str (codec config) EmptyString)))
                        "transcoding.codec must be one of: h264, hevc" errors in
  let errors := push_if (no_qualities (qualities config))
                        "transcoding.qualities must have at least 1 entry" errors in
  let errors := push_if ((segmentDuration config <? 1) || (10 <? segmentDuration config))%Z
                        "transcoding.segmentDuration must be between 1 and 10" errors in
  let errors := push_if ((playlistSize config <? 2) || (10 <? playlistSize config))%Z
                        "transcoding.playlistSize must be between 2 and 10" errors in
  let errors := push_if ((maxViewers config <? 1) || (100 <? maxViewers config))%Z
                        "limits.maxViewers must be between 1 and 100" errors in
  errors.

(** validateConfig(config): the Error thrown carries the messages of
    [errors], joined into one text. *)
Definition validateConfig (config : Config) : Res (list string) Config :=
  match errors_of config with
  | [] => Ok config
  | errors => Throw errors
  end.





End Config.

(* ===================================================================== *)
(** ** websocket.js : connections and status messages *)
(* ===================================================================== *)

Module Hub.
Import Js.
Local Open Scope js_scope.

(** The messages of the server, before JSON.stringify. *)
Inductive Frame : Type :=
| StatusFrame (data : State.StreamInfo)            (* { type: 'status', data } *)
| ErrorFrame (code : string) (message : string).   (* { type: 'error', data: { code, message } } *)

(** A connection: the WebSocket object, the messages handed to ws.send
    and the calls of ws.close(code, reason). *)
Record Client : Type := mkClient {
  socket : Websocket.WebSocket;
  sent : list Frame;
  closes : list (Z * string)
}.

Record Server : Type := mkServer {
  appState : State.Sys;
  clients : gmap nat Client              (* wss.clients *)
}.

Definition M (A : Type) : Type := Eff Server State.Error A.

(** [ws.readyState === WebSocket.OPEN] *)
Definition is_open (c : Client) : bool :=
  match Websocket.readyState (socket c) with
  | Websocket.OPEN => true
  | _ => false
  end.

(** ws.send(message) *)
Definition send (f : Frame) (c : Client) : Client :=
  mkClient (socket c) (sent c ++ [f]) (closes c).

(** [if (ws.readyState === WebSocket.OPEN) ws.send(message)] *)
Definition send_if_open (f : Frame) (c : Client) : Client :=
  if is_open c then send f c else c.

(** ws.close(code, reason): an open connection starts to close. *)
Definition close (code : Z) (reason : string) (c : Client) : Client :=
  mkClient (if is_open c
            then Websocket.mkWs Websocket.CLOSING (Websocket.isAlive (socket c))
                                (Websocket.session (socket c))
                                (Websocket.terminated (socket c))
                                (Websocket.pings (socket c))
            else socket c)
           (sent c) (closes c ++ [(code, reason)]).

Definition on_client (ws : nat) (f : Client -> Client) : M unit :=
  update (fun s => mkServer (appState s) (alter f ws (clients s))).

Definition on_clients (f : gmap nat Client -> gmap nat Client) : M unit :=
  update (fun s => mkServer (appState s) (f (clients s))).

(** Runs a method of the AppState object on the object of the server. *)
Definition zoomAppState {A} (m : State.M A) : M A :=
  zoom appState (fun a s => mkServer a (clients s)) m.

(** broadcastStatus(wss, appState) *)
Definition broadcastStatus : M unit :=
  data <- zoomAppState State.getStreamInfo ;;
  on_clients (fmap (send_if_open (StatusFrame data))).

(** The two listeners createWebSocketServer registers. *)
Definition streamChange_listener : State.Callback := 0.
Definition viewerChange_listener : State.Callback := 1.

(** What calling a registered listener does: the two listeners of this
    module broadcast, whatever the data they are called with. *)
Definition run_listener (cb : State.Callback) : M unit :=
  if Nat.eqb cb streamChange_listener || Nat.eqb cb viewerChange_listener
  then broadcastStatus
  else ret tt.

(** A call of a method of AppState, with the listeners [_emit] calls.
    Every method of AppState calls [_emit] at most once and as its last
    statement, so the listeners run on the state the method leaves. *)
Definition callAppState {A} (m : State.M A) : M A :=
  before <- gets (fun s => length (State.emitted (appState s))) ;;
  r <- zoomAppState m ;;
  new <- gets (fun s => drop before (State.emitted (appState s))) ;;
  for_each new (fun e => for_each (State.receivers e) run_listener) ;;;
  ret r.

(** createWebSocketServer(httpServer, appState), as far as the AppState
    object is concerned. *)
Definition createWebSocketServer : M unit :=
  callAppState (State.on State.streamChange streamChange_listener) ;;;
  callAppState (State.on State.viewerChange viewerChange_listener).

(** sendStatus(ws, appState) *)
Definition sendStatus (ws : nat) : M unit :=
  cs <- gets clients ;;
  match cs !! ws with
  | Some c =>
      if negb (is_open c) then ret tt
      else
        data <- zoomAppState State.getStreamInfo ;;
        on_client ws (send (StatusFrame data))
  | None => ret tt
  end.

(** sendError(ws, code, message) *)
Definition sendError (ws : nat) (code message : string) : M unit :=
  cs <- gets clients ;;
  match cs !! ws with
  | Some c =>
      if negb (is_open c) then ret tt
      else on_client ws (send (ErrorFrame code message))
  | None => ret tt
  end.

(** [ws.isAlive = true] and the registration of the 'pong' and 'close'
    handlers, which hold the id of the session. *)
Definition register_handlers (i : string) (c : Client) : Client :=
  mkClient (Websocket.mkWs (Websocket.readyState (socket c)) (Some true) (Some i)
                           (Websocket.terminated (socket c))
                           (Websocket.pings (socket c)))
           (sent c) (closes c).

(** handleConnection(ws, req, appState); [uuid] is the value
    crypto.randomUUID() returns inside addViewer. *)
Definition handleConnection (uuid : string) (ws : nat) : M unit :=
  session <- callAppState (State.addViewer uuid ws) ;;
  match session with
  | None =>
      sendError ws "ROOM_FULL" "Room full - maximum viewers reached" ;;;
      on_client ws (close 1008 "Room full")
  | Some session =>
      sendStatus ws ;;;
      on_client ws (register_handlers (State.id session))
  end.

(** ws.on('close', () => { appState.removeViewer(session.id) }) *)
Definition onClose (i : string) : M unit :=
  callAppState (State.removeViewer i).

(** ws.on('pong', () => { ws.isAlive = true; appState.updateViewerPing(session.id) }) *)
Definition onPong (ws : nat) (i : string) : M unit :=
  on_client ws (fun c => mkClient (Websocket.set_isAlive true (socket c)) (sent c) (closes c)) ;;;
  callAppState (State.updateViewerPing i).

(** The interval callback of startHeartbeat. *)
Definition heartbeat : M unit :=
  on_clients (fmap (fun c => mkClient (Websocket.heartbeat_client (socket c))
                                      (sent c) (closes c))).

(** closeAllConnections(wss) *)
Definition closeAllConnections : M unit :=
  on_clients (fmap (close 1001 "Server shutting down")).

(** [try { appState.startStream(metadata) } catch (err) { ... }] of rtmp.js *)
Definition try_startStream (metadata : State.Metadata) : M unit :=
  fun s =>
    match callAppState (State.startStream metadata) s with
    | (Ok _, s') => (Ok tt, s')
    | (Throw _, s') => (Ok tt, s')
    end.

(** *** What happens to the server *)

(** The WebSocket object of a connection that has just been opened. *)
Definition new_client : Client :=
  mkClient (Websocket.mkWs Websocket.OPEN None None false 0) [] [].

Inductive Event : Type :=
| Connects (uuid : string) (ws : nat)     (* wss emits 'connection' for a new socket *)
| Disconnects (ws : nat)                  (* the socket emits 'close' *)
| Pongs (ws : nat)                        (* the socket emits 'pong' *)
| Ticks                                   (* the heartbeat interval fires *)
| Publishes (metadata : State.Metadata)   (* postPublish of rtmp.js *)
| Unpublishes                             (* donePublish of rtmp.js, or a crash of the transcoder *)
| Refreshes (metadata : State.Metadata)   (* the metadata refresh of rtmp.js *)
| Passes (dt : nat).                      (* time passes *)

(** The server takes a socket into wss.clients before it emits
    'connection' and out of it when the socket has closed; the handlers
    of a socket exist once handleConnection has registered them. *)
Definition on_event (e : Event) : M unit :=
  match e with
  | Connects uuid ws =>
      cs <- gets clients ;;
      match cs !! ws with
      | Some _ => ret tt
      | None => on_clients (insert ws new_client) ;;; handleConnection uuid ws
      end
  | Disconnects ws =>
      cs <- gets clients ;;
      match cs !! ws with
      | Some c =>
          on_clients (delete ws) ;;;
          match Websocket.session (socket c) with
          | Some i => onClose i
          | None => ret tt
          end
      | None => ret tt
      end
  | Pongs ws =>
      cs <- gets clients ;;
      match cs !! ws with
      | Some c =>
          match Websocket.session (socket c) with
          | Some i => onPong ws i
          | None => ret tt
          end
      | None => ret tt
      end
  | Ticks => heartbeat
  | Publishes metadata => try_startStream metadata
  | Unpublishes => callAppState State.stopStream
  | Refreshes metadata => callAppState (State.updateStreamMetadata metadata)
  | Passes dt =>
      update (fun s => mkServer (State.step (State.OpWait dt) (appState s)) (clients s))
  end.

Definition serve (s : Server) (e : Event) : Server := snd (on_event e s).

Definition serves (events : list Event) (s : Server) : Server :=
  fold_left serve events s.

(** The server once createWebSocketServer has run on a new AppState. *)
Definition created (config_maxViewers : Z) (t0 : Z) : Server :=
  snd (createWebSocketServer (mkServer (State.fresh config_maxViewers t0) ∅)).

(** What getStreamInfo would return at the time [t]. *)
Definition status_at (a : State.AppState) (t : Z) : option State.StreamInfo :=
  match fst (State.getStreamInfo (State.mkSys a t [])) with
  | Ok data => Some data
  | Throw _ => None
  end.

(** The latest message a connection was sent is the status of the
    application state as it is now, taken at the time of sending. *)
Definition last_is_current (a : State.Sys) (c : Client) : Prop :=
  exists rest data t,
    sent c = (rest ++ [StatusFrame data])%list
    /\ status_at (State.app a) t = Some data
    /\ (t <= State.clock a)%Z.

(** The two listeners of createWebSocketServer are the registered ones. *)
Definition listening (a : State.Sys) : Prop :=
  State.on_streamChange (State._listeners (State.app a)) = [streamChange_listener]
  /\ State.on_viewerChange (State._listeners (State.app a)) = [viewerChange_listener].

(** Every open connection whose handlers are registered has the current
    status as its latest message. *)
Definition up_to_date (s : Server) : Prop :=
  listening (appState s)
  /\ forall ws c, clients s !! ws = Some c ->
                  is_open c = true ->
                  is_Some (Websocket.session (socket c)) ->
                  last_is_current (appState s) c.

(** A call either leaves the log, the stream and the number of sessions
    as they are, or returns after one notification of the listeners
    registered for its event; it keeps the listeners and the clock. *)
Definition notifies_or_keeps {A} (m : State.M A) (a : State.Sys) : Prop :=
  exists r a',
    m a = (r, a')
    /\ State._listeners (State.app a') = State._listeners (State.app a)
    /\ State.clock a' = State.clock a
    /\ ((State.emitted a' = State.emitted a
         /\ State.stream (State.app a') = State.stream (State.app a)
         /\ size (State.viewers (State.app a')) = size (State.viewers (State.app a)))
        \/ (exists v e,
              r = Ok v
              /\ State.emitted a' = (State.emitted a ++ [e])%list
              /\ State.receivers e = State.listeners_of (State.ev e) (State.app a))).

(** Every open connection has the current status as its latest message. *)
Definition all_current (s : Server) : Prop :=
  forall ws c, clients s !! ws = Some c ->
               is_open c = true ->
               last_is_current (appState s) c.

(** The connections [cs'] that are open with their handlers registered
    were so in [cs], and have been sent nothing since. *)
Definition calmer (cs cs' : gmap nat Client) : Prop :=
  forall ws c', cs' !! ws = Some c' ->
                is_open c' = true ->
                is_Some (Websocket.session (socket c')) ->
                exists c, cs !! ws = Some c
                          /\ is_open c = true
                          /\ is_Some (Websocket.session (socket c))
                          /\ sent c' = sent c.

End Hub.

(* ===================================================================== *)
(** ** transcoder.js : validation of the segments *)
(* ===================================================================== *)

Module Segments.

Definition MIN_SEGMENT_SIZE : Z := 1024.

(** An entry of a directory, with the size fs.statSync reports for it;
    [None] when fs.statSync throws. *)
Record File : Type := mkFile {
  file_name : string;
  stat_size : option Z
}.

(** What the file system answers for the directory of a quality. *)
Inductive Dir : Type :=
| Missing                        (* fs.existsSync is false *)
| Unreadable                     (* fs.readdirSync throws *)
| Listing (files : list File).   (* fs.readdirSync returns *)

(** validateSegment(segmentPath), on the entry the path names. *)
Definition validateSegment (f : File) : bool :=
  match stat_size f with
  | Some size => (size >=? MIN_SEGMENT_SIZE)%Z
  | None => false
  end.

(** [s.endsWith(suffix)] *)
Fixpoint endsWith (suffix s : string) : bool :=
  String.eqb s suffix
  || match s with
     | String _ s' => endsWith suffix s'
     | EmptyString => false
     end.

(** [file.endsWith('.ts') || file.endsWith('.m4s')] *)
Definition is_segment (f : File) : bool :=
  endsWith ".ts" (file_name f) || endsWith ".m4s" (file_name f).

Record Counts : Type := mkCounts {
  q_valid : nat;
  q_invalid : nat
}.

(** The object [results]. *)
Record Results : Type := mkResults {
  valid : nat;
  invalid : nat;
  byQuality : gmap string Counts
}.

Definition incr_valid (c : Counts) : Counts := mkCounts (S (q_valid c)) (q_invalid c).
Definition incr_invalid (c : Counts) : Counts := mkCounts (q_valid c) (S (q_invalid c)).

(** The body of the loop over the files of the directory of [name]. *)
Definition check_file (name : string) (results : Results) (f : File) : Results :=
  if is_segment f then
    if validateSegment f
    then mkResults (S (valid results)) (invalid results)
                   (alter incr_valid name (byQuality results))
    else mkResults (valid results) (S (invalid results))
                   (alter incr_invalid name (byQuality results))
  else results.

(** The loop over the qualities, inside its try block: an exception of
    fs.readdirSync ends the loop, and the results gathered so far are
    returned. *)
Fixpoint for_qualities (fs : string -> Dir) (qualities : list Config.Quality)
         (results : Results) : Results :=
  match qualities with
  | [] => results
  | quality :: rest =>
      let results := mkResults (valid results) (invalid results)
                               (<[Config.name quality := mkCounts 0 0]> (byQuality results)) in
      match fs (Config.name quality) with
      | Missing => for_qualities fs rest results
      | Unreadable => results
      | Listing files =>
          for_qualities fs rest (fold_left (check_file (Config.name quality)) files results)
      end
  end.

(** validateAllSegments(config); [fs] gives the directory of each quality
    by the name of the quality. *)
Definition validateAllSegments (fs : string -> Dir) (qualities : list Config.Quality)
  : Results :=
  for_qualities fs qualities (mkResults 0 0 ∅).

(** The sum of one of the two counts over the qualities. *)
Definition sum_by (count : Counts -> nat) (m : gmap string Counts) : nat :=
  map_fold (fun _ c acc => count c + acc) 0 m.

(** The segments of a listing that validateSegment accepts, and those it
    refuses. *)
Definition good_segments (files : list File) : nat :=
  length (List.filter (fun f => is_segment f && validateSegment f) files).

Definition bad_segments (files : list File) : nat :=
  length (List.filter (fun f => is_segment f && negb (validateSegment f)) files).

(** The counts of the directory of a quality. *)
Definition counts_of (d : Dir) : Counts :=
  match d with
  | Listing files => mkCounts (good_segments files) (bad_segments files)
  | _ => mkCounts 0 0
  end.

End Segments.

(* ===================================================================== *)
(** ** Properties of AppState *)
(* ===================================================================== *)

Module StateFacts.
Import Js State.
Local Open Scope js_scope.

(** Unfolds one call down to the record operations. *)
Ltac run_call :=
  cbv [startStream stopStream updateStreamMetadata canStream addViewer
       removeViewer updateViewerQuality updateViewerPing isRoomFull
       getStreamInfo getViewerCount _emit on off
       bind ret throw gets update this now modify log];
  cbn [app clock emitted fst snd].

(** *** addViewer *)

Lemma addViewer_full (s : Sys) (uuid : string) (ws : WsRef) :
  (maxViewers (app s) <= Z.of_nat (size (viewers (app s))))%Z ->
  addViewer uuid ws s = (Ok None, s).
Proof.
  intros Hfull. run_call.
  destruct (Z.geb_spec (Z.of_nat (size (viewers (app s)))) (maxViewers (app s))) as [_|Hlt];
    [reflexivity | lia].
Qed.

Lemma addViewer_room (s : Sys) (uuid : string) (ws : WsRef) :
  (Z.of_nat (size (viewers (app s))) < maxViewers (app s))%Z ->
  let session := mkSession uuid (clock s) (clock s) "1080p" ws in
  let a' := set_viewers (<[uuid := session]> (viewers (app s))) (app s) in
  addViewer uuid ws s =
    (Ok (Some session),
     mkSys a' (clock s)
           (emitted s ++ [mkEmission viewerChange (CountPayload (size (viewers a')))
                                     (on_viewerChange (_listeners (app s)))])).
Proof.
  intros Hroom. run_call.
  destruct (Z.geb_spec (Z.of_nat (size (viewers (app s)))) (maxViewers (app s))) as [Hge|_];
    [lia | reflexivity].
Qed.

(** Case analysis on the tests the operations branch on. *)
Ltac case_tests :=
  repeat match goal with
         | |- context [(?a >=? ?b)%Z] =>
             let E := fresh "Ecap" in destruct (a >=? b)%Z eqn:E
         | |- context [viewers (app ?s) !! ?i] =>
             is_var s;
             let E := fresh "Elook" in
             destruct (viewers (app s) !! i) eqn:E
         | |- context [writes_resolution ?m] =>
             let E := fresh "Eres" in destruct (writes_resolution m) eqn:E
         | |- context [writes_bitrate ?m] =>
             let E := fresh "Ebit" in destruct (writes_bitrate m) eqn:E
         | |- context [match stream (app ?s) with _ => _ end] =>
             is_var s;
             let E := fresh "Estream" in
             destruct (stream (app s)) eqn:E; cbn [is_live negb]
         | |- context [is_live (stream (app ?s))] =>
             is_var s;
             let E := fresh "Estream" in
             destruct (stream (app s)) eqn:E; cbn [is_live negb]
         end.

Lemma step_maxViewers (o : Op) (s : Sys) :
  maxViewers (app (step o s)) = maxViewers (app s).
Proof.
  destruct o; cbn [step];
    try match goal with e : EventName |- _ => destruct e end;
    run_call; case_tests; cbn; try reflexivity;
    unfold set_resolution, set_bitrate; cbn;
    repeat match goal with H : stream _ = _ |- _ => rewrite H end; reflexivity.
Qed.

End StateFacts.

Module StateInvariant.
Import Js State StateFacts.
Local Open Scope js_scope.

Lemma size_alter (f : ViewerSession -> ViewerSession) (i : string)
      (m : gmap string ViewerSession) :
  size (alter f i m) = size m.
Proof. rewrite <- !size_dom. by rewrite dom_alter_L. Qed.

Lemma size_insert_le (i : string) (x : ViewerSession) (m : gmap string ViewerSession) :
  size (<[i := x]> m) <= S (size m).
Proof. rewrite map_size_insert. destruct (m !! i); cbn; lia. Qed.

Lemma size_delete_le (i : string) (m : gmap string ViewerSession) :
  size (delete i m) <= size m.
Proof. rewrite map_size_delete. destruct (m !! i); cbn; lia. Qed.

(** One call keeps the registry within the capacity. *)
Lemma step_capacity (o : Op) (s : Sys) :
  (Z.of_nat (size (viewers (app s))) <= maxViewers (app s))%Z ->
  (Z.of_nat (size (viewers (app (step o s)))) <= maxViewers (app s))%Z.
Proof.
  intros Hinv.
  destruct o; cbn [step];
    try match goal with e : EventName |- _ => destruct e end;
    run_call; case_tests; cbn; try assumption;
    unfold set_resolution, set_bitrate; cbn;
    repeat match goal with H : stream _ = _ |- _ => rewrite H end; cbn;
    try assumption.
  - (* addViewer, room left *)
    rewrite Z.geb_leb in Ecap. apply Z.leb_gt in Ecap.
    pose proof (size_insert_le uuid (mkSession uuid (clock s) (clock s) "1080p" ws)
                               (viewers (app s))). lia.
  - (* removeViewer *)
    pose proof (size_delete_le i (viewers (app s))). lia.
  - rewrite size_alter. assumption.
  - rewrite size_alter. assumption.
Qed.

Lemma run_capacity (ops : list Op) (s : Sys) :
  (Z.of_nat (size (viewers (app s))) <= maxViewers (app s))%Z ->
  (Z.of_nat (size (viewers (app (run ops s)))) <= maxViewers (app s))%Z
  /\ maxViewers (app (run ops s)) = maxViewers (app s).
Proof.
  revert s. induction ops as [|o ops IH]; intros s Hinv; cbn [run fold_left].
  - split; [assumption | reflexivity].
  - pose proof (step_capacity o s Hinv) as Hstep.
    rewrite <- (step_maxViewers o s) in Hstep.
    destruct (IH (step o s) Hstep) as [Hle Hmax].
    unfold run in *. rewrite Hmax, step_maxViewers in *. split; [assumption | reflexivity].
Qed.

(** C1. From a fresh state of capacity [cap], whatever calls are made, the
    number of viewer sessions stays within [cap]; in the state reached,
    [addViewer] with room left stores a session under the identifier drawn
    for it, reports the new count to the viewer-change listeners and
    returns the session (the count grows by one when the identifier is not
    in use), and [addViewer] on a full registry returns null and leaves
    the state and the notification log as they were. *)
Theorem addViewer_respects_capacity
        (cap t0 : Z) (ops : list Op) (uuid : string) (ws : WsRef) :
  (0 <= cap)%Z ->
  let s := run ops (fresh cap t0) in
  let session := mkSession uuid (clock s) (clock s) "1080p" ws in
  let s' := snd (addViewer uuid ws s) in
  (Z.of_nat (size (viewers (app s))) <= cap)%Z
  /\ ((Z.of_nat (size (viewers (app s))) < cap)%Z ->
      fst (addViewer uuid ws s) = Ok (Some session)
      /\ viewers (app s') = <[uuid := session]> (viewers (app s))
      /\ viewers (app s') !! uuid = Some session
      /\ (viewers (app s) !! uuid = None ->
          size (viewers (app s')) = S (size (viewers (app s))))
      /\ emitted s' =
           (emitted s ++ [mkEmission viewerChange
                                     (CountPayload (size (viewers (app s'))))
                                     (on_viewerChange (_listeners (app s)))])%list
      /\ stream (app s') = stream (app s))
  /\ ((cap <= Z.of_nat (size (viewers (app s))))%Z ->
      addViewer uuid ws s = (Ok None, s)).
Proof.
  intros Hcap s session s'.
  assert (Hfresh : (Z.of_nat (size (viewers (app (fresh cap t0))))
                    <= maxViewers (app (fresh cap t0)))%Z).
  { cbn. rewrite map_size_empty. exact Hcap. }
  destruct (run_capacity ops _ Hfresh) as [Hle Hmax].
  fold s in Hle, Hmax. cbn [fresh app new_AppState maxViewers] in Hle, Hmax.
  split; [exact Hle |]. split.
  - intros Hroom. subst s'.
    rewrite (addViewer_room s uuid ws) by (rewrite Hmax; exact Hroom).
    cbn [fst snd app emitted viewers set_viewers stream].
    repeat split.
    + apply lookup_insert_eq.
    + intros Hnew. by apply map_size_insert_None.
  - intros Hfull. apply addViewer_full. rewrite Hmax. exact Hfull.
Qed.

(** The capacity theorem at capacity 2: two admissions, then a refusal. *)
Lemma addViewer_respects_capacity_witness :
  let s := run [OpAddViewer "a" 1; OpAddViewer "b" 2] (fresh 2 0) in
  (Z.of_nat (size (viewers (app s))) <= 2)%Z
  /\ addViewer "c" 3 s = (Ok None, s).
Proof.
  pose proof (addViewer_respects_capacity 2 0 [OpAddViewer "a" 1; OpAddViewer "b" 2]
                                          "c" 3 ltac:(lia)) as H.
  cbv zeta in H. destruct H as [Hle [_ Hfull]].
  split; [exact Hle |]. apply Hfull. vm_compute. discriminate.
Defined.

End StateInvariant.

Module StreamFacts.
Import Js State StateFacts.
Local Open Scope js_scope.

(** *** stopStream *)

Lemma stopStream_eq (s : Sys) :
  stopStream s =
    (Ok tt,
     mkSys (set_stream Offline (app s)) (clock s)
           (emitted s ++ [mkEmission streamChange
                                     (InfoPayload (mkInfo false (size (viewers (app s))) None))
                                     (on_streamChange (_listeners (app s)))])).
Proof. reflexivity. Qed.

Lemma count_streamChange_snoc (l : list Emission) (e : Emission) :
  ev e = streamChange -> count_streamChange (l ++ [e]) = S (count_streamChange l).
Proof.
  intros He. unfold count_streamChange, is_streamChange.
  rewrite List.filter_app, length_app. cbn. rewrite He. cbn. lia.
Qed.

(** C2, as the code has it. Every call of [stopStream] sets the stream
    offline and notifies the stream-change listeners once, whatever the
    status was; so a second call in a row leaves the stream, the viewers
    and the listeners as the first call left them, and adds a second
    notification. *)
Theorem stopStream_always_notifies (s : Sys) :
  let s1 := snd (stopStream s) in
  let s2 := snd (stopStream s1) in
  let notification :=
    mkEmission streamChange
               (InfoPayload (mkInfo false (size (viewers (app s))) None))
               (on_streamChange (_listeners (app s))) in
  fst (stopStream s) = Ok tt
  /\ stream (app s1) = Offline
  /\ viewers (app s1) = viewers (app s)
  /\ emitted s1 = (emitted s ++ [notification])%list
  /\ app s2 = app s1
  /\ emitted s2 = (emitted s ++ [notification; notification])%list
  /\ count_streamChange (emitted s2) = S (S (count_streamChange (emitted s))).
Proof.
  cbv zeta. rewrite !stopStream_eq. cbn [fst snd app emitted set_stream stream viewers].
  rewrite !count_streamChange_snoc by reflexivity. rewrite <- app_assoc.
  repeat split; reflexivity.
Qed.

(** C2 fails as stated: on a fresh state, which is offline, with one
    listener registered for stream changes, a call of [stopStream] calls
    the listener, and two calls in a row call it twice. *)
Lemma stopStream_offline_still_notifies :
  let s := snd (on streamChange 1 (fresh 10 0)) in
  let s1 := snd (stopStream s) in
  let s2 := snd (stopStream s1) in
  let notification := mkEmission streamChange (InfoPayload (mkInfo false 0 None)) [1] in
  stream (app s) = Offline
  /\ emitted s = []
  /\ emitted s1 = [notification]
  /\ emitted s2 = [notification; notification]
  /\ count_streamChange (emitted s2) = 2.
Proof. cbv zeta. repeat split; reflexivity. Qed.

(** *** startStream *)

(** C3. On a live stream [startStream] throws 'Stream already active' and
    leaves the whole state, the stream fields included, and the
    notification log as they were. On an offline stream it returns, the
    stream is live with the publisher address given, the resolution and
    bitrate given (or 'unknown' and 0 where none is given), the current
    time as start time, and the stream-change listeners are notified once
    with the new snapshot. *)
Theorem startStream_refuses_when_live (s : Sys) (metadata : Metadata) :
  (is_live (stream (app s)) = true ->
   startStream metadata s = (Throw StreamAlreadyActive, s))
  /\ (is_live (stream (app s)) = false ->
      let d := mkLive (md_publisherIP metadata)
                      (or_str (md_resolution metadata) "unknown")
                      (or_num (md_bitrate metadata) 0)
                      (clock s) in
      startStream metadata s =
        (Ok tt,
         mkSys (set_stream (Live d) (app s)) (clock s)
               (emitted s ++
                  [mkEmission streamChange
                     (InfoPayload
                        (mkInfo true (size (viewers (app s)))
                                (Some (mkDetails (resolution d) (bitrate d) (clock s) 0))))
                     (on_streamChange (_listeners (app s)))]))
      /\ (forall r b, md_resolution metadata = Some r -> r <> EmptyString ->
                      md_bitrate metadata = Some b ->
                      resolution d = r /\ bitrate d = b)).
Proof.
  split; intros Hlive.
  - run_call. rewrite Hlive. reflexivity.
  - cbv zeta. split.
    + run_call. rewrite Hlive.
      cbn [app clock emitted set_stream stream viewers _listeners
           resolution bitrate startTime].
      replace ((clock s - clock s) / 1000)%Z with 0%Z
        by (rewrite Z.sub_diag; reflexivity).
      reflexivity.
    + intros r b Hr Hne Hb. cbn [resolution bitrate]. rewrite Hr, Hb. cbn [or_str or_num].
      destruct (String.eqb_spec r EmptyString) as [->|_]; [congruence |].
      split; [reflexivity |].
      destruct (Z.eqb_spec b 0) as [->|_]; reflexivity.
Qed.

(** The two cases of [startStream] on a fresh state: the first call makes
    the stream live, the second is refused. *)
Lemma startStream_refuses_when_live_witness :
  let md := mkMetadata (Some "10.0.0.5") (Some "1920x1080") (Some 5000%Z) in
  let s1 := snd (startStream md (fresh 10 0)) in
  stream (app s1) = Live (mkLive (Some "10.0.0.5") "1920x1080" 5000 0)
  /\ startStream md s1 = (Throw StreamAlreadyActive, s1).
Proof.
  cbv zeta. split.
  - destruct (startStream_refuses_when_live
                (fresh 10 0)
                (mkMetadata (Some "10.0.0.5") (Some "1920x1080") (Some 5000%Z)))
      as [_ Hoff].
    destruct (Hoff eq_refl) as [Heq _]. rewrite Heq. reflexivity.
  - apply (startStream_refuses_when_live
             (snd (startStream (mkMetadata (Some "10.0.0.5") (Some "1920x1080")
                                           (Some 5000%Z)) (fresh 10 0)))).
    reflexivity.
Defined.

End StreamFacts.

Module MetadataFacts.
Import Js State StateFacts.
Local Open Scope js_scope.

(** What the two tests of [updateStreamMetadata] accept. *)
Lemma writes_resolution_iff (metadata : Metadata) :
  writes_resolution metadata = true <->
  exists r, md_resolution metadata = Some r /\ r <> EmptyString /\ r <> "unknown".
Proof.
  unfold writes_resolution, truthy_str, or_str.
  destruct (md_resolution metadata) as [r|]; cbn.
  - destruct (String.eqb_spec r EmptyString) as [->|Hne]; cbn.
    + split; [discriminate | intros (r & [= <-] & Hr & _); congruence].
    + destruct (String.eqb_spec r "unknown") as [->|Hu]; cbn.
      * split; [discriminate | intros (r & [= <-] & _ & Hr); congruence].
      * split; [eauto | reflexivity].
  - split; [discriminate | intros (r & [=] & _)].
Qed.

Lemma writes_bitrate_iff (metadata : Metadata) :
  writes_bitrate metadata = true <->
  exists b, md_bitrate metadata = Some b /\ (0 < b)%Z.
Proof.
  unfold writes_bitrate, truthy_num, or_num.
  destruct (md_bitrate metadata) as [b|]; cbn.
  - destruct (Z.eqb_spec b 0) as [->|Hne]; cbn.
    + split; [discriminate | intros (b & [= <-] & Hb); lia].
    + destruct (Z.ltb_spec 0 b) as [Hpos|Hneg].
      * split; [eauto | reflexivity].
      * split; [discriminate | intros (b' & [= <-] & Hb); lia].
  - split; [discriminate | intros (b & [=] & _)].
Qed.

Lemma updateStreamMetadata_offline (s : Sys) (metadata : Metadata) :
  stream (app s) = Offline -> updateStreamMetadata metadata s = (Ok tt, s).
Proof. intros Hoff. run_call. rewrite Hoff. reflexivity. Qed.

Lemma updateStreamMetadata_live (s : Sys) (metadata : Metadata) (d : LiveStream) :
  stream (app s) = Live d ->
  let a' := set_stream (Live (refreshed metadata d)) (app s) in
  updateStreamMetadata metadata s =
    (Ok tt,
     if writes_resolution metadata || writes_bitrate metadata
     then mkSys a' (clock s)
                (emitted s ++
                   [mkEmission streamChange
                      (InfoPayload
                         (mkInfo true (size (viewers (app s)))
                            (Some (mkDetails (resolution (refreshed metadata d))
                                             (bitrate (refreshed metadata d))
                                             (startTime d)
                                             ((clock s - startTime d) / 1000)%Z))))
                      (on_streamChange (_listeners (app s)))])
     else s).
Proof.
  intros Hlive. cbv zeta. unfold refreshed. run_call. rewrite Hlive. cbn [is_live negb].
  destruct (writes_resolution metadata), (writes_bitrate metadata);
    unfold set_resolution, set_bitrate; cbn [orb app]; rewrite ?Hlive;
    cbn [app clock emitted set_stream stream viewers _listeners maxViewers
         publisherIP resolution bitrate startTime];
    reflexivity.
Qed.

(** C7. [updateStreamMetadata] does nothing on an offline stream. On a
    live stream the status, the publisher address and the start time
    stay; the resolution changes only to a resolution that the argument
    carries and that is neither empty nor 'unknown', the bitrate only to a
    positive bitrate that the argument carries; so an argument whose
    resolution is 'unknown' or missing keeps the stored resolution and one
    whose bitrate is 0 or missing keeps the stored bitrate. *)
Theorem updateStreamMetadata_keeps_known_good (s : Sys) (metadata : Metadata) :
  let s' := snd (updateStreamMetadata metadata s) in
  (stream (app s) = Offline -> updateStreamMetadata metadata s = (Ok tt, s))
  /\ (forall d, stream (app s) = Live d ->
        exists d', stream (app s') = Live d'
        /\ publisherIP d' = publisherIP d
        /\ startTime d' = startTime d
        /\ (resolution d' = resolution d
            \/ (md_resolution metadata = Some (resolution d')
                /\ resolution d' <> "unknown" /\ resolution d' <> EmptyString))
        /\ (bitrate d' = bitrate d
            \/ (md_bitrate metadata = Some (bitrate d') /\ (0 < bitrate d')%Z))
        /\ (md_resolution metadata = Some "unknown" \/ md_resolution metadata = None ->
            resolution d' = resolution d)
        /\ (md_bitrate metadata = Some 0%Z \/ md_bitrate metadata = None ->
            bitrate d' = bitrate d)).
Proof.
  cbv zeta. split; [apply updateStreamMetadata_offline |].
  intros d Hlive. exists (refreshed metadata d).
  rewrite (updateStreamMetadata_live s metadata d Hlive). cbn [snd].
  split.
  { destruct (writes_resolution metadata || writes_bitrate metadata) eqn:Hw;
      [reflexivity |].
    apply orb_false_elim in Hw as [Hr Hb]. unfold refreshed. rewrite Hr, Hb, Hlive.
    by destruct d. }
  unfold refreshed. cbn [publisherIP startTime resolution bitrate].
  split; [reflexivity |]. split; [reflexivity |].
  split; [| split; [| split]].
  - destruct (writes_resolution metadata) eqn:Hr; [right | by left].
    apply writes_resolution_iff in Hr as (r & Hr & Hne & Hu).
    rewrite Hr. cbn [or_str]. destruct (String.eqb_spec r EmptyString); [congruence |].
    repeat split; assumption.
  - destruct (writes_bitrate metadata) eqn:Hb; [right | by left].
    apply writes_bitrate_iff in Hb as (b & Hb & Hpos).
    rewrite Hb. cbn [or_num]. destruct (Z.eqb_spec b 0); [lia |].
    split; [reflexivity | assumption].
  - intros Hsent. destruct (writes_resolution metadata) eqn:Hr; [| reflexivity].
    apply writes_resolution_iff in Hr as (r & Hr & Hne & Hu).
    destruct Hsent as [Hs | Hs]; congruence.
  - intros Hsent. destruct (writes_bitrate metadata) eqn:Hb; [| reflexivity].
    apply writes_bitrate_iff in Hb as (b & Hb & Hpos).
    destruct Hsent as [Hs | Hs]; rewrite Hs in Hb; [injection Hb as <-; lia | discriminate].
Qed.

(** A sentinel update on a live stream of known resolution and bitrate. *)
Lemma updateStreamMetadata_keeps_known_good_witness :
  let s := snd (startStream (mkMetadata (Some "127.0.0.1") (Some "1280x720") (Some 2500%Z))
                            (fresh 10 0)) in
  let s' := snd (updateStreamMetadata (mkMetadata None (Some "unknown") (Some 0%Z)) s) in
  exists d', stream (app s') = Live d'
             /\ resolution d' = "1280x720" /\ bitrate d' = 2500%Z.
Proof.
  cbv zeta.
  destruct (updateStreamMetadata_keeps_known_good
              (snd (startStream (mkMetadata (Some "127.0.0.1") (Some "1280x720")
                                            (Some 2500%Z)) (fresh 10 0)))
              (mkMetadata None (Some "unknown") (Some 0%Z))) as [_ Hlive].
  destruct (Hlive (mkLive (Some "127.0.0.1") "1280x720" 2500 0) eq_refl)
    as (d' & Hd' & _ & _ & _ & _ & Hres & Hbit).
  exists d'. split; [exact Hd' |]. split.
  - rewrite Hres; [reflexivity | left; reflexivity].
  - rewrite Hbit; [reflexivity | left; reflexivity].
Defined.

(** C8, as the code has it. On a live stream [updateStreamMetadata]
    notifies the stream-change listeners, once, exactly when it assigns a
    field: when the argument carries a resolution that is neither empty
    nor 'unknown', or a positive bitrate. Whether the value assigned
    differs from the value stored plays no part. Without an assignment
    the call changes nothing. *)
Theorem updateStreamMetadata_notifies_on_write
        (s : Sys) (metadata : Metadata) (d : LiveStream) :
  stream (app s) = Live d ->
  let s' := snd (updateStreamMetadata metadata s) in
  let names_a_value :=
    (exists r, md_resolution metadata = Some r /\ r <> EmptyString /\ r <> "unknown")
    \/ (exists b, md_bitrate metadata = Some b /\ (0 < b)%Z) in
  (names_a_value ->
   exists e, emitted s' = (emitted s ++ [e])%list
             /\ ev e = streamChange
             /\ receivers e = on_streamChange (_listeners (app s)))
  /\ (~ names_a_value -> s' = s).
Proof.
  intros Hlive. cbv zeta.
  rewrite (updateStreamMetadata_live s metadata d Hlive). cbn [snd].
  split.
  - intros Hnames.
    assert (Hw : writes_resolution metadata || writes_bitrate metadata = true).
    { apply orb_true_iff. destruct Hnames as [Hr | Hb];
        [left; by apply writes_resolution_iff | right; by apply writes_bitrate_iff]. }
    rewrite Hw. cbn [emitted]. eexists. split; [reflexivity |]. split; reflexivity.
  - intros Hnone.
    destruct (writes_resolution metadata || writes_bitrate metadata) eqn:Hw;
      [| reflexivity].
    exfalso. apply Hnone. apply orb_true_iff in Hw as [Hr | Hb];
      [left; by apply writes_resolution_iff | right; by apply writes_bitrate_iff].
Qed.

(** An update that names a new resolution notifies once. *)
Lemma updateStreamMetadata_notifies_on_write_witness :
  let s := snd (startStream (mkMetadata (Some "127.0.0.1") None None) (fresh 10 0)) in
  let s' := snd (updateStreamMetadata (mkMetadata None (Some "1920x1080") None) s) in
  exists e, emitted s' = (emitted s ++ [e])%list /\ ev e = streamChange.
Proof.
  cbv zeta.
  destruct (updateStreamMetadata_notifies_on_write
              (snd (startStream (mkMetadata (Some "127.0.0.1") None None) (fresh 10 0)))
              (mkMetadata None (Some "1920x1080") None)
              (mkLive (Some "127.0.0.1") "unknown" 0 0) eq_refl) as [Hyes _].
  destruct Hyes as (e & He & Hev & _).
  - left. exists "1920x1080". repeat split; discriminate.
  - exists e. split; assumption.
Defined.

(** C8 fails as stated: on a live stream of resolution 1280x720 and
    bitrate 2500, with one listener registered for stream changes, an
    update that carries these very values changes no field and yet calls
    the listener. *)
Lemma updateStreamMetadata_notifies_without_change :
  let s0 := snd (on streamChange 1 (fresh 10 0)) in
  let s := snd (startStream (mkMetadata (Some "127.0.0.1") (Some "1280x720") (Some 2500%Z))
                            s0) in
  let s' := snd (updateStreamMetadata (mkMetadata None (Some "1280x720") (Some 2500%Z)) s) in
  stream (app s) = Live (mkLive (Some "127.0.0.1") "1280x720" 2500 0)
  /\ app s' = app s
  /\ emitted s' =
       (emitted s ++
          [mkEmission streamChange
             (InfoPayload (mkInfo true 0 (Some (mkDetails "1280x720" 2500 0 0))))
             [1]])%list.
Proof. cbv zeta. repeat split; reflexivity. Qed.

End MetadataFacts.

Module FrameFacts.
Import Js State StateFacts MetadataFacts StreamFacts.
Local Open Scope js_scope.

Lemma startStream_viewers (s : Sys) (metadata : Metadata) :
  viewers (app (snd (startStream metadata s))) = viewers (app s).
Proof. run_call. case_tests; reflexivity. Qed.

Lemma updateStreamMetadata_viewers (s : Sys) (metadata : Metadata) :
  viewers (app (snd (updateStreamMetadata metadata s))) = viewers (app s).
Proof.
  destruct (stream (app s)) as [|d] eqn:Hst.
  - by rewrite updateStreamMetadata_offline.
  - rewrite (updateStreamMetadata_live s metadata d Hst). cbn [snd].
    by destruct (writes_resolution metadata || writes_bitrate metadata).
Qed.

Lemma addViewer_stream (s : Sys) (uuid : string) (ws : WsRef) :
  stream (app (snd (addViewer uuid ws s))) = stream (app s).
Proof. run_call. case_tests; reflexivity. Qed.

Lemma removeViewer_stream (s : Sys) (i : string) :
  stream (app (snd (removeViewer i s))) = stream (app s).
Proof. run_call. case_tests; reflexivity. Qed.

Lemma updateViewerQuality_stream (s : Sys) (i q : string) :
  stream (app (snd (updateViewerQuality i q s))) = stream (app s)
  /\ emitted (snd (updateViewerQuality i q s)) = emitted s.
Proof. run_call. case_tests; split; reflexivity. Qed.

Lemma updateViewerPing_stream (s : Sys) (i : string) :
  stream (app (snd (updateViewerPing i s))) = stream (app s)
  /\ emitted (snd (updateViewerPing i s)) = emitted s.
Proof. run_call. case_tests; split; reflexivity. Qed.

(** C10. The three stream calls leave the viewer sessions as they were,
    so the sessions outlive a stream that goes offline; the four viewer
    calls leave the stream, status and fields, as it was; and
    [updateViewerQuality] and [updateViewerPing] with an identifier that
    is not registered return with the state and the notification log
    untouched. *)
Theorem stream_and_viewer_calls_are_disjoint
        (s : Sys) (metadata : Metadata) (uuid : string) (ws : WsRef) (i q : string) :
  (viewers (app (snd (startStream metadata s))) = viewers (app s)
   /\ viewers (app (snd (stopStream s))) = viewers (app s)
   /\ viewers (app (snd (updateStreamMetadata metadata s))) = viewers (app s))
  /\ (stream (app (snd (addViewer uuid ws s))) = stream (app s)
      /\ stream (app (snd (removeViewer i s))) = stream (app s)
      /\ stream (app (snd (updateViewerQuality i q s))) = stream (app s)
      /\ stream (app (snd (updateViewerPing i s))) = stream (app s))
  /\ (viewers (app s) !! i = None ->
      updateViewerQuality i q s = (Ok tt, s)
      /\ updateViewerPing i s = (Ok tt, s)).
Proof.
  split; [| split].
  - split; [apply startStream_viewers |].
    split; [reflexivity | apply updateStreamMetadata_viewers].
  - split; [apply addViewer_stream |]. split; [apply removeViewer_stream |].
    split; [apply updateViewerQuality_stream | apply updateViewerPing_stream].
  - intros Hnone. split; run_call; rewrite Hnone; reflexivity.
Qed.

(** With one viewer "a" registered, the calls for the unknown "b" do
    nothing. *)
Lemma stream_and_viewer_calls_are_disjoint_witness :
  let s := snd (addViewer "a" 1 (fresh 10 0)) in
  updateViewerQuality "b" "720p" s = (Ok tt, s)
  /\ updateViewerPing "b" s = (Ok tt, s).
Proof.
  cbv zeta.
  apply (stream_and_viewer_calls_are_disjoint
           (snd (addViewer "a" 1 (fresh 10 0)))
           (mkMetadata None None None) "c" 2 "b" "720p").
  vm_compute. reflexivity.
Defined.

End FrameFacts.

(* ===================================================================== *)
(** ** Properties of the publish gate *)
(* ===================================================================== *)

Module RtmpFacts.
Import Js State Rtmp.
Local Open Scope js_scope.

(** *** Splitting a path *)

Lemma split_slash_cons (s : string) : exists p ps, split_slash s = p :: ps.
Proof.
  induction s as [|c s (p & ps & IH)]; cbn; [eauto |].
  destruct (Ascii.eqb c "/"); [eauto |]. rewrite IH. eauto.
Qed.

Lemma join_slash_cons (q p : string) (ps : list string) :
  join_slash (q :: p :: ps) = q +:+ String "/"%char (join_slash (p :: ps)).
Proof. reflexivity. Qed.

Lemma join_split (s : string) : join_slash (split_slash s) = s.
Proof.
  induction s as [|c s IH]; [reflexivity |]. cbn [split_slash].
  destruct (split_slash_cons s) as (p & ps & Hs). rewrite Hs in *.
  destruct (Ascii.eqb_spec c "/"%char) as [->|Hc].
  - rewrite join_slash_cons, IH. reflexivity.
  - destruct ps as [|q ps].
    + cbn in *. by rewrite IH.
    + rewrite join_slash_cons. rewrite join_slash_cons in IH.
      rewrite <- IH. reflexivity.
Qed.

Lemma split_parts_no_slash (s : string) :
  Forall (fun p => has_slash p = false) (split_slash s).
Proof.
  induction s as [|c s IH]; cbn [split_slash].
  - by constructor.
  - destruct (Ascii.eqb c "/"%char) eqn:Hc.
    + by constructor.
    + destruct (split_slash_cons s) as (p & ps & Hs). rewrite Hs in *.
      inversion IH as [|? ? Hp Hps]; subst. constructor; [| assumption].
      cbn [has_slash]. by rewrite Hc, Hp.
Qed.

Lemma split_no_slash (p : string) :
  has_slash p = false -> split_slash p = [p].
Proof.
  induction p as [|c p IH]; cbn [has_slash split_slash]; [reflexivity |].
  intros H. apply orb_false_elim in H as [Hc Hp]. rewrite Hc, (IH Hp). reflexivity.
Qed.

Lemma split_app_slash (p s : string) :
  has_slash p = false ->
  split_slash (p +:+ String "/"%char s) = p :: split_slash s.
Proof.
  induction p as [|c p IH]; [reflexivity |].
  change (String c p +:+ String "/"%char s) with (String c (p +:+ String "/"%char s)).
  cbn [has_slash split_slash].
  intros H. apply orb_false_elim in H as [Hc Hp]. rewrite Hc, (IH Hp). reflexivity.
Qed.

Lemma append_empty (s : string) : s +:+ EmptyString = s.
Proof.
  induction s as [|c s IH]; [reflexivity |].
  change (String c s +:+ EmptyString) with (String c (s +:+ EmptyString)). by rewrite IH.
Qed.

(** The test of the handler accepts exactly the paths of the form
    [before/live/key] or [before/live/key/more]. *)
Lemma invalid_path_false_iff (streamPath : string) :
  invalid_path streamPath = false <-> live_key_path streamPath.
Proof.
  unfold invalid_path, live_key_path. split.
  - intros H. apply orb_false_elim in H as [H Hkey].
    apply orb_false_elim in H as [_ Hlive].
    pose proof (join_split streamPath) as Hjoin.
    pose proof (split_parts_no_slash streamPath) as Hparts.
    destruct (split_slash streamPath) as [|before [|app [|key rest]]];
      try discriminate.
    cbn in Hlive, Hkey.
    destruct (String.eqb_spec app "live") as [->|]; [| discriminate].
    destruct (String.eqb_spec key EmptyString) as [|Hne]; [discriminate |].
    inversion Hparts as [|? ? Hb Hparts']; subst.
    inversion Hparts' as [|? ? _ Hparts'']; subst.
    inversion Hparts'' as [|? ? Hk _]; subst.
    exists before, key.
    destruct rest as [|more rest].
    + exists EmptyString. rewrite append_empty. repeat split; auto.
    + exists (String "/"%char (join_slash (more :: rest))).
      repeat split; eauto.
  - intros (before & key & after & -> & Hb & Hne & Hk & Hafter).
    change (before +:+ "/live/" +:+ key +:+ after)
      with (before +:+ String "/"%char ("live" +:+ String "/"%char (key +:+ after))).
    rewrite (split_app_slash before _ Hb).
    rewrite (split_app_slash "live" _ eq_refl).
    assert (Hsplit : exists rest, split_slash (key +:+ after) = key :: rest).
    { destruct Hafter as [-> | (more & ->)].
      - rewrite append_empty, (split_no_slash key Hk). eauto.
      - rewrite (split_app_slash key more Hk). eauto. }
    destruct Hsplit as (rest & ->). cbn.
    by destruct (String.eqb_spec key EmptyString).
Qed.

(** The handler never touches the application state. *)
Lemma prePublish_appState (n : Nms) (i streamPath : string) :
  _appState (snd (prePublish i streamPath n)) = _appState n.
Proof.
  unfold prePublish, reject_session, appState, zoom, canStream, this.
  cbv [bind ret gets update].
  destruct (invalid_path streamPath); cbn; [reflexivity |].
  destruct (is_live (stream (app (_appState n)))); reflexivity.
Qed.

(** C4, as the code has it. The prePublish handler lets a publish attempt
    through exactly when the path reads [before/live/key] or
    [before/live/key/more], with "live" as the application segment and a
    non-empty key, and the stream is offline. It never throws, it leaves
    the application state as it was in every case, and when it lets the
    attempt through it changes nothing at all. *)
Theorem prePublish_allows_live_key_when_offline (n : Nms) (i streamPath : string) :
  (fst (prePublish i streamPath n) = Ok StreamAllowed <->
   live_key_path streamPath /\ stream (app (_appState n)) = Offline)
  /\ (exists verdict, fst (prePublish i streamPath n) = Ok verdict)
  /\ _appState (snd (prePublish i streamPath n)) = _appState n
  /\ (fst (prePublish i streamPath n) = Ok StreamAllowed ->
      snd (prePublish i streamPath n) = n)
  /\ (fst (prePublish i streamPath n) <> Ok StreamAllowed ->
      sessions (snd (prePublish i streamPath n))
      = alter (fun _ => mkNmsSession true) i (sessions n)).
Proof.
  pose proof (invalid_path_false_iff streamPath) as Hpath.
  split; [| split; [| split; [apply prePublish_appState | split]]];
    unfold prePublish, reject_session, appState, zoom, canStream, this;
    cbv [bind ret gets update];
    destruct (invalid_path streamPath) eqn:Hinv; cbn [fst snd].
  - (* invalid path: rejected, and the path is not of the form *)
    split; [discriminate |]. intros [Hp _]. apply Hpath in Hp. discriminate.
  - (* valid path: the verdict follows the status *)
    destruct (stream (app (_appState n))) as [|d]; cbn [is_live negb fst].
    + split; [intros _; split; [by apply Hpath | reflexivity] | reflexivity].
    + split; [discriminate | intros [_ [=]]].
  - eauto.
  - destruct (is_live (stream (app (_appState n)))); cbn [negb fst]; eauto.
  - discriminate.
  - destruct (is_live (stream (app (_appState n)))); cbn [negb fst snd];
      [discriminate | intros _; by destruct n].
  - reflexivity.
  - destruct (is_live (stream (app (_appState n)))); cbn [negb fst snd sessions];
      [reflexivity | congruence].
Qed.

(** A publish to /live/stream on the fresh state is let through. *)
Lemma prePublish_allows_live_key_when_offline_witness :
  let n := mkNms (fresh 10 0) ∅ in
  fst (prePublish "s1" "/live/stream" n) = Ok StreamAllowed
  /\ snd (prePublish "s1" "/live/stream" n) = n.
Proof.
  cbv zeta.
  destruct (prePublish_allows_live_key_when_offline
              (mkNms (fresh 10 0) ∅) "s1" "/live/stream")
    as (Hiff & _ & _ & Hsame & _).
  assert (Hok : fst (prePublish "s1" "/live/stream" (mkNms (fresh 10 0) ∅))
                = Ok StreamAllowed).
  { apply Hiff. split; [| reflexivity].
    exists EmptyString, "stream", EmptyString. repeat split; try discriminate; auto. }
  split; [exact Hok | exact (Hsame Hok)].
Defined.

(** C4 fails as stated: with the stream offline, the path /app/key has a
    non-empty application segment and a non-empty stream-key segment, and
    the handler rejects it as an invalid path. *)
Lemma prePublish_rejects_other_application :
  let n := mkNms (fresh 10 0) {[ "s1" := mkNmsSession false ]} in
  required_shape_spec "/app/key" = true
  /\ stream (app (_appState n)) = Offline
  /\ fst (prePublish "s1" "/app/key" n) = Ok RejectInvalidPath
  /\ sessions (snd (prePublish "s1" "/app/key" n)) !! "s1" = Some (mkNmsSession true).
Proof. cbv zeta. repeat split; vm_compute; reflexivity. Qed.

End RtmpFacts.

(* ===================================================================== *)
(** ** Properties of the transcoder *)
(* ===================================================================== *)

Module TranscoderFacts.
Import Js Transcoder.
Local Open Scope js_scope.

(** Names the variables and objects of a world. *)
Ltac open_world w :=
  destruct w as [proc_ stopping_ ref_ cb_ app_ procs_ timers_ next_ files_ effects_];
  unfold running, stopping in *;
  cbn [ffmpegProcess isStoppingTranscoder appStateRef onCrashCallback appState
       procs timers nextId hlsFiles effects] in *.

Lemma exit_handling_app (l l' : list Effect) :
  exit_handling (l ++ l') = (exit_handling l ++ exit_handling l')%list.
Proof. apply List.filter_app. Qed.

(** *** The two paths of the 'close' listener of startTranscoder *)

Lemma onClose_expected (w : World) (code : option Z) :
  isStoppingTranscoder w = true ->
  onClose code w =
    (Ok tt, mkWorld None true (appStateRef w) (onCrashCallback w) (appState w)
                    (procs w) (timers w) (nextId w) (hlsFiles w) (effects w)).
Proof. intros Hstop. open_world w. subst. reflexivity. Qed.

Lemma onClose_crash (w : World) (code : option Z) :
  isStoppingTranscoder w = false ->
  code_ne_0 code = true ->
  onClose code w =
    (Ok tt,
     mkWorld None false (appStateRef w) (onCrashCallback w)
             (if appState_is_live w then snd (State.stopStream (appState w))
              else appState w)
             (procs w) (timers w) (nextId w) []
             (effects w ++ CleanupHlsFiles ::
                match onCrashCallback w with
                | Some f => [CrashCallback f code]
                | None => []
                end)).
Proof.
  intros Hstop Hcode. open_world w. subst.
  unfold onClose, bind at 1 2, gets at 1, set_ffmpegProcess, update at 1.
  cbn [isStoppingTranscoder negb andb]. rewrite Hcode.
  unfold appState_is_live.
  destruct ref_ as [[]|];
    [destruct (State.is_live (State.stream (State.app app_))) eqn:Hlive |];
    destruct cb_; cbn; rewrite ?Hlive; cbn; unfold effect, update; cbn;
    rewrite <- ?app_assoc; reflexivity.
Qed.

(** The 'close' event of a process that has not exited yet. *)
Lemma emitClose_not_exited (w : World) (pid : nat) (code : option Z) (p : ChildProcess) :
  procs w !! pid = Some p ->
  exited p = false ->
  emitClose pid code w =
    for_each (closeListeners p) (run_listener code)
      (mkWorld (ffmpegProcess w) (isStoppingTranscoder w) (appStateRef w)
               (onCrashCallback w) (appState w)
               (<[pid := mkProc (List.filter (fun l => negb (is_once l)) (closeListeners p))
                                true]> (procs w))
               (timers w) (nextId w) (hlsFiles w) (effects w)).
Proof.
  intros Hp Hex. unfold emitClose, bind at 1, gets at 1. rewrite Hp, Hex.
  reflexivity.
Qed.

(** *** A crash *)

(** C5. When the child process closes with a code other than 0 while it
    runs and stopTranscoder has not been called, the 'close' listener
    calls [stopStream] on the application state if that state is live,
    and leaves the application state as it is if it is offline (or if
    no application state was registered); it then cleans up the output
    files and calls the crash observer, if one is registered, with the
    exit code. *)
Theorem crash_is_reported
        (w : World) (pid : nat) (code : option Z) :
  running pid w ->
  code_ne_0 code = true ->
  let w' := snd (emitClose pid code w) in
  fst (emitClose pid code w) = Ok tt
  /\ (appStateRef w = Some TheAppState ->
      State.is_live (State.stream (State.app (appState w))) = true ->
      appState w' = snd (State.stopStream (appState w))
      /\ State.stream (State.app (appState w')) = State.Offline)
  /\ (State.is_live (State.stream (State.app (appState w))) = false ->
      appState w' = appState w)
  /\ (appStateRef w = None -> appState w' = appState w)
  /\ effects w' =
       (effects w ++ CleanupHlsFiles ::
          match onCrashCallback w with
          | Some f => [CrashCallback f code]
          | None => []
          end)%list
  /\ hlsFiles w' = []
  /\ ffmpegProcess w' = None.
Proof.
  intros (Hrun & Hstop & Hproc) Hcode. cbv zeta.
  rewrite (emitClose_not_exited w pid code _ Hproc eq_refl).
  cbn [closeListeners for_each run_listener]. unfold bind.
  rewrite onClose_crash by assumption.
  unfold ret, appState_is_live.
  cbn [fst snd appState appStateRef effects hlsFiles ffmpegProcess onCrashCallback].
  split; [reflexivity |]. split; [| split; [| split]].
  - intros Href Hlive. rewrite Href, Hlive. split; reflexivity.
  - intros Hoff. rewrite Hoff. by destruct (appStateRef w) as [[]|].
  - intros Href. by rewrite Href.
  - repeat split; reflexivity.
Qed.

(** A crash with exit code 1 while the stream is live: the stream goes
    offline, the files are cleaned up, the observer 7 is called with 1. *)
Lemma crash_is_reported_witness :
  let live := snd (State.startStream
                     (State.mkMetadata (Some "10.0.0.5") None None)
                     (State.fresh 10 0)) in
  let w := snd (startTranscoder true (snd (setAppState (Some 7) (loaded live)))) in
  let w' := snd (emitClose 0 (Some 1%Z) w) in
  State.stream (State.app (appState w')) = State.Offline
  /\ effects w' = (effects w ++ [CleanupHlsFiles; CrashCallback 7 (Some 1%Z)])%list.
Proof.
  cbv zeta.
  destruct (crash_is_reported
              (snd (startTranscoder true
                      (snd (setAppState (Some 7)
                              (loaded (snd (State.startStream
                                              (State.mkMetadata (Some "10.0.0.5") None None)
                                              (State.fresh 10 0))))))))
              0 (Some 1%Z))
    as (_ & Hlive & _ & _ & Heff & _).
  - repeat split; vm_compute; reflexivity.
  - reflexivity.
  - split; [apply Hlive; reflexivity | exact Heff].
Defined.

(** *** An exit after stopTranscoder *)

Lemma stopTranscoder_running (w : World) (pid : nat) :
  running pid w ->
  let w1 := snd (stopTranscoder w) in
  stopping pid (nextId w) w1
  /\ appState w1 = appState w
  /\ effects w1 = (effects w ++ [Kill pid SIGTERM; SetTimeout (nextId w)])%list.
Proof.
  intros H. open_world w. destruct H as (-> & -> & Hproc).
  cbn. rewrite lookup_alter_eq, Hproc, <- app_assoc.
  repeat split; reflexivity.
Qed.

Lemma fireTimeout_process (t pid : nat) stopping_ ref_ cb_ app_ procs_ timers_ next_
      files_ effects_ :
  fireTimeout t (mkWorld (Some pid) stopping_ ref_ cb_ app_ procs_ timers_ next_
                         files_ effects_) =
    (Ok tt,
     if existsb (Nat.eqb t) timers_
     then mkWorld (Some pid) stopping_ ref_ cb_ app_ procs_
                  (List.filter (fun t' => negb (Nat.eqb t' t)) timers_) next_ files_
                  (effects_ ++ [Kill pid SIGKILL])
     else mkWorld (Some pid) stopping_ ref_ cb_ app_ procs_ timers_ next_
                  files_ effects_).
Proof.
  unfold fireTimeout, bind, gets. cbn [timers].
  destruct (existsb (Nat.eqb t) timers_); reflexivity.
Qed.

(** While the module waits for the exit, further calls and the kill
    timeout neither clean up nor report a crash. *)
Lemma act_while_stopping (w : World) (pid t : nat) (a : Action) :
  stopping pid t w ->
  is_close a = false ->
  stopping pid t (act w a)
  /\ appState (act w a) = appState w
  /\ exit_handling (effects (act w a)) = exit_handling (effects w).
Proof.
  intros H Hclose. open_world w. destruct H as (-> & -> & Hproc).
  destruct a as [dirs_ok | | t' | pid' code']; [| | | discriminate].
  - cbn. repeat split; assumption || reflexivity.
  - cbn. repeat split; assumption || reflexivity.
  - cbn [act]. rewrite fireTimeout_process.
    destruct (existsb (Nat.eqb t') timers_);
      cbn [ffmpegProcess isStoppingTranscoder procs appState effects snd].
    + rewrite exit_handling_app. cbn [exit_handling List.filter is_exit_handling].
      rewrite app_nil_r. repeat split; assumption || reflexivity.
    + repeat split; assumption || reflexivity.
Qed.

Lemma acts_while_stopping (l : list Action) (w : World) (pid t : nat) :
  stopping pid t w ->
  forallb (fun a => negb (is_close a)) l = true ->
  stopping pid t (acts l w)
  /\ appState (acts l w) = appState w
  /\ exit_handling (effects (acts l w)) = exit_handling (effects w).
Proof.
  revert w. induction l as [|a l IH]; intros w Hw Hl; cbn [acts fold_left].
  - repeat split; apply Hw.
  - cbn [forallb] in Hl. apply andb_true_iff in Hl as [Ha Hl].
    apply negb_true_iff in Ha.
    destruct (act_while_stopping w pid t a Hw Ha) as (Hw' & Happ & Heff).
    destruct (IH (act w a) Hw' Hl) as (Hw'' & Happ' & Heff').
    unfold acts in *. rewrite Happ', Heff'. repeat split; try apply Hw''; assumption.
Qed.

(** The exit itself: the listener of startTranscoder skips the crash
    path, the listener of stopTranscoder cleans up. *)
Lemma emitClose_stopping (w : World) (pid t : nat) (code : option Z) :
  stopping pid t w ->
  let w' := snd (emitClose pid code w) in
  fst (emitClose pid code w) = Ok tt
  /\ effects w' = (effects w ++ [ClearTimeout t; CleanupHlsFiles])%list
  /\ appState w' = appState w
  /\ ffmpegProcess w' = None
  /\ isStoppingTranscoder w' = false
  /\ hlsFiles w' = [].
Proof.
  intros (Hrun & Hstop & Hproc). cbv zeta.
  rewrite (emitClose_not_exited w pid code _ Hproc eq_refl).
  open_world w. subst. cbn. rewrite <- app_assoc. repeat split; reflexivity.
Qed.

(** C6. When stopTranscoder is called on a running transcoder and the
    child process exits afterwards, with whatever code and whatever
    further calls of startTranscoder and stopTranscoder and expiry of
    timeouts in between, the 'close' listener of startTranscoder sees the
    guard flag and does nothing but forget the process, the listener of
    stopTranscoder cleans up, and so from the call to the end of the exit
    the output files are cleaned up exactly once, the crash observer is
    not called, and the application state is not touched. *)
Theorem exit_after_stop_cleans_up_once
        (w : World) (pid : nat) (code : option Z) (meanwhile : list Action) :
  running pid w ->
  forallb (fun a => negb (is_close a)) meanwhile = true ->
  let w1 := acts meanwhile (act w CallStop) in
  let w2 := act w1 (ProcessCloses pid code) in
  effects (snd (onClose code w1)) = effects w1
  /\ appState (snd (onClose code w1)) = appState w1
  /\ effects w2 = (effects w1 ++ [ClearTimeout (nextId w); CleanupHlsFiles])%list
  /\ exit_handling (effects w2) = (exit_handling (effects w) ++ [CleanupHlsFiles])%list
  /\ appState w2 = appState w
  /\ ffmpegProcess w2 = None
  /\ isStoppingTranscoder w2 = false.
Proof.
  intros Hrun Hmean. cbv zeta. cbn [act].
  destruct (stopTranscoder_running w pid Hrun) as (Hstop & Happ & Heff).
  destruct (acts_while_stopping meanwhile _ pid (nextId w) Hstop Hmean)
    as (Hstop' & Happ' & Heff').
  destruct (emitClose_stopping _ pid (nextId w) code Hstop')
    as (_ & Heff2 & Happ2 & Hproc2 & Hflag2 & _).
  rewrite (onClose_expected _ code (proj1 (proj2 Hstop'))). cbn [snd effects appState].
  split; [reflexivity |]. split; [reflexivity |]. split; [exact Heff2 |].
  split; [| split; [congruence | split; assumption]].
  rewrite Heff2, exit_handling_app, Heff', Heff, exit_handling_app. cbn.
  by rewrite app_nil_r.
Qed.

(** Start, stop, a second stop, the kill timeout, then the exit with
    code 255: one cleanup is added, the application state stays. *)
Lemma exit_after_stop_cleans_up_once_witness :
  let w := snd (startTranscoder true (snd (setAppState (Some 7) (loaded (State.fresh 10 0))))) in
  let w1 := acts [CallStop; TimeoutExpires 1] (act w CallStop) in
  let w2 := act w1 (ProcessCloses 0 (Some 255%Z)) in
  running 0 w
  /\ exit_handling (effects w2) = (exit_handling (effects w) ++ [CleanupHlsFiles])%list
  /\ appState w2 = appState w.
Proof.
  cbv zeta.
  assert (Hrun : running 0 (snd (startTranscoder true
                                   (snd (setAppState (Some 7)
                                           (loaded (State.fresh 10 0))))))).
  { repeat split; vm_compute; reflexivity. }
  split; [exact Hrun |].
  destruct (exit_after_stop_cleans_up_once _ 0 (Some 255%Z) [CallStop; TimeoutExpires 1]
                                           Hrun eq_refl)
    as (_ & _ & _ & Hexit & Happ & _).
  split; [exact Hexit | exact Happ].
Defined.

End TranscoderFacts.

(* ===================================================================== *)
(** ** Properties of the heartbeat *)
(* ===================================================================== *)

Module WebsocketFacts.
Import Js Websocket.
Local Open Scope js_scope.

(** *** One channel *)

Lemma heartbeat_client_terminated (c : WebSocket) :
  terminated (heartbeat_client c) = true <->
  terminated c = true \/ isAlive c = Some false.
Proof.
  unfold heartbeat_client, ping, set_isAlive, terminate.
  destruct c as [rs [[|]|] i tm n]; destruct rs; cbn; intuition congruence.
Qed.

Lemma terminated_stays (h : list ChannelEvent) (c : WebSocket) :
  terminated c = true -> terminated (fold_left channel_step h c) = true.
Proof.
  revert c. induction h as [|e h IH]; intros c Hc; [exact Hc |].
  cbn [fold_left]. apply IH. destruct e; cbn [channel_step].
  - apply heartbeat_client_terminated. by left.
  - exact Hc.
Qed.

Lemma closes_spec (h : list ChannelEvent) (c : WebSocket) (alive : bool) :
  terminated c = false ->
  isAlive c = Some alive ->
  terminated (fold_left channel_step h c) = closes alive h.
Proof.
  revert c alive. induction h as [|e h IH]; intros c alive Hopen Hflag; [exact Hopen |].
  cbn [fold_left closes]. destruct e; cbn [channel_step].
  - destruct alive.
    + apply IH.
      * unfold heartbeat_client. rewrite Hflag. unfold ping, set_isAlive.
        by destruct (readyState c).
      * unfold heartbeat_client. rewrite Hflag. unfold ping, set_isAlive.
        by destruct (readyState c).
    + apply terminated_stays. apply heartbeat_client_terminated. by right.
  - apply IH; [exact Hopen | reflexivity].
Qed.

Lemma closes_flag (h : list ChannelEvent) :
  closes true h = has_two_ticks_in_a_row h
  /\ closes false h = match h with
                      | Tick :: _ => true
                      | _ => has_two_ticks_in_a_row h
                      end.
Proof.
  induction h as [|[|] h [IHt IHf]]; cbn [closes].
  - split; reflexivity.
  - split; [| reflexivity]. rewrite IHf. by destruct h as [|[|] h].
  - split; exact IHt.
Qed.

(** *** The server *)

Lemma heartbeat_eq (w : Wss) :
  heartbeat w = (Ok tt, mkWss (appState w) (heartbeat_client <$> clients w)).
Proof. reflexivity. Qed.

Lemma updateViewerPing_returns (i : string) (a : State.Sys) :
  fst (State.updateViewerPing i a) = Ok tt.
Proof.
  unfold State.updateViewerPing, State.this, State.now, State.modify,
    bind, gets, update, ret.
  by destruct (State.viewers (State.app a) !! i).
Qed.

Lemma onPong_eq (w : Wss) (ws : nat) (c : WebSocket) :
  clients w !! ws = Some c ->
  onPong ws w =
    (Ok tt,
     mkWss match session c with
           | Some i => snd (State.updateViewerPing i (appState w))
           | None => appState w
           end
           (alter (set_isAlive true) ws (clients w))).
Proof.
  intros Hc. destruct w as [a cs]. cbn [clients appState] in *.
  unfold onPong, bind, gets. cbn [clients]. rewrite Hc.
  unfold on_client, update. cbn [appState clients].
  destruct (session c) as [i|]; [| reflexivity].
  unfold callAppState, zoom. cbn [appState clients].
  pose proof (updateViewerPing_returns i a) as Hok.
  destruct (State.updateViewerPing i a) as [r a']. cbn [fst snd] in *. by subst r.
Qed.

Lemma onPong_lookup (w : Wss) (ws : nat) (c : WebSocket) :
  clients w !! ws = Some c ->
  fst (onPong ws w) = Ok tt
  /\ clients (snd (onPong ws w)) !! ws = Some (set_isAlive true c).
Proof.
  intros Hc. rewrite (onPong_eq w ws c Hc). cbn [fst snd clients].
  split; [reflexivity |]. by rewrite lookup_alter_eq, Hc.
Qed.

(** The events of a channel reach the channel as [channel_step] says. *)
Lemma channel_run_client (h : list ChannelEvent) (w : Wss) (ws : nat) (c : WebSocket) :
  clients w !! ws = Some c ->
  fst (channel_run ws h w) = Ok tt
  /\ clients (snd (channel_run ws h w)) !! ws = Some (fold_left channel_step h c).
Proof.
  revert w c. induction h as [|e h IH]; intros w c Hc; [split; [reflexivity | exact Hc] |].
  unfold channel_run. cbn [for_each fold_left]. unfold bind.
  assert (Hstep : fst (channel_event ws e w) = Ok tt
                  /\ clients (snd (channel_event ws e w)) !! ws = Some (channel_step c e)).
  { destruct e; cbn [channel_event channel_step].
    - rewrite heartbeat_eq. cbn [fst snd clients].
      split; [reflexivity |]. by rewrite lookup_fmap, Hc.
    - exact (onPong_lookup w ws c Hc). }
  destruct Hstep as [Hok Hc']. destruct (channel_event ws e w) as [r w'].
  cbn [fst snd] in Hok, Hc'. subst r. exact (IH w' _ Hc').
Qed.

(** C9, as the code has it. A tick terminates a channel whose [isAlive]
    is still false from the tick before, and otherwise sets [isAlive] to
    false and pings; a pong sets it to true. So a channel that is open
    with [isAlive] true, as on admission, is terminated by a run of ticks
    and pongs exactly when the run holds two ticks in a row with no pong
    between them: the first interval that passes without an answer closes
    the channel. *)
Theorem heartbeat_closes_after_one_silent_interval
        (w : Wss) (ws : nat) (c : WebSocket) (h : list ChannelEvent) :
  clients w !! ws = Some c ->
  isAlive c = Some true ->
  terminated c = false ->
  fst (channel_run ws h w) = Ok tt
  /\ exists c', clients (snd (channel_run ws h w)) !! ws = Some c'
                /\ (terminated c' = true <-> has_two_ticks_in_a_row h = true)
                /\ (terminated (heartbeat_client c') = true <->
                    terminated c' = true \/ isAlive c' = Some false).
Proof.
  intros Hc Halive Hopen.
  destruct (channel_run_client h w ws c Hc) as [Hok Hc'].
  split; [exact Hok |]. exists (fold_left channel_step h c).
  split; [exact Hc' |]. split; [| apply heartbeat_client_terminated].
  rewrite (closes_spec h c true Hopen Halive).
  by rewrite (proj1 (closes_flag h)).
Qed.

(** An accepted viewer that answers the first ping and then falls
    silent is terminated at the third tick. *)
Lemma heartbeat_closes_after_one_silent_interval_witness :
  let w := mkWss (State.fresh 10 0) {[ 1 := accepted_viewer "a" ]} in
  exists c', clients (snd (channel_run 1 [Tick; Pong; Tick; Tick] w)) !! 1 = Some c'
             /\ terminated c' = true.
Proof.
  cbv zeta.
  destruct (heartbeat_closes_after_one_silent_interval
              (mkWss (State.fresh 10 0) {[ 1 := accepted_viewer "a" ]}) 1 (accepted_viewer "a")
              [Tick; Pong; Tick; Tick])
    as (_ & c' & Hc' & Hiff & _).
  - vm_compute. reflexivity.
  - reflexivity.
  - reflexivity.
  - exists c'. split; [exact Hc' |]. apply Hiff. reflexivity.
Defined.

(** C9 fails as stated: an accepted channel answers the ping of the
    first tick, so the second tick finds it alive; it does not answer the
    ping of the second tick, so the third tick is the first to find it
    presumed dead, one strike by the two-strike rule (whether or not the
    first tick counted the new channel as answering), and the third tick
    terminates it. *)
Lemma heartbeat_closes_at_first_strike :
  let h := [Tick; Pong; Tick; Tick] in
  let w := mkWss (State.fresh 10 0) {[ 1 := accepted_viewer "a" ]} in
  strikes_spec [Tick; Pong; Tick] = 0
  /\ strikes_spec h = 1
  /\ strikes (fold_left strikes_step h (mkStrikes false 0)) = 1
  /\ terminated (fold_left channel_step [Tick; Pong; Tick] (accepted_viewer "a")) = false
  /\ terminated (fold_left channel_step h (accepted_viewer "a")) = true
  /\ clients (snd (channel_run 1 h w)) !! 1
     = Some (mkWs CLOSING (Some false) (Some "a") true 2).
Proof. cbv zeta. repeat split; vm_compute; reflexivity. Qed.

End WebsocketFacts.

(* ===================================================================== *)
(** ** Further properties of AppState *)
(* ===================================================================== *)

Module StateMoreFacts.
Import Js State StateFacts StateMore.
Local Open Scope js_scope.

(** *** removeViewer *)

(** X1. [removeViewer] with an identifier that is not registered returns
    with the state and the notification log untouched. With a registered
    identifier it drops that session and no other, the count falls by
    one, the viewer-change listeners are told the new count once, and the
    stream stays as it was. *)
Theorem removeViewer_drops_one_session (s : Sys) (i : string) :
  let s' := snd (removeViewer i s) in
  (viewers (app s) !! i = None -> removeViewer i s = (Ok tt, s))
  /\ (forall v, viewers (app s) !! i = Some v ->
        fst (removeViewer i s) = Ok tt
        /\ viewers (app s') !! i = None
        /\ (forall j, j <> i -> viewers (app s') !! j = viewers (app s) !! j)
        /\ S (size (viewers (app s'))) = size (viewers (app s))
        /\ emitted s' =
             (emitted s ++ [mkEmission viewerChange
                                       (CountPayload (size (viewers (app s'))))
                                       (on_viewerChange (_listeners (app s)))])%list
        /\ stream (app s') = stream (app s)).
Proof.
  cbv zeta. split.
  - intros Hnone. run_call. rewrite Hnone. reflexivity.
  - intros v Hv. run_call. rewrite Hv.
    cbn [fst snd app emitted viewers set_viewers stream _listeners].
    split; [reflexivity |]. split; [apply lookup_delete_eq |].
    split; [intros j Hj; by apply lookup_delete_ne |].
    split; [| split; reflexivity].
    rewrite map_size_delete, Hv. cbn.
    assert (size (viewers (app s)) <> 0); [| lia].
    apply map_size_non_empty_iff. intros Hempty. by rewrite Hempty in Hv.
Qed.

(** One viewer joins and leaves again. *)
Lemma removeViewer_drops_one_session_witness :
  let s := snd (addViewer "a" 1 (fresh 10 0)) in
  let s' := snd (removeViewer "a" s) in
  viewers (app s') !! "a" = None /\ S (size (viewers (app s'))) = size (viewers (app s)).
Proof.
  cbv zeta.
  destruct (removeViewer_drops_one_session (snd (addViewer "a" 1 (fresh 10 0))) "a")
    as [_ Hknown].
  destruct (Hknown (mkSession "a" 0 0 "1080p" 1)) as (_ & Hgone & _ & Hsize & _).
  - vm_compute. reflexivity.
  - split; [exact Hgone | exact Hsize].
Defined.

(** X2. A viewer that joins under an identifier not in use and leaves
    again leaves the application state exactly as it was; the listeners
    have been told the count with the viewer and then the count without. *)
Theorem addViewer_then_removeViewer (s : Sys) (uuid : string) (ws : WsRef) :
  viewers (app s) !! uuid = None ->
  (Z.of_nat (size (viewers (app s))) < maxViewers (app s))%Z ->
  let s2 := snd (removeViewer uuid (snd (addViewer uuid ws s))) in
  app s2 = app s
  /\ emitted s2 =
       (emitted s ++
          [mkEmission viewerChange (CountPayload (S (size (viewers (app s)))))
                      (on_viewerChange (_listeners (app s)));
           mkEmission viewerChange (CountPayload (size (viewers (app s))))
                      (on_viewerChange (_listeners (app s)))])%list.
Proof.
  intros Hnew Hroom. cbv zeta.
  rewrite (addViewer_room s uuid ws Hroom). cbn [snd].
  run_call. cbn [viewers set_viewers]. rewrite lookup_insert_eq.
  cbn [snd app emitted viewers set_viewers maxViewers stream _listeners].
  rewrite (delete_insert_id _ _ _ Hnew), (map_size_insert_None _ _ _ Hnew), <- app_assoc.
  split; [by destruct (app s) | reflexivity].
Qed.

Lemma addViewer_then_removeViewer_witness :
  let s2 := snd (removeViewer "a" (snd (addViewer "a" 1 (fresh 10 0)))) in
  app s2 = app (fresh 10 0).
Proof.
  cbv zeta.
  apply (addViewer_then_removeViewer (fresh 10 0) "a" 1); [reflexivity | vm_compute; reflexivity].
Defined.

(** *** What the listeners have been told *)






(** *** The clock *)

Lemma step_started_in_the_past (o : Op) (s : Sys) :
  started_in_the_past s -> started_in_the_past (step o s).
Proof.
  unfold started_in_the_past. intros Hpast.
  destruct o; cbn [step];
    try match goal with e : EventName |- _ => destruct e end.
  3: { destruct (stream (app s)) as [|d] eqn:Hst.
       - rewrite MetadataFacts.updateStreamMetadata_offline by exact Hst.
         cbn [snd]. by rewrite Hst.
       - rewrite (MetadataFacts.updateStreamMetadata_live s metadata d Hst). cbn [snd].
         destruct (writes_resolution metadata || writes_bitrate metadata);
           cbn [app clock stream set_stream refreshed startTime]; rewrite ?Hst; exact Hpast. }
  all: run_call; case_tests;
    cbn [app clock stream set_stream set_viewers set_listeners startTime snd];
    repeat match goal with H : stream _ = _ |- _ => rewrite H in * end;
    try assumption; try lia; try exact I.
Qed.

Lemma run_started_in_the_past (ops : list Op) (s : Sys) :
  started_in_the_past s -> started_in_the_past (run ops s).
Proof.
  revert s. induction ops as [|o ops IH]; intros s Hs; [exact Hs |].
  apply IH, step_started_in_the_past, Hs.
Qed.

(** X4. After any sequence of calls and waits on a fresh application
    state, [getStreamInfo] returns without changing anything; its [live]
    flag is the status, its count is the number of sessions, it carries
    stream details exactly when the stream is live, and these are the
    stored resolution, bitrate and start time with a duration, in whole
    seconds, that is not negative. *)
Theorem getStreamInfo_reports_the_state (cap t0 : Z) (ops : list Op) :
  let s := run ops (fresh cap t0) in
  exists info,
    getStreamInfo s = (Ok info, s)
    /\ info_live info = is_live (stream (app s))
    /\ viewerCount info = size (viewers (app s))
    /\ match stream (app s) with
       | Offline => streamInfo info = None
       | Live d =>
           exists details,
             streamInfo info = Some details
             /\ si_resolution details = resolution d
             /\ si_bitrate details = bitrate d
             /\ si_startTime details = startTime d
             /\ (0 <= si_duration details)%Z
             /\ (1000 * si_duration details <= clock s - startTime d
                 < 1000 * si_duration details + 1000)%Z
       end.
Proof.
  cbv zeta.
  pose proof (run_started_in_the_past ops (fresh cap t0) I) as Hpast.
  unfold started_in_the_past in Hpast. run_call.
  destruct (stream (app (run ops (fresh cap t0)))) as [|d].
  - eexists. repeat split; reflexivity.
  - eexists. split; [reflexivity |]. cbn [info_live viewerCount streamInfo is_live].
    split; [reflexivity |]. split; [reflexivity |].
    eexists. split; [reflexivity |].
    cbn [si_resolution si_bitrate si_startTime si_duration].
    repeat (split; [reflexivity |]).
    split.
    + apply Z.div_pos; lia.
    + pose proof (Z.mul_div_le (clock (run ops (fresh cap t0)) - startTime d) 1000 ltac:(lia)).
      pose proof (Z.mul_succ_div_gt (clock (run ops (fresh cap t0)) - startTime d) 1000
                                    ltac:(lia)).
      lia.
Qed.

(** *** Listeners *)

Lemma filter_other_callbacks (cb : Callback) (l : list Callback) :
  cb ∉ l -> filter (fun c => c ≠ cb) l = l.
Proof.
  induction l as [|c l IH]; [reflexivity |]. intros Hnot.
  apply not_elem_of_cons in Hnot as [Hne Hnot].
  rewrite filter_cons_True by congruence. by rewrite (IH Hnot).
Qed.

(** X5. [off] removes every registration of the callback for the event,
    keeps the other listeners of the event in their order and leaves the
    listeners of the other event, the stream, the viewers and the log
    alone. So [on] followed by [off] of the same callback also removes a
    registration made earlier, and gives back the listeners as they were
    exactly when the callback was not registered before. *)
Theorem off_removes_every_registration (s : Sys) (e : EventName) (cb : Callback) :
  let s1 := snd (off e cb s) in
  let s2 := snd (off e cb (snd (on e cb s))) in
  listeners_of e (app s1) = filter (fun c => c ≠ cb) (listeners_of e (app s))
  /\ (cb ∉ listeners_of e (app s1))
  /\ (forall e', e' <> e -> listeners_of e' (app s1) = listeners_of e' (app s))
  /\ stream (app s1) = stream (app s)
  /\ viewers (app s1) = viewers (app s)
  /\ emitted s1 = emitted s
  /\ listeners_of e (app s2) = listeners_of e (app s1)
  /\ (listeners_of e (app s2) = listeners_of e (app s) <-> cb ∉ listeners_of e (app s)).
Proof.
  cbv zeta.
  assert (Hoff : forall s0, listeners_of e (app (snd (off e cb s0)))
                            = filter (fun c => c ≠ cb) (listeners_of e (app s0))).
  { intros s0. by destruct e. }
  assert (Hon : listeners_of e (app (snd (on e cb s))) = (listeners_of e (app s) ++ [cb])%list).
  { by destruct e. }
  assert (Hfilter : filter (fun c => c ≠ cb) (listeners_of e (app s) ++ [cb])
                    = filter (fun c => c ≠ cb) (listeners_of e (app s))).
  { rewrite filter_app, filter_cons_False, filter_nil, app_nil_r; [reflexivity | tauto]. }
  rewrite !Hoff, Hon, Hfilter.
  split; [reflexivity |].
  split; [intros Hin; apply list_elem_of_filter in Hin as [Hne _]; congruence |].
  split; [intros e' He'; by destruct e, e' |].
  split; [by destruct e |]. split; [by destruct e |]. split; [by destruct e |].
  split; [reflexivity |].
  split.
  - intros Heq Hin. rewrite <- Heq in Hin.
    apply list_elem_of_filter in Hin as [Hne _]. congruence.
  - apply filter_other_callbacks.
Qed.

(** *** Queries *)

(** X6. The two queries change nothing and tell what the matching command
    will do: [canStream] is true exactly when [startStream] would return
    rather than throw, and [isRoomFull] is true exactly when [addViewer]
    would return null. *)
Theorem queries_predict_commands
        (s : Sys) (metadata : Metadata) (uuid : string) (ws : WsRef) :
  (exists can, canStream s = (Ok can, s)
               /\ (can = true <-> fst (startStream metadata s) = Ok tt))
  /\ (exists full, isRoomFull s = (Ok full, s)
                   /\ (full = true <-> fst (addViewer uuid ws s) = Ok None)).
Proof.
  split; eexists; (split; [reflexivity |]); run_call.
  - destruct (is_live (stream (app s))); cbn [negb fst];
      split; intros H; try reflexivity; discriminate.
  - destruct (Z.of_nat (size (viewers (app s))) >=? maxViewers (app s))%Z; cbn [fst];
      split; intros H; try reflexivity; discriminate.
Qed.

(** *** cleanup *)

(** X7. [cleanup] closes the connection of every session, one close for
    each session, empties the registry and sets the stream offline; unlike
    [stopStream] and [removeViewer] it tells no listener, and it keeps the
    listeners and the capacity. *)
Theorem cleanup_resets_without_notifying (s : Sys) :
  let s' := snd (cleanup s) in
  exists closed,
    fst (cleanup s) = Ok closed
    /\ length closed = size (viewers (app s))
    /\ (forall ws, ws ∈ closed <->
                   exists i v, viewers (app s) !! i = Some v /\ websocket v = ws)
    /\ viewers (app s') = ∅
    /\ stream (app s') = Offline
    /\ emitted s' = emitted s
    /\ _listeners (app s') = _listeners (app s)
    /\ maxViewers (app s') = maxViewers (app s).
Proof.
  cbv zeta. eexists. split; [reflexivity |].
  split; [by rewrite length_fmap, length_map_to_list |].
  split; [| repeat split; reflexivity].
  intros ws. rewrite list_elem_of_fmap. split.
  - intros ([i v] & -> & Hin). apply elem_of_map_to_list in Hin. eauto.
  - intros (i & v & Hv & <-). exists (i, v). split; [reflexivity |].
    by apply elem_of_map_to_list.
Qed.

Lemma off_removes_every_registration_witness :
  let s := snd (on viewerChange 7 (snd (on streamChange 7 (snd (on streamChange 3 (fresh 10 0)))))) in
  listeners_of streamChange (app (snd (off streamChange 7 s))) = [3]
  /\ listeners_of viewerChange (app (snd (off streamChange 7 s))) = [7].
Proof.
  cbv zeta.
  destruct (off_removes_every_registration
              (snd (on viewerChange 7 (snd (on streamChange 7 (snd (on streamChange 3 (fresh 10 0)))))))
              streamChange 7)
    as (Hsame & _ & Hother & _).
  split.
  - rewrite Hsame. vm_compute. reflexivity.
  - rewrite (Hother viewerChange); [vm_compute; reflexivity | discriminate].
Defined.

End StateMoreFacts.

(* ===================================================================== *)
(** ** Further properties of the transcoder *)
(* ===================================================================== *)

Module TranscoderMoreFacts.
Import Js Transcoder TranscoderFacts TranscoderMore.
Local Open Scope js_scope.

(** *** startTranscoder *)

(** X8. [startTranscoder] while a process is referred to returns null and
    does nothing, not even the cleanup of the output files. With no
    process it first cleans the output files; if the output directories
    cannot be made it throws and spawns nothing; otherwise it spawns one
    process under a new handle, with its 'close' listener, and refers to
    it. *)
Theorem startTranscoder_outcomes (w : World) (dirs_ok : bool) :
  let w' := snd (startTranscoder dirs_ok w) in
  (forall pid, ffmpegProcess w = Some pid -> startTranscoder dirs_ok w = (Ok None, w))
  /\ (ffmpegProcess w = None -> dirs_ok = false ->
      fst (startTranscoder dirs_ok w) = Throw OutputDirError
      /\ effects w' = (effects w ++ [CleanupHlsFiles])%list
      /\ hlsFiles w' = []
      /\ ffmpegProcess w' = None
      /\ procs w' = procs w)
  /\ (ffmpegProcess w = None -> dirs_ok = true ->
      fst (startTranscoder dirs_ok w) = Ok (Some (nextId w))
      /\ effects w' = (effects w ++ [CleanupHlsFiles; Spawn (nextId w)])%list
      /\ hlsFiles w' = []
      /\ ffmpegProcess w' = Some (nextId w)
      /\ procs w' = <[nextId w := mkProc [OnClose] false]> (procs w)
      /\ isStoppingTranscoder w' = isStoppingTranscoder w
      /\ isTranscoderRunning w' = true).
Proof.
  cbv zeta. open_world w. split; [| split].
  - intros pid ->. reflexivity.
  - intros -> ->. cbn. repeat split; reflexivity.
  - intros -> ->. cbn. rewrite <- app_assoc. repeat split; reflexivity.
Qed.

(** A start, a second start, and a start that cannot make its
    directories. *)
Lemma startTranscoder_outcomes_witness :
  let w := wired (State.fresh 10 0) None in
  let w1 := snd (startTranscoder true w) in
  fst (startTranscoder true w) = Ok (Some 0)
  /\ startTranscoder true w1 = (Ok None, w1)
  /\ fst (startTranscoder false w) = Throw OutputDirError.
Proof.
  cbv zeta.
  destruct (startTranscoder_outcomes (wired (State.fresh 10 0) None) true)
    as (_ & _ & Hstart).
  destruct (startTranscoder_outcomes (wired (State.fresh 10 0) None) false)
    as (_ & Hfail & _).
  destruct (startTranscoder_outcomes
              (snd (startTranscoder true (wired (State.fresh 10 0) None))) true)
    as (Hagain & _ & _).
  split; [apply Hstart; reflexivity |].
  split; [apply (Hagain 0); reflexivity | apply Hfail; reflexivity].
Defined.

(** *** stopTranscoder *)

(** X9. [stopTranscoder] with no process and the guard flag unset only
    cleans the output files: no signal, no timeout. With the guard flag
    set it does nothing at all. So after a call on a running transcoder a
    second call changes nothing: SIGTERM is sent once and one timeout is
    set. *)
Theorem stopTranscoder_outcomes (w : World) :
  let w' := snd (stopTranscoder w) in
  (ffmpegProcess w = None -> isStoppingTranscoder w = false ->
   fst (stopTranscoder w) = Ok tt
   /\ effects w' = (effects w ++ [CleanupHlsFiles])%list
   /\ hlsFiles w' = []
   /\ ffmpegProcess w' = None
   /\ isStoppingTranscoder w' = false
   /\ timers w' = timers w
   /\ procs w' = procs w)
  /\ (isStoppingTranscoder w = true -> stopTranscoder w = (Ok tt, w))
  /\ (forall pid, running pid w ->
        stopTranscoder w' = (Ok tt, w')
        /\ effects w' = (effects w ++ [Kill pid SIGTERM; SetTimeout (nextId w)])%list
        /\ timers w' = (timers w ++ [nextId w])%list).
Proof.
  cbv zeta. open_world w. split; [| split].
  - intros -> ->. cbn. repeat split; reflexivity.
  - intros ->. by destruct proc_.
  - intros pid (-> & -> & Hproc). cbn. rewrite <- app_assoc. repeat split; reflexivity.
Qed.

Lemma stopTranscoder_outcomes_witness :
  let w := snd (startTranscoder true (wired (State.fresh 10 0) None)) in
  let w' := snd (stopTranscoder w) in
  stopTranscoder w' = (Ok tt, w')
  /\ effects w' = (effects w ++ [Kill 0 SIGTERM; SetTimeout 1])%list.
Proof.
  cbv zeta.
  destruct (stopTranscoder_outcomes
              (snd (startTranscoder true (wired (State.fresh 10 0) None))))
    as (_ & _ & Hrun).
  destruct (Hrun 0) as (Hagain & Heff & _).
  - repeat split; vm_compute; reflexivity.
  - split; [exact Hagain | exact Heff].
Defined.

(** *** The 'error' listener *)

(** X10. The 'error' listener of the child process forgets the process.
    When stopTranscoder has not been called it then handles the error as a
    crash with code -1: [stopStream] if the registered application state
    is live, cleanup of the output files, and the crash observer called
    with -1. When the guard flag is set it does nothing more, and the flag
    stays set. *)
Theorem onError_outcomes (w : World) :
  let w' := snd (onError w) in
  fst (onError w) = Ok tt
  /\ ffmpegProcess w' = None
  /\ isStoppingTranscoder w' = isStoppingTranscoder w
  /\ (isStoppingTranscoder w = true ->
      effects w' = effects w /\ appState w' = appState w /\ hlsFiles w' = hlsFiles w)
  /\ (isStoppingTranscoder w = false ->
      appState w' = (if appState_is_live w then snd (State.stopStream (appState w))
                     else appState w)
      /\ hlsFiles w' = []
      /\ effects w' =
           (effects w ++ CleanupHlsFiles ::
              match onCrashCallback w with
              | Some f => [CrashCallback f (Some (-1)%Z)]
              | None => []
              end)%list).
Proof.
  cbv zeta. open_world w. unfold appState_is_live. cbn [appStateRef appState].
  destruct stopping_.
  - cbn. repeat split; reflexivity || discriminate.
  - destruct ref_ as [[]|];
      [destruct (State.is_live (State.stream (State.app app_))) eqn:Hlive |];
      destruct cb_; unfold onError, bind, gets, set_ffmpegProcess, update,
                      appState_is_live; cbn; rewrite ?Hlive; cbn;
      unfold effect, update; cbn; rewrite <- ?app_assoc;
      repeat split; reflexivity || discriminate.
Qed.

Lemma onError_outcomes_witness :
  let live := snd (State.startStream (State.mkMetadata (Some "10.0.0.5") None None)
                                     (State.fresh 10 0)) in
  let w := snd (startTranscoder true (wired live (Some 7))) in
  State.stream (State.app (appState (snd (onError w)))) = State.Offline
  /\ effects (snd (onError w))
     = (effects w ++ [CleanupHlsFiles; CrashCallback 7 (Some (-1)%Z)])%list.
Proof.
  cbv zeta.
  destruct (onError_outcomes
              (snd (startTranscoder true
                      (wired (snd (State.startStream
                                     (State.mkMetadata (Some "10.0.0.5") None None)
                                     (State.fresh 10 0))) (Some 7)))))
    as (_ & _ & _ & _ & Hcrash).
  destruct (Hcrash eq_refl) as (Happ & _ & Heff).
  split; [rewrite Happ; reflexivity | exact Heff].
Defined.

(** *** The states the module goes through *)









End TranscoderMoreFacts.

(* ===================================================================== *)
(** ** Properties of the publish handlers *)
(* ===================================================================== *)

Module PublishFacts.
Import Js Publish.
Local Open Scope js_scope.

(** *** extractMetadata *)

Lemma has_x_append (a b : string) : has_x (a +:+ String "x"%char b) = true.
Proof.
  induction a as [|c a IH]; [reflexivity |].
  change (String c a +:+ String "x"%char b) with (String c (a +:+ String "x"%char b)).
  cbn [has_x]. rewrite IH. apply orb_true_r.
Qed.

Lemma dimensions_known (w h : Z) :
  dimensions w h <> "unknown" /\ dimensions w h <> EmptyString.
Proof.
  assert (Hx : has_x (dimensions w h) = true)
    by exact (has_x_append (pretty w) (pretty h)).
  split; intros Heq; rewrite Heq in Hx; discriminate.
Qed.

(** X14. [extractMetadata] always fills in the three fields. Without a
    session they are 'unknown', 'unknown' and 0. With a session the
    resolution is 'unknown' exactly when the width or the height is
    missing or 0, and otherwise reads width, 'x', height; the bitrate is
    the sum of the audio and video bitrates, a missing one counting 0; and
    an address that begins with '::ffff:' loses these seven characters. *)
Theorem extractMetadata_fields (session : option Session) :
  exists ip res b,
    extractMetadata session = State.mkMetadata (Some ip) (Some res) (Some b)
    /\ res <> EmptyString
    /\ match session with
       | None => ip = "unknown" /\ res = "unknown" /\ b = 0%Z
       | Some s =>
           (res = "unknown" <->
            truthy_num (videoWidth s) && truthy_num (videoHeight s) = false)
           /\ (forall w h, videoWidth s = Some w -> videoHeight s = Some h ->
                           w <> 0%Z -> h <> 0%Z -> res = pretty w +:+ "x" +:+ pretty h)
           /\ b = (or_zero (audioBitrate s) + or_zero (videoBitrate s))%Z
           /\ (forall rest, remoteAddress s = Some ("::ffff:" +:+ rest) -> ip = rest)
           /\ (remoteAddress s = None -> ip = "unknown")
       end.
Proof.
  destruct session as [s|]; cbn [extractMetadata].
  - eexists _, _, _. split; [reflexivity |].
    destruct (truthy_num (videoWidth s) && truthy_num (videoHeight s)) eqn:Hdims.
    + pose proof (dimensions_known (or_zero (videoWidth s)) (or_zero (videoHeight s)))
        as [Hu He].
      split; [exact He |]. split; [split; [intros H; by apply Hu in H | discriminate] |].
      split.
      { intros w h Hw Hh Hw0 Hh0. unfold dimensions, or_zero. rewrite Hw, Hh. cbn [or_num].
        destruct (Z.eqb_spec w 0), (Z.eqb_spec h 0); congruence. }
      split; [lia |]. split.
      * intros rest Hrest. rewrite Hrest. reflexivity.
      * intros Hnone. rewrite Hnone. reflexivity.
    + split; [discriminate |]. split; [split; reflexivity |].
      split.
      { intros w h Hw Hh Hw0 Hh0. rewrite Hw, Hh in Hdims. cbn in Hdims.
        destruct (Z.eqb_spec w 0), (Z.eqb_spec h 0); cbn in Hdims; congruence. }
      split; [lia |]. split.
      * intros rest Hrest. rewrite Hrest. reflexivity.
      * intros Hnone. rewrite Hnone. reflexivity.
  - eexists _, _, _. split; [reflexivity |]. split; [discriminate |]. auto.
Qed.

Lemma extractMetadata_fields_witness :
  extractMetadata (Some (mkSessionInfo (Some "::ffff:192.168.1.100") (Some 1920%Z)
                                       (Some 1080%Z) None (Some 5000%Z)))
  = State.mkMetadata (Some "192.168.1.100") (Some "1920x1080") (Some 5000%Z).
Proof.
  destruct (extractMetadata_fields
              (Some (mkSessionInfo (Some "::ffff:192.168.1.100") (Some 1920%Z)
                                   (Some 1080%Z) None (Some 5000%Z))))
    as (ip & res & b & Heq & _ & _ & Hres & Hb & Hip & _).
  rewrite Heq, (Hres 1920%Z 1080%Z eq_refl eq_refl ltac:(discriminate) ltac:(discriminate)),
    Hb, (Hip "192.168.1.100" eq_refl).
  reflexivity.
Defined.

(** *** The calls on the application state *)

Lemma startStream_when_live (s : State.Sys) (metadata : State.Metadata) :
  State.is_live (State.stream (State.app s)) = true ->
  State.startStream metadata s = (Throw State.StreamAlreadyActive, s).
Proof.
  intros Hlive. unfold State.startStream, State.this, bind, gets, throw.
  by rewrite Hlive.
Qed.

Lemma startStream_when_offline (s : State.Sys) (metadata : State.Metadata) :
  State.stream (State.app s) = State.Offline ->
  State.startStream metadata s =
    (Ok tt,
     State.mkSys
       (State.set_stream
          (State.Live (State.mkLive (State.md_publisherIP metadata)
                                    (or_str (State.md_resolution metadata) "unknown")
                                    (or_num (State.md_bitrate metadata) 0)
                                    (State.clock s)))
          (State.app s))
       (State.clock s)
       (State.emitted s ++
          [State.mkEmission State.streamChange
             (State.InfoPayload
                (State.mkInfo true (size (State.viewers (State.app s)))
                   (Some (State.mkDetails
                            (or_str (State.md_resolution metadata) "unknown")
                            (or_num (State.md_bitrate metadata) 0)
                            (State.clock s)
                            ((State.clock s - State.clock s) / 1000)%Z))))
             (State.on_streamChange (State._listeners (State.app s)))])).
Proof.
  intros Hoff. destruct s as [a t l]. cbn [State.app] in Hoff.
  unfold State.startStream, State.this, State.now, State.modify, State.getStreamInfo,
    State._emit, State.log, bind, gets, update, ret.
  cbn. by rewrite Hoff.
Qed.


(** *** The delayed refresh *)




(** *** postPublish and donePublish *)

(** X16. postPublish for a second publisher, while the stream is live and
    the transcoder has its process, does not throw and changes neither
    the stream, whose fields stay those of the first publisher, nor the
    viewers, nor the notification log, nor anything of the transcoder: no
    second process is spawned and no file is cleaned up. It only sets its
    timeout. *)
Theorem postPublish_while_live_changes_nothing
        (n : Node) (dirs_ok : bool) (i : string) (pid : nat) :
  State.is_live (State.stream (State.app (appStateOf n))) = true ->
  Transcoder.ffmpegProcess (transcoder n) = Some pid ->
  postPublish dirs_ok i n
  = (Ok tt, mkNode (transcoder n) (sessions n) (refreshes n ++ [i])).
Proof.
  intros Hlive Hproc. destruct n as [t ss rs]. unfold appStateOf in Hlive.
  cbn [transcoder sessions refreshes] in *.
  TranscoderFacts.open_world t. subst.
  unfold postPublish, bind, gets, try_catch, appStateCall, transcoderCall, zoom,
    Transcoder.callAppState, update.
  cbn [transcoder sessions refreshes Transcoder.appState].
  rewrite (startStream_when_live _ _ Hlive). reflexivity.
Qed.

Lemma postPublish_while_live_changes_nothing_witness :
  let n := snd (postPublish true "first" (booted (State.fresh 10 0) None ∅)) in
  postPublish true "second" n
  = (Ok tt, mkNode (transcoder n) (sessions n) (refreshes n ++ ["second"])).
Proof.
  cbv zeta.
  apply (postPublish_while_live_changes_nothing _ true "second" 0); vm_compute; reflexivity.
Defined.

(** X17. With the stream offline and the transcoder idle, postPublish
    makes the stream live with the metadata extracted from the session
    and notifies the stream-change listeners once. If the output
    directories can be made it then spawns the transcoder and sets its
    timeout. If they cannot, the handler throws after the stream has gone
    live: the stream stays live with no transcoder process, and the
    timeout is not set. *)
Theorem postPublish_when_offline (n : Node) (dirs_ok : bool) (i : string) :
  State.stream (State.app (appStateOf n)) = State.Offline ->
  Transcoder.ffmpegProcess (transcoder n) = None ->
  let n' := snd (postPublish dirs_ok i n) in
  let metadata := extractMetadata (sessions n !! i) in
  State.stream (State.app (appStateOf n'))
  = State.Live (State.mkLive (State.md_publisherIP metadata)
                             (or_str (State.md_resolution metadata) "unknown")
                             (or_num (State.md_bitrate metadata) 0)
                             (State.clock (appStateOf n)))
  /\ State.md_resolution metadata
     = Some (or_str (State.md_resolution metadata) "unknown")
  /\ State.md_bitrate metadata = Some (or_num (State.md_bitrate metadata) 0)
  /\ (exists e, State.emitted (appStateOf n') = (State.emitted (appStateOf n) ++ [e])%list
                /\ State.ev e = State.streamChange)
  /\ State.viewers (State.app (appStateOf n')) = State.viewers (State.app (appStateOf n))
  /\ (dirs_ok = true ->
      fst (postPublish dirs_ok i n) = Ok tt
      /\ Transcoder.ffmpegProcess (transcoder n') = Some (Transcoder.nextId (transcoder n))
      /\ Transcoder.effects (transcoder n')
         = (Transcoder.effects (transcoder n)
            ++ [Transcoder.CleanupHlsFiles;
                Transcoder.Spawn (Transcoder.nextId (transcoder n))])%list
      /\ refreshes n' = (refreshes n ++ [i])%list)
  /\ (dirs_ok = false ->
      fst (postPublish dirs_ok i n) = Throw Transcoder.OutputDirError
      /\ Transcoder.ffmpegProcess (transcoder n') = None
      /\ Transcoder.effects (transcoder n')
         = (Transcoder.effects (transcoder n) ++ [Transcoder.CleanupHlsFiles])%list
      /\ refreshes n' = refreshes n).
Proof.
  intros Hoff Hidle. cbv zeta. destruct n as [t ss rs]. unfold appStateOf in *.
  cbn [transcoder sessions refreshes] in *.
  TranscoderFacts.open_world t. subst.
  unfold postPublish, bind, gets, try_catch, appStateCall, transcoderCall, zoom,
    Transcoder.callAppState, update.
  cbn [transcoder sessions refreshes Transcoder.appState].
  rewrite (startStream_when_offline _ _ Hoff).
  destruct (extractMetadata_fields (ss !! i)) as (ip & res & b & -> & Hne & _).
  cbn [State.md_publisherIP State.md_resolution State.md_bitrate or_str or_num].
  destruct (String.eqb_spec res EmptyString) as [|_]; [congruence |].
  assert (Hb : (if (b =? 0)%Z then 0%Z else b) = b) by (destruct (Z.eqb_spec b 0); congruence).
  rewrite Hb.
  destruct dirs_ok; cbn; rewrite <- ?app_assoc;
    (split; [reflexivity |]); (split; [reflexivity |]); (split; [reflexivity |]);
    (split; [eexists; split; reflexivity |]); (split; [reflexivity |]);
    split; intros [=]; repeat split; reflexivity.
Qed.

Lemma postPublish_when_offline_witness :
  let n := booted (State.fresh 10 0) None ∅ in
  fst (postPublish false "p" n) = Throw Transcoder.OutputDirError
  /\ State.is_live (State.stream (State.app (appStateOf (snd (postPublish false "p" n)))))
     = true
  /\ Transcoder.ffmpegProcess (transcoder (snd (postPublish false "p" n))) = None.
Proof.
  cbv zeta.
  destruct (postPublish_when_offline (booted (State.fresh 10 0) None ∅) false "p"
                                     eq_refl eq_refl)
    as (Hlive & _ & _ & _ & _ & _ & Hfail).
  destruct (Hfail eq_refl) as (Hthrow & Hnone & _).
  split; [exact Hthrow |]. split; [by rewrite Hlive | exact Hnone].
Defined.

(** X18. A publisher that comes and goes: with the stream offline and the
    transcoder idle, postPublish, then donePublish, then the exit of the
    transcoder process leave the stream offline, the viewers as they
    were, and the transcoder idle with the output files cleaned up; the
    stream-change listeners have been told twice, live and then offline;
    one process was spawned and sent SIGTERM once; and the timeout of
    postPublish, when it fires afterwards, changes nothing. *)
Theorem publish_round_trip (n : Node) (i : string) (code : option Z) :
  State.stream (State.app (appStateOf n)) = State.Offline ->
  Transcoder.ffmpegProcess (transcoder n) = None ->
  Transcoder.isStoppingTranscoder (transcoder n) = false ->
  let pid := Transcoder.nextId (transcoder n) in
  let n1 := snd (postPublish true i n) in
  let n2 := snd (donePublish i n1) in
  let n3 := snd (transcoderCall (Transcoder.emitClose pid code) n2) in
  State.app (appStateOf n3) = State.app (appStateOf n)
  /\ (exists e1 e2,
        State.emitted (appStateOf n3) = (State.emitted (appStateOf n) ++ [e1; e2])%list
        /\ StateMore.told_live [e1] = true /\ StateMore.told_live [e1; e2] = false)
  /\ Transcoder.ffmpegProcess (transcoder n3) = None
  /\ Transcoder.isStoppingTranscoder (transcoder n3) = false
  /\ Transcoder.hlsFiles (transcoder n3) = []
  /\ Transcoder.effects (transcoder n3)
     = (Transcoder.effects (transcoder n)
        ++ [Transcoder.CleanupHlsFiles; Transcoder.Spawn pid;
            Transcoder.Kill pid Transcoder.SIGTERM; Transcoder.SetTimeout (S pid);
            Transcoder.ClearTimeout (S pid); Transcoder.CleanupHlsFiles])%list
  /\ refreshMetadata i n3 = (Ok tt, n3).
Proof.
  intros Hoff Hidle Hflag. cbv zeta. destruct n as [t ss rs]. unfold appStateOf in *.
  cbn [transcoder sessions refreshes] in *.
  TranscoderFacts.open_world t. subst. destruct app_ as [a clk log].
  cbn [State.app] in Hoff. destruct a as [cap st vs ls]. cbn [State.stream] in Hoff. subst st.
  unfold postPublish, donePublish, refreshMetadata, bind, gets, try_catch, appStateCall,
    transcoderCall, zoom, Transcoder.callAppState, update.
  cbn. rewrite lookup_alter_eq, lookup_insert_eq. cbn.
  rewrite <- !app_assoc. cbn.
  split; [reflexivity |].
  split; [eexists _, _; split; [reflexivity | split; reflexivity] |].
  repeat (split; [reflexivity |]).
  by destruct (ss !! i).
Qed.

Lemma publish_round_trip_witness :
  let n := booted (State.fresh 10 0) None ∅ in
  let n3 := snd (transcoderCall (Transcoder.emitClose 0 (Some 255%Z))
                   (snd (donePublish "p" (snd (postPublish true "p" n))))) in
  State.app (appStateOf n3) = State.app (appStateOf n)
  /\ Transcoder.ffmpegProcess (transcoder n3) = None.
Proof.
  cbv zeta.
  destruct (publish_round_trip (booted (State.fresh 10 0) None ∅) "p" (Some 255%Z)
                               eq_refl eq_refl eq_refl)
    as (Happ & _ & Hnone & _).
  split; [exact Happ | exact Hnone].
Defined.

(** X27. A transcoder that crashes under a publisher: with the stream
    offline, the transcoder idle and wired to the AppState, postPublish
    followed by an exit of the process with a code other than 0 leaves
    the stream offline again and the transcoder idle, the listeners told
    live and then offline, the files cleaned up and the crash callback
    called with the code. The donePublish that follows when the publisher
    goes away kills nothing and spawns nothing: it notifies the listeners
    of an offline stream a second time and cleans the files up once more;
    the metadata refresh then changes nothing. *)
Theorem crash_then_donePublish (n : Node) (i : string) (code : option Z) :
  State.stream (State.app (appStateOf n)) = State.Offline ->
  Transcoder.ffmpegProcess (transcoder n) = None ->
  Transcoder.isStoppingTranscoder (transcoder n) = false ->
  Transcoder.appStateRef (transcoder n) = Some Transcoder.TheAppState ->
  Transcoder.code_ne_0 code = true ->
  let pid := Transcoder.nextId (transcoder n) in
  let n1 := snd (postPublish true i n) in
  let n2 := snd (transcoderCall (Transcoder.emitClose pid code) n1) in
  let n3 := snd (donePublish i n2) in
  let reported :=
    match Transcoder.onCrashCallback (transcoder n) with
    | Some cb => [Transcoder.CrashCallback cb code]
    | None => []
    end in
  State.app (appStateOf n2) = State.app (appStateOf n)
  /\ Transcoder.ffmpegProcess (transcoder n2) = None
  /\ Transcoder.isStoppingTranscoder (transcoder n2) = false
  /\ Transcoder.effects (transcoder n2)
     = (Transcoder.effects (transcoder n)
        ++ [Transcoder.CleanupHlsFiles; Transcoder.Spawn pid; Transcoder.CleanupHlsFiles]
        ++ reported)%list
  /\ (exists e1 e2 e3,
        State.emitted (appStateOf n2) = (State.emitted (appStateOf n) ++ [e1; e2])%list
        /\ State.emitted (appStateOf n3) = (State.emitted (appStateOf n) ++ [e1; e2; e3])%list
        /\ StateMore.told_live [e1] = true
        /\ StateMore.told_live [e1; e2] = false
        /\ StateMore.told_live [e1; e2; e3] = false
        /\ State.ev e3 = State.streamChange)
  /\ fst (donePublish i n2) = Ok tt
  /\ State.app (appStateOf n3) = State.app (appStateOf n)
  /\ Transcoder.ffmpegProcess (transcoder n3) = None
  /\ Transcoder.isStoppingTranscoder (transcoder n3) = false
  /\ Transcoder.effects (transcoder n3)
     = (Transcoder.effects (transcoder n2) ++ [Transcoder.CleanupHlsFiles])%list
  /\ refreshMetadata i n3 = (Ok tt, n3).
Proof.
  intros Hoff Hidle Hflag Href Hcode. cbv zeta. destruct n as [t ss rs].
  unfold appStateOf in *. cbn [transcoder sessions refreshes] in *.
  TranscoderFacts.open_world t. subst. destruct app_ as [a clk log].
  cbn [State.app] in Hoff. destruct a as [cap st vs ls]. cbn [State.stream] in Hoff. subst st.
  unfold postPublish, donePublish, refreshMetadata, bind, gets, try_catch, appStateCall,
    transcoderCall, zoom, Transcoder.callAppState, update.
  cbn. rewrite lookup_insert_eq. cbn. unfold bind.
  rewrite TranscoderFacts.onClose_crash; [| reflexivity | exact Hcode]. cbn.
  destruct cb_ as [cb |]; cbn; rewrite <- ?app_assoc; cbn;
    (split; [reflexivity |]); (split; [reflexivity |]); (split; [reflexivity |]);
    (split; [reflexivity |]);
    (split; [eexists _, _, _; repeat split; reflexivity |]);
    repeat (split; [reflexivity |]); by destruct (ss !! i).
Qed.

Lemma crash_then_donePublish_witness :
  let n := booted (State.fresh 10 0) (Some 4) ∅ in
  let n2 := snd (transcoderCall (Transcoder.emitClose 0 (Some 1%Z))
                   (snd (postPublish true "p" n))) in
  State.app (appStateOf n2) = State.app (appStateOf n)
  /\ Transcoder.ffmpegProcess (transcoder n2) = None.
Proof.
  cbv zeta.
  destruct (crash_then_donePublish (booted (State.fresh 10 0) (Some 4) ∅) "p" (Some 1%Z)
                                   eq_refl eq_refl eq_refl eq_refl eq_refl)
    as (Happ & Hnone & _).
  split; [exact Happ | exact Hnone].
Defined.

End PublishFacts.

(* ===================================================================== *)
(** ** Properties of the choice of the encoder *)
(* ===================================================================== *)

Module EncoderFacts.
Import Js Encoder.
Local Open Scope js_scope.

Lemma try_encoders_first (available : string -> bool) (key : string) (l : list string)
      (env : Env) :
  (exists l1 r l2,
      l = (l1 ++ r :: l2)%list
      /\ Forall (fun e => available e = false) l1
      /\ available r = true
      /\ try_encoders available key l env
         = (Ok (Some r), mkEnv (Some (mkDetected key r)) (tested env ++ l1 ++ [r])))
  \/ (Forall (fun e => available e = false) l
      /\ try_encoders available key l env
         = (Ok None, mkEnv (detectedEncoder env) (tested env ++ l))).
Proof.
  revert env. induction l as [| e l IH]; intros env.
  - right. split; [constructor |]. destruct env. cbn. by rewrite app_nil_r.
  - cbn [try_encoders]. unfold bind, testEncoder, update, ret, set_detectedEncoder. cbn.
    destruct (available e) eqn:He.
    + left. exists [], e, l. cbn. repeat split; [constructor | exact He].
    + destruct (IH (mkEnv (detectedEncoder env) (tested env ++ [e])))
        as [(l1 & r & l2 & -> & Hl1 & Hr & Heq) | (Hall & Heq)].
      * left. exists (e :: l1), r, l2. cbn in Heq |- *.
        repeat split; [by constructor | exact Hr |].
        unfold bind, update, ret in Heq. rewrite Heq. by rewrite <- !app_assoc.
      * right. split; [by constructor |].
        cbn in Heq. unfold bind, update, ret in Heq. rewrite Heq.
        by rewrite <- !app_assoc.
Qed.

Lemma fallback_is_tried (platform : Platform) (c : string) :
  exists l, encodersToTry platform c = (l ++ [fallback c])%list.
Proof.
  unfold encodersToTry, fallback. destruct (String.eqb c "hevc"); eauto.
Qed.

Lemma detect_miss (platform : Platform) (available : string -> bool) (c : string)
      (env : Env) :
  cache_miss c env = true ->
  detectHardwareEncoder platform available c env
  = (let '(found, env') := try_encoders available c (encodersToTry platform c) env in
     match found with
     | Ok (Some e) => (Ok e, env')
     | Ok None => (Ok (fallback c),
                   mkEnv (Some (mkDetected c (fallback c))) (tested env'))
     | Throw e => (Throw e, env')
     end).
Proof.
  intros Hmiss. unfold detectHardwareEncoder, cache_miss in *.
  unfold bind at 1. unfold gets at 1.
  destruct (detectedEncoder env) as [d |].
  - destruct (String.eqb (codec d) c); [discriminate |].
    unfold bind. destruct (try_encoders _ _ _ _) as [[[e |] | []] env']; reflexivity.
  - unfold bind. destruct (try_encoders _ _ _ _) as [[[e |] | []] env']; reflexivity.
Qed.

(** X19. Without a cached answer for the codec, detectHardwareEncoder
    tests the encoders of the platform in their order of preference and
    stops at the first one testEncoder accepts, which it returns and
    caches for the codec; when none is accepted, the software encoder
    included, it has tested all of them and returns and caches the
    software encoder all the same. With a cached answer for the codec it
    returns the cached encoder, tests nothing and leaves the cache. *)
Theorem detectHardwareEncoder_first_available
        (platform : Platform) (available : string -> bool) (c : string) (env : Env) :
  let r := fst (detectHardwareEncoder platform available c env) in
  let env' := snd (detectHardwareEncoder platform available c env) in
  (cache_miss c env = true ->
   exists e, r = Ok e
     /\ detectedEncoder env' = Some (mkDetected c e)
     /\ ((exists l1 l2,
            encodersToTry platform c = (l1 ++ e :: l2)%list
            /\ Forall (fun e' => available e' = false) l1
            /\ available e = true
            /\ tested env' = (tested env ++ l1 ++ [e])%list)
         \/ (Forall (fun e' => available e' = false) (encodersToTry platform c)
             /\ e = fallback c
             /\ tested env' = (tested env ++ encodersToTry platform c)%list)))
  /\ (forall d, detectedEncoder env = Some d -> codec d = c ->
                r = Ok (encoder d) /\ env' = env).
Proof.
  cbv zeta. split.
  - intros Hmiss. rewrite (detect_miss _ _ _ _ Hmiss).
    destruct (try_encoders_first available c (encodersToTry platform c) env)
      as [(l1 & e & l2 & Hl & Hl1 & He & ->) | (Hall & ->)].
    + exists e. cbn. repeat split. left. by exists l1, l2.
    + exists (fallback c). cbn. repeat split. by right.
  - intros d Hd Hc. unfold detectHardwareEncoder, bind, gets, ret.
    rewrite Hd. subst c. by rewrite String.eqb_refl.
Qed.

Lemma detectHardwareEncoder_first_available_witness :
  let available := fun e => String.eqb e "h264_qsv" || String.eqb e "libx264" in
  let run := detectHardwareEncoder other_platform available "h264" loaded in
  fst run = Ok "h264_qsv"
  /\ tested (snd run) = ["h264_vaapi"; "h264_nvenc"; "h264_qsv"]
  /\ fst (detectHardwareEncoder other_platform (fun _ => false) "h264" (snd run))
     = Ok "h264_qsv".
Proof.
  cbv zeta.
  pose proof (detectHardwareEncoder_first_available other_platform
                (fun e => String.eqb e "h264_qsv" || String.eqb e "libx264")
                "h264" loaded) as [Hmiss _].
  destruct (Hmiss eq_refl) as (e & Hr & Hcache & _).
  pose proof (detectHardwareEncoder_first_available other_platform (fun _ => false) "h264"
                (snd (detectHardwareEncoder other_platform
                        (fun e => String.eqb e "h264_qsv" || String.eqb e "libx264")
                        "h264" loaded))) as [_ Hhit].
  destruct (Hhit (mkDetected "h264" "h264_qsv") eq_refl eq_refl) as [Hagain _].
  split; [reflexivity |]. split; [reflexivity | exact Hagain].
Defined.

Lemma tried_encoder_has_its_case (platform : Platform) (c e : string) (index : nat) :
  e ∈ encodersToTry platform c ->
  (exists rest, getEncoderArgs e index = c_v index :: e :: rest)
  /\ names_hevc (getEncoderArgs e index) = String.eqb c "hevc".
Proof.
  unfold encodersToTry. intros Hin.
  destruct (String.eqb c "hevc"), platform; cbn in Hin;
    repeat (apply elem_of_cons in Hin as [-> | Hin]; [split; [eexists |]; reflexivity |]);
    by apply elem_of_nil in Hin.
Qed.

(** X20. Whatever detectHardwareEncoder returns, getEncoderArgs has a case
    of its own for it: from the module as loaded and through any calls
    (the cache is coherent before and after every call), the arguments
    built for the returned encoder begin with the codec option of the
    stream index followed by that very encoder, and they name an HEVC
    encoder exactly when the codec asked for is 'hevc'. In particular an
    encoder other than libx264 never reaches the default case. *)
Theorem detected_encoder_has_its_arguments
        (platform : Platform) (available : string -> bool) (c : string)
        (index : nat) (env : Env) :
  coherent platform env ->
  exists e,
    fst (detectHardwareEncoder platform available c env) = Ok e
    /\ e ∈ encodersToTry platform c
    /\ (exists rest, getEncoderArgs e index = c_v index :: e :: rest)
    /\ names_hevc (getEncoderArgs e index) = String.eqb c "hevc"
    /\ coherent platform (snd (detectHardwareEncoder platform available c env)).
Proof.
  intros Hco.
  assert (Hgoal : exists e,
             fst (detectHardwareEncoder platform available c env) = Ok e
             /\ e ∈ encodersToTry platform c
             /\ coherent platform (snd (detectHardwareEncoder platform available c env))).
  { destruct (cache_miss c env) eqn:Hmiss.
    - rewrite (detect_miss _ _ _ _ Hmiss).
      destruct (try_encoders_first available c (encodersToTry platform c) env)
        as [(l1 & e & l2 & Hl & _ & _ & ->) | (_ & ->)].
      + exists e. cbn. unfold coherent. cbn. rewrite Hl.
        repeat split; apply elem_of_app; right; apply elem_of_cons; by left.
      + exists (fallback c). cbn. unfold coherent. cbn.
        destruct (fallback_is_tried platform c) as [l ->].
        repeat split; apply elem_of_app; right; apply elem_of_cons; by left.
    - unfold cache_miss in Hmiss. unfold coherent in Hco.
      unfold detectHardwareEncoder, bind, gets, ret.
      destruct (detectedEncoder env) as [d |] eqn:Hd; [| discriminate].
      destruct (String.eqb_spec (codec d) c) as [<- |]; [| discriminate].
      exists (encoder d). cbn. unfold coherent. rewrite Hd. by repeat split. }
  destruct Hgoal as (e & Hr & Hin & Hco').
  exists e. split; [exact Hr |]. split; [exact Hin |].
  destruct (tried_encoder_has_its_case platform c e index Hin) as [Hargs Hhevc].
  by repeat split.
Qed.

Lemma detected_encoder_has_its_arguments_witness :
  exists e,
    fst (detectHardwareEncoder win32 (fun e => String.eqb e "hevc_amf") "hevc" loaded) = Ok e
    /\ e ∈ encodersToTry win32 "hevc"
    /\ (exists rest, getEncoderArgs e 2 = c_v 2 :: e :: rest)
    /\ names_hevc (getEncoderArgs e 2) = String.eqb "hevc" "hevc"
    /\ coherent win32
         (snd (detectHardwareEncoder win32 (fun e => String.eqb e "hevc_amf") "hevc" loaded)).
Proof.
  apply (detected_encoder_has_its_arguments win32 (fun e => String.eqb e "hevc_amf")
                                            "hevc" 2 loaded).
  exact I.
Defined.

End EncoderFacts.

(* ===================================================================== *)
(** ** Properties of the configuration *)
(* ===================================================================== *)

Module ConfigFacts.
Import Js Config.

Lemma push_if_nil (test : bool) (msg : string) (errors : list string) :
  push_if test msg errors = [] <-> test = false /\ errors = [].
Proof.
  unfold push_if. destruct test.
  - split; [intros H; by apply app_eq_nil in H as [_ ?] | by intros [? _]].
  - split; [by intros -> | by intros [_ ->]].
Qed.

Lemma push_if_length (test : bool) (msg : string) (errors : list string) :
  length (push_if test msg errors) = (length errors + if test then 1 else 0)%nat.
Proof.
  unfold push_if. destruct test; [rewrite length_app; reflexivity | lia].
Qed.

Lemma codec_test (c : option string) :
  truthy_str c && negb (includes validCodecs (or_str c EmptyString)) = false
  <-> c = None \/ c = Some EmptyString \/ c = Some "h264" \/ c = Some "hevc".
Proof.
  destruct c as [s |]; cbn; [| by split; [left |]].
  destruct (String.eqb_spec s EmptyString) as [-> | Hne]; cbn.
  - split; [intros _; right; by left | reflexivity].
  - destruct (String.eqb_spec s "h264") as [-> | H1]; cbn.
    + split; [intros _; right; right; by left | reflexivity].
    + destruct (String.eqb_spec s "hevc") as [-> | H2]; cbn.
      * split; [intros _; right; right; by right | reflexivity].
      * split; [discriminate | intros [| [| [|]]]; congruence].
Qed.

Lemma errors_of_nil (config : Config) :
  errors_of config = [] <->
  (1 <= rtmp_port config <= 65535)%Z
  /\ (1 <= http_port config <= 65535)%Z
  /\ rtmp_port config <> http_port config
  /\ (codec config = None \/ codec config = Some EmptyString
      \/ codec config = Some "h264" \/ codec config = Some "hevc")
  /\ (exists q qs, qualities config = Some (q :: qs))
  /\ (1 <= segmentDuration config <= 10)%Z
  /\ (2 <= playlistSize config <= 10)%Z
  /\ (1 <= maxViewers config <= 100)%Z.
Proof.
  unfold errors_of. rewrite !push_if_nil, codec_test.
  rewrite !orb_false_iff, !Z.ltb_ge, Z.eqb_neq.
  assert (Hq : no_qualities (qualities config) = false
               <-> exists q qs, qualities config = Some (q :: qs)).
  { destruct (qualities config) as [[| q qs] |]; cbn.
    - split; [discriminate | by intros (? & ? & ?)].
    - split; [by eexists _, _ | reflexivity].
    - split; [discriminate | by intros (? & ? & ?)]. }
  rewrite Hq. intuition lia.
Qed.


(** X21. validateConfig returns exactly the configurations within the
    ranges (both ports between 1 and 65535 and different, the codec
    missing, empty, 'h264' or 'hevc', at least one quality, a segment
    duration between 1 and 10, a playlist size between 2 and 10 and a
    viewer limit between 1 and 100), and it returns them unchanged; for
    every other configuration it throws, reporting between one and eight
    violations. *)
Theorem validateConfig_accepts_the_ranges (config : Config) :
  (forall c, validateConfig config = Ok c ->
             c = config
             /\ (1 <= rtmp_port config <= 65535)%Z
             /\ (1 <= http_port config <= 65535)%Z
             /\ rtmp_port config <> http_port config
             /\ (codec config = None \/ codec config = Some EmptyString
                 \/ codec config = Some "h264" \/ codec config = Some "hevc")
             /\ (exists q qs, qualities config = Some (q :: qs))
             /\ (1 <= segmentDuration config <= 10)%Z
             /\ (2 <= playlistSize config <= 10)%Z
             /\ (1 <= maxViewers config <= 100)%Z)
  /\ ((1 <= rtmp_port config <= 65535)%Z ->
      (1 <= http_port config <= 65535)%Z ->
      rtmp_port config <> http_port config ->
      codec config = None \/ codec config = Some EmptyString
      \/ codec config = Some "h264" \/ codec config = Some "hevc" ->
      (exists q qs, qualities config = Some (q :: qs)) ->
      (1 <= segmentDuration config <= 10)%Z ->
      (2 <= playlistSize config <= 10)%Z ->
      (1 <= maxViewers config <= 100)%Z ->
      validateConfig config = Ok config)
  /\ (forall errors, validateConfig config = Throw errors ->
                     1 <= length errors <= 8).
Proof.
  unfold validateConfig. split; [| split].
  - intros c Hc. destruct (errors_of config) eqn:He; [| discriminate].
    injection Hc as <-. split; [reflexivity |]. by apply errors_of_nil.
  - intros. assert (He : errors_of config = []) by (apply errors_of_nil; tauto).
    by rewrite He.
  - intros errors Hthrow. destruct (errors_of config) as [| e l] eqn:He; [discriminate |].
    injection Hthrow as <-. rewrite <- He. split.
    + rewrite He. cbn. lia.
    + unfold errors_of. rewrite !push_if_length. cbn [length].
      repeat match goal with |- context [if ?b then 1%nat else 0%nat] => destruct b end; lia.
Qed.

Lemma validateConfig_accepts_the_ranges_witness :
  validateConfig DEFAULT_CONFIG = Ok DEFAULT_CONFIG.
Proof.
  apply (validateConfig_accepts_the_ranges DEFAULT_CONFIG); cbn; try lia.
  - by right; right; right.
  - by eexists _, _.
Defined.



End ConfigFacts.

Module HubFacts.
Import Js Hub.
Local Open Scope js_scope.
(** *** Calls of AppState and the broadcasts they cause *)

Lemma getStreamInfo_eq (a : State.Sys) :
  exists data, State.getStreamInfo a = (Ok data, a)
               /\ status_at (State.app a) (State.clock a) = Some data.
Proof.
  destruct a as [a t l]. unfold status_at, State.getStreamInfo, State.this, State.now, bind, gets, ret.
  cbn. destruct (State.stream a); cbn; eauto.
Qed.

Lemma status_at_same (a a' : State.AppState) (t : Z) :
  State.stream a' = State.stream a ->
  size (State.viewers a') = size (State.viewers a) ->
  status_at a' t = status_at a t.
Proof.
  intros Hs Hv. unfold status_at, State.getStreamInfo, State.this, State.now, bind, gets, ret.
  cbn. rewrite Hs, Hv. by destruct (State.stream a).
Qed.

Lemma broadcastStatus_eq (s : Server) :
  exists data,
    status_at (State.app (appState s)) (State.clock (appState s)) = Some data
    /\ broadcastStatus s
       = (Ok tt, mkServer (appState s) (send_if_open (StatusFrame data) <$> clients s)).
Proof.
  destruct s as [a cs]. destruct (getStreamInfo_eq a) as (data & Heq & Hat).
  exists data. split; [exact Hat |].
  unfold broadcastStatus, bind, zoomAppState, zoom, on_clients, update.
  cbn [appState clients]. rewrite Heq. reflexivity.
Qed.

Lemma callAppState_quiet {A} (m : State.M A) (s : Server) (r : Res State.Error A)
      (a' : State.Sys) :
  m (appState s) = (r, a') ->
  State.emitted a' = State.emitted (appState s) ->
  callAppState m s = (r, mkServer a' (clients s)).
Proof.
  intros Hm Hlog. destruct s as [a cs]. cbn in *.
  unfold callAppState, bind, gets, zoomAppState, zoom, ret. cbn [appState clients].
  rewrite Hm. cbn [appState clients]. rewrite Hlog, drop_all. destruct r; reflexivity.
Qed.

Lemma callAppState_loud {A} (m : State.M A) (s : Server) (r : A) (a' : State.Sys)
      (e : State.Emission) :
  m (appState s) = (Ok r, a') ->
  State.emitted a' = (State.emitted (appState s) ++ [e])%list ->
  State.receivers e = [streamChange_listener]
  \/ State.receivers e = [viewerChange_listener] ->
  exists data,
    status_at (State.app a') (State.clock a') = Some data
    /\ callAppState m s
       = (Ok r, mkServer a' (send_if_open (StatusFrame data) <$> clients s)).
Proof.
  intros Hm Hlog Hrec. destruct s as [a cs]. cbn in *.
  destruct (broadcastStatus_eq (mkServer a' cs)) as (data & Hat & Hb). cbn in Hat, Hb.
  exists data. split; [exact Hat |].
  unfold callAppState, bind, gets, zoomAppState, zoom, ret. cbn [appState clients].
  rewrite Hm. cbn [appState clients]. rewrite Hlog, drop_app_length.
  cbn [for_each]. unfold bind, ret.
  destruct Hrec as [-> | ->]; cbn [for_each]; unfold bind, ret, run_listener;
    cbn [Nat.eqb streamChange_listener viewerChange_listener orb]; rewrite Hb; reflexivity.
Qed.

(** *** The calls the server makes *)

Lemma addViewer_notifies_or_keeps (uuid : string) (ws : State.WsRef) (a : State.Sys) :
  notifies_or_keeps (State.addViewer uuid ws) a.
Proof.
  unfold notifies_or_keeps.
  destruct (Z.lt_ge_cases (Z.of_nat (size (State.viewers (State.app a))))
                          (State.maxViewers (State.app a))) as [Hroom | Hfull].
  - rewrite (StateFacts.addViewer_room a uuid ws Hroom). cbv zeta.
    eexists _, _. split; [reflexivity |]. split; [reflexivity |]. split; [reflexivity |].
    right. eexists _, _. split; [reflexivity |]. split; reflexivity.
  - rewrite (StateFacts.addViewer_full a uuid ws Hfull).
    eexists _, _. split; [reflexivity |]. split; [reflexivity |]. split; [reflexivity |].
    left. by repeat split.
Qed.

Lemma removeViewer_notifies_or_keeps (i : string) (a : State.Sys) :
  notifies_or_keeps (State.removeViewer i) a.
Proof.
  unfold notifies_or_keeps, State.removeViewer, State.this, bind, gets. cbn.
  destruct (State.viewers (State.app a) !! i).
  - eexists _, _. split; [reflexivity |]. split; [reflexivity |]. split; [reflexivity |].
    right. eexists _, _. split; [reflexivity |]. split; reflexivity.
  - eexists _, _. split; [reflexivity |]. split; [reflexivity |]. split; [reflexivity |].
    left. by repeat split.
Qed.

Lemma updateViewerPing_notifies_or_keeps (i : string) (a : State.Sys) :
  notifies_or_keeps (State.updateViewerPing i) a.
Proof.
  unfold notifies_or_keeps, State.updateViewerPing, State.this, bind, gets. cbn.
  destruct (State.viewers (State.app a) !! i).
  - eexists _, _. split; [reflexivity |]. split; [reflexivity |]. split; [reflexivity |].
    left. cbn. repeat split. apply StateInvariant.size_alter.
  - eexists _, _. split; [reflexivity |]. split; [reflexivity |]. split; [reflexivity |].
    left. by repeat split.
Qed.

Lemma startStream_notifies_or_keeps (metadata : State.Metadata) (a : State.Sys) :
  notifies_or_keeps (State.startStream metadata) a.
Proof.
  unfold notifies_or_keeps.
  destruct (State.stream (State.app a)) as [| d] eqn:Hs.
  - rewrite (PublishFacts.startStream_when_offline a metadata Hs).
    eexists _, _. split; [reflexivity |]. split; [reflexivity |]. split; [reflexivity |].
    right. eexists _, _. split; [reflexivity |]. split; reflexivity.
  - rewrite (PublishFacts.startStream_when_live a metadata); [| by rewrite Hs].
    eexists _, _. split; [reflexivity |]. split; [reflexivity |]. split; [reflexivity |].
    left. by repeat split.
Qed.

Lemma stopStream_notifies_or_keeps (a : State.Sys) :
  notifies_or_keeps State.stopStream a.
Proof.
  unfold notifies_or_keeps. rewrite StreamFacts.stopStream_eq.
  eexists _, _. split; [reflexivity |]. split; [reflexivity |]. split; [reflexivity |].
  right. eexists _, _. split; [reflexivity |]. split; reflexivity.
Qed.

Lemma updateStreamMetadata_notifies_or_keeps (metadata : State.Metadata) (a : State.Sys) :
  notifies_or_keeps (State.updateStreamMetadata metadata) a.
Proof.
  unfold notifies_or_keeps.
  destruct (State.stream (State.app a)) as [| d] eqn:Hs.
  - rewrite (MetadataFacts.updateStreamMetadata_offline a metadata Hs).
    eexists _, _. split; [reflexivity |]. split; [reflexivity |]. split; [reflexivity |].
    left. by repeat split.
  - rewrite (MetadataFacts.updateStreamMetadata_live a metadata d Hs). cbv zeta.
    destruct (State.writes_resolution metadata || State.writes_bitrate metadata).
    + eexists _, _. split; [reflexivity |]. split; [reflexivity |]. split; [reflexivity |].
      right. eexists _, _. split; [reflexivity |]. split; reflexivity.
    + eexists _, _. split; [reflexivity |]. split; [reflexivity |]. split; [reflexivity |].
      left. by repeat split.
Qed.

(** What a call of AppState does to the server: nothing but the change
    of the AppState, or that and one broadcast of the new status. *)
Lemma callAppState_cases {A} (m : State.M A) (s : Server) :
  listening (appState s) ->
  notifies_or_keeps m (appState s) ->
  exists r a',
    m (appState s) = (r, a')
    /\ listening a'
    /\ State.clock a' = State.clock (appState s)
    /\ ((callAppState m s = (r, mkServer a' (clients s))
         /\ State.stream (State.app a') = State.stream (State.app (appState s))
         /\ size (State.viewers (State.app a'))
            = size (State.viewers (State.app (appState s))))
        \/ (exists data,
              status_at (State.app a') (State.clock a') = Some data
              /\ callAppState m s
                 = (r, mkServer a' (send_if_open (StatusFrame data) <$> clients s)))).
Proof.
  intros [Hl1 Hl2] (r & a' & Hm & Hlis & Hclock & Hcases).
  exists r, a'. split; [exact Hm |].
  split; [unfold listening; by rewrite Hlis |]. split; [exact Hclock |].
  destruct Hcases as [(Hlog & Hs & Hv) | (v & e & -> & Hlog & Hrec)].
  - left. split; [by apply callAppState_quiet | by split].
  - right.
    destruct (callAppState_loud m s v a' e Hm Hlog) as (data & Hat & Hcall).
    { rewrite Hrec. destruct (State.ev e); cbn; [left | right]; assumption. }
    by exists data.
Qed.

Lemma broadcast_all_current (a' : State.Sys) (data : State.StreamInfo)
      (cs : gmap nat Client) :
  status_at (State.app a') (State.clock a') = Some data ->
  all_current (mkServer a' (send_if_open (StatusFrame data) <$> cs)).
Proof.
  intros Hat ws c'. cbn. rewrite lookup_fmap.
  destruct (cs !! ws) as [c |]; [| discriminate]. cbn. intros [= <-] Hopen.
  unfold send_if_open in *. destruct (is_open c) eqn:Hc; [| congruence].
  exists (sent c), data, (State.clock a'). cbn. split; [reflexivity |]. split; [exact Hat | lia].
Qed.

Lemma all_current_up_to_date (s : Server) :
  listening (appState s) -> all_current s -> up_to_date s.
Proof. intros Hl Hall. split; [exact Hl |]. intros ws c Hc Hopen _. by apply (Hall ws). Qed.

Lemma calmer_up_to_date (s : Server) (a' : State.Sys) (cs' : gmap nat Client) :
  up_to_date s ->
  listening a' ->
  State.stream (State.app a') = State.stream (State.app (appState s)) ->
  size (State.viewers (State.app a')) = size (State.viewers (State.app (appState s))) ->
  (State.clock (appState s) <= State.clock a')%Z ->
  calmer (clients s) cs' ->
  up_to_date (mkServer a' cs').
Proof.
  intros [_ Hinv] Hl Hs Hv Hclock Hcalm. split; [exact Hl |].
  intros ws c' Hc' Hopen Hsess. cbn in *.
  destruct (Hcalm ws c' Hc' Hopen Hsess) as (c & Hc & Hopen0 & Hsess0 & Hsent).
  destruct (Hinv ws c Hc Hopen0 Hsess0) as (rest & data & t & Hlast & Hat & Ht).
  exists rest, data, t. rewrite Hsent. split; [exact Hlast |].
  split; [by rewrite (status_at_same _ _ t Hs Hv) | lia].
Qed.

Lemma calmer_same_state (s : Server) (cs' : gmap nat Client) :
  up_to_date s -> calmer (clients s) cs' -> up_to_date (mkServer (appState s) cs').
Proof.
  intros Hinv Hcalm.
  apply (calmer_up_to_date s); try reflexivity; [exact Hinv | apply Hinv | exact Hcalm].
Qed.

Lemma calmer_refl (cs : gmap nat Client) : calmer cs cs.
Proof. intros ws c Hc Hopen Hsess. by exists c. Qed.

(** A call of AppState keeps the connections up to date. *)
Lemma callAppState_up_to_date {A} (m : State.M A) (s : Server) :
  up_to_date s ->
  notifies_or_keeps m (appState s) ->
  up_to_date (snd (callAppState m s)).
Proof.
  intros Hinv Hm.
  destruct (callAppState_cases m s (proj1 Hinv) Hm)
    as (r & a' & _ & Hl & Hclock & [(-> & Hs & Hv) | (data & Hat & ->)]); cbn [snd].
  - apply (calmer_up_to_date s); try assumption; [lia | apply calmer_refl].
  - apply all_current_up_to_date; [exact Hl | by apply broadcast_all_current].
Qed.

(** *** Messages to one connection *)

Lemma sendError_eq (ws : nat) (code message : string) (s : Server) :
  sendError ws code message s
  = (Ok tt, mkServer (appState s)
                     (alter (send_if_open (ErrorFrame code message)) ws (clients s))).
Proof.
  unfold sendError, bind, gets, on_client, update, ret.
  destruct (clients s !! ws) as [c |] eqn:Hc.
  - destruct (is_open c) eqn:Hopen; cbn [negb].
    + f_equal. f_equal. apply alter_ext. intros c0 Hc0.
      assert (c0 = c) as -> by congruence. unfold send_if_open. by rewrite Hopen.
    + f_equal. destruct s as [a cs]. cbn in *. f_equal. symmetry. apply alter_id.
      intros c0 Hc0. assert (c0 = c) as -> by congruence.
      unfold send_if_open. by rewrite Hopen.
  - f_equal. destruct s as [a cs]. cbn in *. f_equal. symmetry. apply alter_id.
    intros c0 Hc0. congruence.
Qed.

Lemma sendStatus_eq (ws : nat) (s : Server) :
  exists data,
    status_at (State.app (appState s)) (State.clock (appState s)) = Some data
    /\ sendStatus ws s
       = (Ok tt, mkServer (appState s)
                          (alter (send_if_open (StatusFrame data)) ws (clients s))).
Proof.
  destruct (getStreamInfo_eq (appState s)) as (data & Heq & Hat).
  exists data. split; [exact Hat |].
  unfold sendStatus, bind, gets, on_client, update, ret, zoomAppState, zoom.
  destruct (clients s !! ws) as [c |] eqn:Hc.
  - destruct (is_open c) eqn:Hopen; cbn [negb].
    + rewrite Heq. destruct s as [a cs]. cbn in *. f_equal. f_equal.
      apply alter_ext. intros c0 Hc0.
      assert (c0 = c) as -> by congruence. unfold send_if_open. by rewrite Hopen.
    + f_equal. destruct s as [a cs]. cbn in *. f_equal. symmetry. apply alter_id.
      intros c0 Hc0. assert (c0 = c) as -> by congruence.
      unfold send_if_open. by rewrite Hopen.
  - f_equal. destruct s as [a cs]. cbn in *. f_equal. symmetry. apply alter_id.
    intros c0 Hc0. congruence.
Qed.

Lemma handleConnection_full_eq (uuid : string) (ws : nat) (s : Server) :
  (State.maxViewers (State.app (appState s))
   <= Z.of_nat (size (State.viewers (State.app (appState s)))))%Z ->
  handleConnection uuid ws s
  = (Ok tt,
     mkServer (appState s)
       (alter (fun c => close 1008 "Room full"
                 (send_if_open (ErrorFrame "ROOM_FULL" "Room full - maximum viewers reached")
                               c))
              ws (clients s))).
Proof.
  intros Hfull. unfold handleConnection. unfold bind at 1.
  rewrite (callAppState_quiet _ s (Ok None) (appState s)
             (StateFacts.addViewer_full (appState s) uuid ws Hfull) eq_refl).
  destruct s as [a cs]. cbn [appState clients].
  unfold bind. rewrite sendError_eq. cbn [appState clients].
  unfold on_client, update. cbn [appState clients].
  by rewrite alter_alter_eq.
Qed.

Lemma handleConnection_accepted_eq (uuid : string) (ws : nat) (s : Server) :
  (Z.of_nat (size (State.viewers (State.app (appState s))))
   < State.maxViewers (State.app (appState s)))%Z ->
  listening (appState s) ->
  exists data,
    handleConnection uuid ws s
    = (Ok tt,
       mkServer (snd (State.addViewer uuid ws (appState s)))
                (alter (fun c => register_handlers uuid (send_if_open (StatusFrame data) c))
                       ws (send_if_open (StatusFrame data) <$> clients s)))
    /\ status_at (State.app (snd (State.addViewer uuid ws (appState s))))
                 (State.clock (snd (State.addViewer uuid ws (appState s)))) = Some data
    /\ listening (snd (State.addViewer uuid ws (appState s))).
Proof.
  intros Hroom Hlis.
  pose proof (StateFacts.addViewer_room (appState s) uuid ws Hroom) as Hadd.
  cbv zeta in Hadd.
  destruct (callAppState_loud _ s _ _ _ Hadd eq_refl) as (data & Hat & Hcall).
  { right. cbn. apply Hlis. }
  rewrite Hadd. cbn [snd].
  set (a' := State.mkSys _ _ _) in *.
  destruct (sendStatus_eq ws (mkServer a' (send_if_open (StatusFrame data) <$> clients s)))
    as (data' & Hat' & Hsend).
  cbn [appState clients] in Hat', Hsend.
  assert (data' = data) as -> by congruence.
  exists data. split; [| split; [exact Hat | exact Hlis]].
  unfold handleConnection. unfold bind at 1. rewrite Hcall.
  unfold bind. rewrite Hsend. unfold on_client, update. cbn [appState clients State.id].
  f_equal. f_equal. by rewrite alter_alter_eq.
Qed.



(** X24. handleConnection with room left, the listeners of
    createWebSocketServer being registered: addViewer creates the session
    and its notification makes the server broadcast, so that every open
    connection, the new one included, is sent the status with the new
    viewer count; the new connection is then sent the same status a
    second time by sendStatus, its alive flag is set and its handlers
    hold the id of the session. A connection that was just opened ends up
    as the accepted channel of the heartbeat, with two status messages. *)
Theorem handleConnection_accepts_and_tells_everyone (uuid : string) (ws : nat) (s : Server) :
  (Z.of_nat (size (State.viewers (State.app (appState s))))
   < State.maxViewers (State.app (appState s)))%Z ->
  listening (appState s) ->
  let session := State.mkSession uuid (State.clock (appState s)) (State.clock (appState s))
                                 "1080p" ws in
  let a' := snd (State.addViewer uuid ws (appState s)) in
  exists data,
    handleConnection uuid ws s
    = (Ok tt,
       mkServer a' (alter (fun c => register_handlers uuid (send_if_open (StatusFrame data) c))
                          ws (send_if_open (StatusFrame data) <$> clients s)))
    /\ State.viewers (State.app a')
       = <[uuid := session]> (State.viewers (State.app (appState s)))
    /\ State.stream (State.app a') = State.stream (State.app (appState s))
    /\ status_at (State.app a') (State.clock a') = Some data
    /\ State.viewerCount data = size (State.viewers (State.app a'))
    /\ State.info_live data = State.is_live (State.stream (State.app (appState s)))
    /\ (clients s !! ws = Some new_client ->
        clients (snd (handleConnection uuid ws s)) !! ws
        = Some (mkClient (Websocket.accepted_viewer uuid)
                         [StatusFrame data; StatusFrame data] [])).
Proof.
  intros Hroom Hlis. cbv zeta.
  pose proof (StateFacts.addViewer_room (appState s) uuid ws Hroom) as Hadd.
  cbv zeta in Hadd.
  destruct (callAppState_loud _ s _ _ _ Hadd eq_refl) as (data & Hat & Hcall).
  { right. cbn. apply Hlis. }
  rewrite Hadd. cbn [snd].
  set (a' := State.mkSys _ _ _) in *.
  destruct (sendStatus_eq ws (mkServer a' (send_if_open (StatusFrame data) <$> clients s)))
    as (data' & Hat' & Hsend).
  cbn [appState clients] in Hat', Hsend.
  assert (data' = data) as -> by congruence.
  assert (Heq : handleConnection uuid ws s
                = (Ok tt,
                   mkServer a' (alter (fun c => register_handlers uuid
                                                  (send_if_open (StatusFrame data) c))
                                      ws (send_if_open (StatusFrame data) <$> clients s)))).
  { unfold handleConnection. unfold bind at 1. rewrite Hcall.
    unfold bind. rewrite Hsend. unfold on_client, update. cbn [appState clients State.id].
    f_equal. f_equal. by rewrite alter_alter_eq. }
  exists data. split; [exact Heq |].
  split; [reflexivity |]. split; [reflexivity |]. split; [exact Hat |].
  assert (Hdata : State.viewerCount data = size (State.viewers (State.app a'))
                  /\ State.info_live data
                     = State.is_live (State.stream (State.app (appState s)))).
  { clear -Hat. subst a'. unfold status_at, State.getStreamInfo, State.this, State.now,
      bind, gets, ret in Hat. cbn in Hat.
    destruct (State.stream (State.app (appState s))); cbn in Hat;
      injection Hat as <-; by split. }
  split; [apply Hdata |]. split; [apply Hdata |].
  intros Hnew. rewrite Heq. cbn [snd clients].
  rewrite lookup_alter_eq, lookup_fmap, Hnew. reflexivity.
Qed.

Lemma handleConnection_accepts_and_tells_everyone_witness :
  exists data,
    State.viewerCount data = 1
    /\ clients (snd (handleConnection "u" 5
                       (snd (on_clients (insert 5 new_client) (created 10 0))))) !! 5
       = Some (mkClient (Websocket.accepted_viewer "u")
                        [StatusFrame data; StatusFrame data] []).
Proof.
  destruct (handleConnection_accepts_and_tells_everyone "u" 5
              (snd (on_clients (insert 5 new_client) (created 10 0))))
    as (data & _ & _ & _ & _ & Hcount & _ & Hnew).
  - vm_compute. reflexivity.
  - split; reflexivity.
  - exists data. split; [exact Hcount | exact (Hnew eq_refl)].
Defined.

(** *** Every event keeps the connections up to date *)

Lemma handleConnection_up_to_date (uuid : string) (ws : nat) (s : Server) :
  up_to_date s -> up_to_date (snd (handleConnection uuid ws s)).
Proof.
  intros Hinv.
  destruct (Z.lt_ge_cases (Z.of_nat (size (State.viewers (State.app (appState s)))))
                          (State.maxViewers (State.app (appState s)))) as [Hroom | Hfull].
  - destruct (handleConnection_accepted_eq uuid ws s Hroom (proj1 Hinv))
      as (data & Heq & Hat & Hlis).
    rewrite Heq. cbn [snd].
    apply all_current_up_to_date; [exact Hlis |].
    intros ws' c'. cbn [clients appState].
    destruct (decide (ws' = ws)) as [-> | Hne].
    + rewrite lookup_alter_eq, lookup_fmap.
      destruct (clients s !! ws) as [c |]; [| discriminate]. cbn.
      intros [= <-] Hopen.
      destruct c as [[[] al se te pi] out cl]; cbn in Hopen; try discriminate.
      exists (out ++ [StatusFrame data])%list, data,
        (State.clock (snd (State.addViewer uuid ws (appState s)))).
      split; [reflexivity |]. split; [exact Hat | apply Z.le_refl].
    + rewrite lookup_alter_ne by done.
      apply (broadcast_all_current _ data (clients s) Hat ws' c').
  - pose proof (handleConnection_full_eq uuid ws s Hfull) as Heq.
    rewrite Heq. cbn [snd].
    apply (calmer_same_state s); [exact Hinv |].
    intros ws' c'. destruct (decide (ws' = ws)) as [-> | Hne].
    + rewrite lookup_alter_eq. destruct (clients s !! ws) as [c |]; [| discriminate].
      cbn. intros [= <-] Hopen. exfalso.
      destruct c as [[[] ? ? ? ?] ? ?]; discriminate.
    + rewrite lookup_alter_ne by done. intros Hc' Hopen Hsess. by exists c'.
Qed.

Lemma heartbeat_client_open (w : Websocket.WebSocket) :
  Websocket.readyState (Websocket.heartbeat_client w) = Websocket.OPEN ->
  Websocket.readyState w = Websocket.OPEN
  /\ Websocket.session (Websocket.heartbeat_client w) = Websocket.session w.
Proof. destruct w as [[] [[] |] ? ? ?]; cbn; intros; by split. Qed.

Lemma serve_up_to_date (s : Server) (e : Event) :
  up_to_date s -> up_to_date (serve s e).
Proof.
  intros Hinv. unfold serve. destruct e as [uuid ws | ws | ws | | md | | md | dt];
    cbn [on_event].
  - (* a connection is opened *)
    unfold bind at 1. unfold gets at 1.
    destruct (clients s !! ws) as [c |] eqn:Hc; [exact Hinv |].
    unfold bind. unfold on_clients at 1. unfold update.
    apply handleConnection_up_to_date.
    apply (calmer_same_state s); [exact Hinv |].
    intros ws' c'. cbn [clients]. destruct (decide (ws' = ws)) as [-> | Hne].
    + rewrite lookup_insert_eq. intros [= <-] _ [i Hi]. discriminate.
    + rewrite lookup_insert_ne by done. intros Hc' Hopen Hsess. by exists c'.
  - (* a connection is closed *)
    unfold bind at 1. unfold gets at 1.
    destruct (clients s !! ws) as [c |] eqn:Hc; [| exact Hinv].
    unfold bind. unfold on_clients at 1. unfold update.
    assert (Hdel : up_to_date (mkServer (appState s) (delete ws (clients s)))).
    { apply (calmer_same_state s); [exact Hinv |].
      intros ws' c' Hc' Hopen Hsess. apply lookup_delete_Some in Hc' as [_ Hc'].
      by exists c'. }
    destruct (Websocket.session (socket c)) as [i |]; [| exact Hdel].
    apply callAppState_up_to_date; [exact Hdel | apply removeViewer_notifies_or_keeps].
  - (* a pong arrives *)
    unfold bind at 1. unfold gets at 1.
    destruct (clients s !! ws) as [c |] eqn:Hc; [| exact Hinv].
    destruct (Websocket.session (socket c)) as [i |]; [| exact Hinv].
    unfold onPong, bind. unfold on_client at 1. unfold update.
    apply callAppState_up_to_date; [| apply updateViewerPing_notifies_or_keeps].
    apply (calmer_same_state s); [exact Hinv |].
    intros ws' c'. cbn [clients]. destruct (decide (ws' = ws)) as [-> | Hne].
    + rewrite lookup_alter_eq, Hc. cbn. intros [= <-] Hopen Hsess. by exists c.
    + rewrite lookup_alter_ne by done. intros Hc' Hopen Hsess. by exists c'.
  - (* the heartbeat *)
    unfold heartbeat, on_clients, update. cbn [snd].
    apply (calmer_same_state s); [exact Hinv |].
    intros ws' c'. rewrite lookup_fmap.
    destruct (clients s !! ws') as [c |]; [| discriminate]. cbn.
    intros [= <-] Hopen Hsess. unfold is_open in Hopen. cbn in Hopen, Hsess.
    destruct (Websocket.readyState (Websocket.heartbeat_client (socket c))) eqn:Hr;
      try discriminate.
    apply heartbeat_client_open in Hr as [Hr Hs]. rewrite Hs in Hsess.
    exists c. unfold is_open. rewrite Hr. by repeat split.
  - (* a publisher starts *)
    unfold try_startStream.
    pose proof (callAppState_up_to_date (State.startStream md) s Hinv
                  (startStream_notifies_or_keeps md (appState s))) as Hcall.
    destruct (callAppState (State.startStream md) s) as [[] s']; exact Hcall.
  - (* the publisher stops *)
    apply callAppState_up_to_date; [exact Hinv | apply stopStream_notifies_or_keeps].
  - (* the metadata refresh *)
    apply callAppState_up_to_date; [exact Hinv | apply updateStreamMetadata_notifies_or_keeps].
  - (* time passes *)
    unfold update. cbn [snd State.step].
    apply (calmer_up_to_date s); try reflexivity;
      [exact Hinv | apply Hinv | cbn; lia | apply calmer_refl].
Qed.

Lemma created_eq (config_maxViewers t0 : Z) :
  created config_maxViewers t0
  = mkServer (State.mkSys (State.mkAppState config_maxViewers State.Offline ∅
                             (State.mkListeners [streamChange_listener]
                                                [viewerChange_listener]))
                          t0 [])
             ∅.
Proof. reflexivity. Qed.

(** X25. From createWebSocketServer on, whatever happens (connections
    are opened and closed, pongs arrive, the heartbeat fires, a publisher
    starts, stops or has its metadata refreshed, time passes): the two
    listeners of the server stay the registered ones, and the latest
    message of every open connection that handleConnection accepted is a
    status message that shows the stream and the viewer count as they are
    now; only its duration dates from the moment it was sent. *)
Theorem open_viewers_are_up_to_date (config_maxViewers t0 : Z) (events : list Event) :
  let s := serves events (created config_maxViewers t0) in
  listening (appState s)
  /\ forall ws c, clients s !! ws = Some c ->
                  is_open c = true ->
                  is_Some (Websocket.session (socket c)) ->
                  exists rest data t,
                    sent c = (rest ++ [StatusFrame data])%list
                    /\ status_at (State.app (appState s)) t = Some data
                    /\ (t <= State.clock (appState s))%Z
                    /\ State.info_live data
                       = State.is_live (State.stream (State.app (appState s)))
                    /\ State.viewerCount data = size (State.viewers (State.app (appState s))).
Proof.
  cbv zeta.
  assert (Hinv : up_to_date (serves events (created config_maxViewers t0))).
  { unfold serves.
    assert (H0 : up_to_date (created config_maxViewers t0)).
    { rewrite created_eq. split; [split; reflexivity |]. intros ws c Hc. cbn in Hc.
      by rewrite lookup_empty in Hc. }
    revert H0. generalize (created config_maxViewers t0).
    induction events as [| e events IH]; intros s Hs; cbn [fold_left]; [exact Hs |].
    apply IH. by apply serve_up_to_date. }
  destruct Hinv as [Hlis Hall]. split; [exact Hlis |].
  intros ws c Hc Hopen Hsess.
  destruct (Hall ws c Hc Hopen Hsess) as (rest & data & t & Hsent & Hat & Ht).
  exists rest, data, t. repeat (split; [assumption |]).
  clear -Hat. unfold status_at, State.getStreamInfo, State.this, State.now,
    bind, gets, ret in Hat. cbn in Hat.
  destruct (State.stream (State.app (appState _))); cbn in Hat; injection Hat as <-; by split.
Qed.

Lemma open_viewers_are_up_to_date_witness :
  let s := serves [Connects "u" 5; Publishes (State.mkMetadata None None None)]
                  (created 10 0) in
  exists c rest data,
    clients s !! 5 = Some c
    /\ sent c = (rest ++ [StatusFrame data])%list
    /\ State.info_live data = true
    /\ State.viewerCount data = 1.
Proof.
  cbv zeta.
  destruct (open_viewers_are_up_to_date
              10 0 [Connects "u" 5; Publishes (State.mkMetadata None None None)])
    as [_ Hall].
  assert (Hc : exists c,
             clients (serves [Connects "u" 5; Publishes (State.mkMetadata None None None)]
                             (created 10 0)) !! 5 = Some c
             /\ is_open c = true
             /\ is_Some (Websocket.session (socket c))).
  { eexists. split; [vm_compute; reflexivity |]. split; [reflexivity | by eexists]. }
  destruct Hc as (c & Hc & Hopen & Hsess).
  destruct (Hall 5 c Hc Hopen Hsess) as (rest & data & t & Hsent & _ & _ & Hlive & Hcount).
  exists c, rest, data. split; [exact Hc |]. split; [exact Hsent |].
  split; [rewrite Hlive | rewrite Hcount]; vm_compute; reflexivity.
Defined.

End HubFacts.

(* ===================================================================== *)
(** ** Properties of the validation of the segments *)
(* ===================================================================== *)

Module SegmentsFacts.
Import Segments.

Lemma sum_by_insert_fresh (count : Counts -> nat) (m : gmap string Counts)
      (k : string) (c : Counts) :
  m !! k = None -> sum_by count (<[k := c]> m) = count c + sum_by count m.
Proof.
  intros Hk. unfold sum_by. rewrite map_fold_insert_L; [reflexivity | | exact Hk].
  intros. lia.
Qed.

Lemma sum_by_insert (count : Counts -> nat) (m : gmap string Counts)
      (k : string) (c : Counts) :
  sum_by count (<[k := c]> m) = count c + sum_by count (delete k m).
Proof.
  rewrite <- insert_delete_eq. apply sum_by_insert_fresh. apply lookup_delete_eq.
Qed.

Lemma sum_by_delete_le (count : Counts -> nat) (m : gmap string Counts) (k : string) :
  sum_by count (delete k m) <= sum_by count m.
Proof.
  destruct (m !! k) as [c |] eqn:Hk.
  - unfold sum_by at 2. rewrite (map_fold_delete_L _ _ k c m); [| intros; lia | exact Hk].
    fold (sum_by count (delete k m)). lia.
  - by rewrite delete_id.
Qed.

Lemma alter_is_insert (f : Counts -> Counts) (m : gmap string Counts)
      (k : string) (c : Counts) :
  alter f k (<[k := c]> m) = <[k := f c]> m.
Proof. by rewrite alter_insert_eq. Qed.

(** The loop over the files of one directory. *)
Lemma check_files (name : string) (files : list File) (v i : nat)
      (m : gmap string Counts) (c : Counts) :
  fold_left (check_file name) files (mkResults v i (<[name := c]> m))
  = mkResults (v + good_segments files) (i + bad_segments files)
              (<[name := mkCounts (q_valid c + good_segments files)
                                  (q_invalid c + bad_segments files)]> m).
Proof.
  revert v i c. induction files as [| f files IH]; intros v i c.
  - cbn. destruct c. unfold good_segments, bad_segments. cbn.
    by rewrite !Nat.add_0_r.
  - cbn [fold_left]. unfold check_file at 2. unfold good_segments, bad_segments.
    cbn [List.filter valid invalid byQuality].
    destruct (is_segment f); [destruct (validateSegment f) |]; cbn [andb negb length].
    + rewrite alter_is_insert, IH. unfold good_segments, bad_segments, incr_valid. cbn.
      f_equal; [lia | f_equal; f_equal; lia].
    + rewrite alter_is_insert, IH. unfold good_segments, bad_segments, incr_invalid. cbn.
      f_equal; [lia | f_equal; f_equal; lia].
    + rewrite IH. reflexivity.
Qed.

Lemma for_qualities_le (fs : string -> Dir) (qualities : list Config.Quality)
      (r : Results) :
  sum_by q_valid (byQuality r) <= valid r ->
  sum_by q_invalid (byQuality r) <= invalid r ->
  sum_by q_valid (byQuality (for_qualities fs qualities r))
  <= valid (for_qualities fs qualities r)
  /\ sum_by q_invalid (byQuality (for_qualities fs qualities r))
     <= invalid (for_qualities fs qualities r).
Proof.
  revert r. induction qualities as [| q rest IH]; intros [v i m] Hv Hi; cbn in Hv, Hi.
  - by split.
  - cbn [for_qualities valid invalid byQuality].
    pose proof (sum_by_delete_le q_valid m (Config.name q)) as Hdv.
    pose proof (sum_by_delete_le q_invalid m (Config.name q)) as Hdi.
    destruct (fs (Config.name q)) as [| | files].
    + apply IH; cbn; rewrite sum_by_insert; cbn; lia.
    + cbn. rewrite !sum_by_insert. cbn. lia.
    + rewrite check_files. apply IH; cbn; rewrite sum_by_insert; cbn; lia.
Qed.

Lemma for_qualities_exact (fs : string -> Dir) (qualities : list Config.Quality)
      (r : Results) :
  NoDup (Config.name <$> qualities) ->
  (forall q, q ∈ qualities -> byQuality r !! Config.name q = None) ->
  valid r = sum_by q_valid (byQuality r) ->
  invalid r = sum_by q_invalid (byQuality r) ->
  (forall name c, byQuality r !! name = Some c -> c = counts_of (fs name)) ->
  let r' := for_qualities fs qualities r in
  valid r' = sum_by q_valid (byQuality r')
  /\ invalid r' = sum_by q_invalid (byQuality r')
  /\ (forall name c, byQuality r' !! name = Some c -> c = counts_of (fs name)).
Proof.
  cbv zeta. revert r.
  induction qualities as [| q rest IH]; intros [v i m] Hnd Hfresh Hv Hi Hc;
    cbn in Hfresh, Hv, Hi, Hc.
  - by repeat split.
  - cbn [fmap list_fmap] in Hnd. apply NoDup_cons in Hnd as [Hq Hnd].
    assert (Hm : m !! Config.name q = None) by (apply Hfresh; left).
    assert (Hrest : forall c q', q' ∈ rest ->
                                 <[Config.name q := c]> m !! Config.name q' = None).
    { intros c q' Hq'. rewrite lookup_insert_ne; [apply Hfresh; by right |].
      intros Heq. apply Hq. rewrite Heq. by apply list_elem_of_fmap_2. }
    cbn [for_qualities valid invalid byQuality].
    destruct (fs (Config.name q)) as [| | files] eqn:Hfs.
    + apply IH; cbn; [exact Hnd | apply Hrest | | |].
      * rewrite sum_by_insert_fresh by exact Hm. cbn. lia.
      * rewrite sum_by_insert_fresh by exact Hm. cbn. lia.
      * intros name c. destruct (decide (name = Config.name q)) as [-> | Hne].
        -- rewrite lookup_insert_eq, Hfs. by intros [= <-].
        -- rewrite lookup_insert_ne by done. apply Hc.
    + cbn. rewrite !sum_by_insert_fresh by exact Hm. cbn.
      split; [lia |]. split; [lia |].
      intros name c. destruct (decide (name = Config.name q)) as [-> | Hne].
      * rewrite lookup_insert_eq, Hfs. by intros [= <-].
      * rewrite lookup_insert_ne by done. apply Hc.
    + rewrite check_files. apply IH; cbn; [exact Hnd | apply Hrest | | |].
      * rewrite sum_by_insert_fresh by exact Hm. cbn. lia.
      * rewrite sum_by_insert_fresh by exact Hm. cbn. lia.
      * intros name c. destruct (decide (name = Config.name q)) as [-> | Hne].
        -- rewrite lookup_insert_eq, Hfs. by intros [= <-].
        -- rewrite lookup_insert_ne by done. apply Hc.
Qed.

(** X26. validateAllSegments: the per-quality counts never add up to more
    than the two totals. When the names of the qualities are distinct
    they add up to exactly the totals, and the entry of each quality
    visited holds the number of segment files (.ts or .m4s) of its
    directory that are at least 1024 bytes, and the number of those that
    are smaller or cannot be examined; zero and zero when the directory
    is missing or cannot be read. *)
Theorem validateAllSegments_counts_add_up
        (fs : string -> Dir) (qualities : list Config.Quality) :
  let r := validateAllSegments fs qualities in
  sum_by q_valid (byQuality r) <= valid r
  /\ sum_by q_invalid (byQuality r) <= invalid r
  /\ (NoDup (Config.name <$> qualities) ->
      valid r = sum_by q_valid (byQuality r)
      /\ invalid r = sum_by q_invalid (byQuality r)
      /\ forall name c, byQuality r !! name = Some c -> c = counts_of (fs name)).
Proof.
  cbv zeta. unfold validateAllSegments.
  destruct (for_qualities_le fs qualities (mkResults 0 0 ∅)) as [Hv Hi];
    [by cbn | by cbn |].
  split; [exact Hv |]. split; [exact Hi |].
  intros Hnd. by apply for_qualities_exact.
Qed.

Lemma validateAllSegments_counts_add_up_witness :
  let fs := fun name =>
              if String.eqb name "720p"
              then Listing [mkFile "segment000.ts" (Some 4096%Z);
                            mkFile "segment001.ts" (Some 10%Z);
                            mkFile "stream.m3u8" (Some 200%Z)]
              else Missing in
  let r := validateAllSegments fs [Config.mkQuality "1080p" 1920 1080 "5000k";
                                   Config.mkQuality "720p" 1280 720 "2500k"] in
  valid r = sum_by q_valid (byQuality r)
  /\ byQuality r !! "720p" = Some (mkCounts 1 1).
Proof.
  cbv zeta.
  destruct (validateAllSegments_counts_add_up
              (fun name =>
                 if String.eqb name "720p"
                 then Listing [mkFile "segment000.ts" (Some 4096%Z);
                               mkFile "segment001.ts" (Some 10%Z);
                               mkFile "stream.m3u8" (Some 200%Z)]
                 else Missing)
              [Config.mkQuality "1080p" 1920 1080 "5000k";
               Config.mkQuality "720p" 1280 720 "2500k"])
    as (_ & _ & Hexact).
  destruct Hexact as (Hv & _ & _).
  - cbn. apply NoDup_cons. split; [| apply NoDup_singleton].
    intros Hin. apply list_elem_of_singleton in Hin. discriminate.
  - split; [exact Hv | vm_compute; reflexivity].
Defined.

(** With a quality name that occurs twice the totals count its directory
    twice, and the per-quality entry once. *)
Example validateAllSegments_repeated_name :
  let fs := fun _ => Listing [mkFile "segment000.ts" (Some 4096%Z)] in
  let r := validateAllSegments fs [Config.mkQuality "720p" 1280 720 "2500k";
                                   Config.mkQuality "720p" 1280 720 "2500k"] in
  valid r = 2 /\ byQuality r !! "720p" = Some (mkCounts 1 0).
Proof. split; vm_compute; reflexivity. Qed.

End SegmentsFacts.
